(** * Sawyer door environments (multiworld/envs/mujoco/sawyer_door/sawyer_door_env.py)

    A shallow embedding of the goal-conditioned door environments and the
    properties of their specification.

    Conventions of the embedding.
    - numpy [float64] values are exact rationals ([Q]); rounding, infinities
      and NaN are outside the model.
    - A one-dimensional numpy array is a [list Q].  The arrays whose shape
      the physics engine fixes (a body position, a quaternion) are records.
    - Python exceptions are values of [exn]; code that can raise lives in
      the [result] monad.
    - The physics engine (mujoco_py), numpy's random generator and the
      collaborators that are defined outside this source file are the
      fields of an [Engine] record: the code is verified for every engine. *)

From Stdlib Require Import QArith Qabs Qminmax ZArith List String Bool Lia Lqa.
Import ListNotations.
Open Scope Q_scope.
Open Scope string_scope.
Open Scope list_scope.

(** ** Exceptions and the error monad *)

(** The Python values that occur as keyword arguments and dictionary keys. *)
Inductive pyval : Type :=
| PyNone
| PyBool (b : bool)
| PyInt (z : Z)
| PyFloat (q : Q)
| PyStr (s : string)
| PyTuple (l : list Q).

Definition kwargs : Type := list (string * pyval).

Inductive exn : Type :=
| NameError (name : string)
| TypeError (msg : string)
| ValueError (msg : string)
| KeyError (key : pyval)
| IndexError (msg : string)
| AttributeError (name : string)
| AssertionError
| ImportError (module : string)
| NotImplementedError (msg : string)
| ExternalError (msg : string).

Inductive result (A : Type) : Type :=
| Ok (a : A)
| Raise (e : exn).
Arguments Ok {A} a.
Arguments Raise {A} e.

Definition bind {A B : Type} (c : result A) (k : A -> result B) : result B :=
  match c with
  | Ok a => k a
  | Raise e => Raise e
  end.

Declare Scope py_scope.
Delimit Scope py_scope with py.
Notation "x <- c ;; k" := (bind c (fun x => k))
  (at level 61, c at next level, right associativity) : py_scope.
Notation "' p <- c ;; k" := (bind c (fun x => let 'p := x in k))
  (at level 61, p pattern, c at next level, right associativity) : py_scope.
Notation "c ;;; k" := (bind c (fun _ => k))
  (at level 61, right associativity) : py_scope.
Open Scope py_scope.

Definition returns {A : Type} (c : result A) : Prop := exists a, c = Ok a.
Definition raises {A : Type} (c : result A) : Prop := exists e, c = Raise e.

(** ** numpy on one-dimensional arrays *)

Definition ndarray : Type := list Q.

(** [np.clip(x, lo, hi)] is [minimum(maximum(x, lo), hi)]. *)
Definition np_clip (x lo hi : Q) : Q := Qmin (Qmax x lo) hi.

Fixpoint zip_with (f : Q -> Q -> Q) (a b : ndarray) : ndarray :=
  match a, b with
  | x :: a', y :: b' => f x y :: zip_with f a' b'
  | _, _ => []
  end.

(** An element-wise binary operator on two one-dimensional arrays, with
    numpy's broadcasting: a length-one operand is stretched, equal lengths
    are combined pointwise, anything else is a [ValueError]. *)
Definition broadcast (f : Q -> Q -> Q) (a b : ndarray) : result ndarray :=
  match a, b with
  | [x], _ => Ok (map (f x) b)
  | _, [y] => Ok (map (fun x => f x y) a)
  | _, _ =>
      if Nat.eqb (List.length a) (List.length b) then Ok (zip_with f a b)
      else Raise (ValueError "operands could not be broadcast together")
  end.

Definition np_sub : ndarray -> ndarray -> result ndarray := broadcast Qminus.
Definition np_abs (a : ndarray) : ndarray := map Qabs a.
Definition np_neg (a : ndarray) : ndarray := map Qopp a.
Definition np_scale (a : ndarray) (k : Q) : ndarray := map (fun x => x * k) a.

(** [(a < t)] for an array and a scalar, then [.astype(float)]. *)
Definition Qltb (x y : Q) : bool := negb (Qle_bool y x).
Definition np_lt (a : ndarray) (t : Q) : list bool := map (fun x => Qltb x t) a.
Definition astype_float (m : list bool) : ndarray :=
  map (fun b : bool => if b then 1 else 0) m.

(** [a[0]] *)
Definition getitem0 (a : ndarray) : result Q :=
  match a with
  | x :: _ => Ok x
  | [] => Raise (IndexError "index 0 is out of bounds for axis 0 with size 0")
  end.

(** [a[i]] for a non-negative index *)
Definition getitem (a : ndarray) (i : nat) : result Q :=
  match nth_error a i with
  | Some x => Ok x
  | None => Raise (IndexError "index out of bounds")
  end.

(** [target[:] = src] on a copy of [target] *)
Definition slice_assign (target src : ndarray) : result ndarray :=
  match src with
  | [x] => Ok (repeat x (List.length target))
  | _ =>
      if Nat.eqb (List.length src) (List.length target) then Ok src
      else Raise (ValueError "could not broadcast input array")
  end.

(** ** Data owned by the physics engine *)

Record vec3 : Type := mk_vec3 { vx : Q; vy : Q; vz : Q }.
Record quat : Type := mk_quat { qw : Q; qx : Q; qy : Q; qz : Q }.

Definition vec3_array (p : vec3) : ndarray := [vx p; vy p; vz p].

(** [mocap_pos + pos_delta]: shapes (1, 3) and (1, k). *)
Definition vec3_add (p : vec3) (delta : ndarray) : result vec3 :=
  match delta with
  | [d] => Ok (mk_vec3 (vx p + d) (vy p + d) (vz p + d))
  | [dx; dy; dz] => Ok (mk_vec3 (vx p + dx) (vy p + dy) (vz p + dz))
  | _ => Raise (ValueError "operands could not be broadcast together")
  end.

(** The part of [sim.data] and [sim.model] this file reads or writes.
    [hidden] stands for everything else the engine keeps. *)
Record MjData (H : Type) : Type := mk_MjData {
  time : Q;
  qpos : ndarray;
  qvel : ndarray;
  act : ndarray;
  ctrl : ndarray;
  endeff_xpos : vec3;       (* data.body_xpos[endeff_id] *)
  endeff_xquat : quat;      (* data.body_xquat[endeff_id] *)
  mocap_pos : vec3;         (* data.mocap_pos, one mocap body *)
  mocap_quat : quat;        (* data.mocap_quat *)
  nmocap : nat;             (* model.nmocap *)
  eq_type : list Z;         (* model.eq_type *)
  eq_data : option (list ndarray);   (* model.eq_data *)
  hidden : H
}.
Arguments mk_MjData {H}.
Arguments time {H}.
Arguments qpos {H}.
Arguments qvel {H}.
Arguments act {H}.
Arguments ctrl {H}.
Arguments endeff_xpos {H}.
Arguments endeff_xquat {H}.
Arguments mocap_pos {H}.
Arguments mocap_quat {H}.
Arguments nmocap {H}.
Arguments eq_type {H}.
Arguments eq_data {H}.
Arguments hidden {H}.

(** [mujoco_py.MjSimState]: what [sim.get_state()] copies out. *)
Record MjSimState : Type := mk_MjSimState {
  st_time : Q;
  st_qpos : ndarray;
  st_qvel : ndarray;
  st_act : ndarray
}.

(** [gym.spaces.Box(low, high)]: the bounds of each dimension. *)
Definition Box : Type := list (Q * Q).
Definition mk_Box (low high : ndarray) : Box := combine low high.

(** ** The collaborators of this file

    Everything the environment calls and that is not defined in
    sawyer_door_env.py: the MuJoCo simulator, numpy's global random
    generator and [np.linalg.norm], and the helpers inherited from
    [MultitaskEnv], [MujocoEnv] and [Serializable]. *)
Record Engine : Type := mk_Engine {
  Hidden : Type;
  Rng : Type;
  (* mujoco_py *)
  sim_step : MjData Hidden -> MjData Hidden;           (* sim.step() *)
  sim_forward : MjData Hidden -> MjData Hidden;        (* sim.forward() *)
  get_joint_qpos : MjData Hidden -> string -> Q;       (* data.get_joint_qpos(name) *)
  EQ_WELD : Z;                                         (* mujoco_py.const.EQ_WELD *)
  (* numpy *)
  uniform : Q -> Q -> Rng -> Q * Rng;                  (* one draw of np.random.uniform *)
  linalg_norm : ndarray -> Q;                          (* np.linalg.norm *)
  (* helpers looked up on self *)
  convert_ob_to_goal : ndarray -> result ndarray;
  sample_goal_for_rollout : Rng -> result (ndarray * Rng);
  MultitaskEnv_set_goal : ndarray -> result unit;
  (* construction *)
  quick_init : kwargs -> result unit;                  (* Serializable.quick_init *)
  MultitaskEnv___init__ : result unit;
  MujocoEnv___init__ : string -> nat -> result (MjData Hidden);
  get_asset_full_path : string -> string
}.

Inductive cls : Type :=
| SawyerDoorEnv
| SawyerDoorPushOpenEnv
| SawyerDoorPushOpenActionLimitedEnv
| SawyerDoorPushOpenAndReachEnv
| SawyerDoorPullOpenEnv.

(** The observation dictionary built by [_get_obs]. *)
Record Obs : Type := mk_Obs {
  observation : ndarray;
  desired_goal : ndarray;
  achieved_goal : ndarray;
  state_observation : ndarray;
  state_desired_goal : ndarray;
  state_achieved_goal : ndarray
}.

(** The dictionaries of [sample_goals] (a batch per key) and of
    [sample_goal] and [get_goal] (one goal per key). *)
Record GoalBatch : Type := mk_GoalBatch {
  gb_desired_goal : list ndarray;
  gb_state_desired_goal : list ndarray
}.
Record Goal : Type := mk_Goal {
  g_desired_goal : ndarray;
  g_state_desired_goal : ndarray
}.

(** An info dictionary, in insertion order. *)
Definition Info : Type := list (string * ndarray).

(** Where the mocap part of a snapshot points.  [get_env_state] stores the
    arrays [data.mocap_pos] and [data.mocap_quat] themselves, which are views
    of the simulator's memory, not copies: [Live].  A snapshot from elsewhere
    carries arrays of its own: [Stored]. *)
Inductive MocapRef : Type :=
| Live
| Stored (pos : vec3) (q : quat).

(** The value of [get_env_state]: ((joint_state, mocap_state), goal). *)
Record EnvState : Type := mk_EnvState {
  es_joint_state : MjSimState;
  es_mocap_state : MocapRef;
  es_goal : ndarray
}.

(** ** The module as Python executes it

    Importing sawyer_door_env.py runs its top-level statements in order.
    An import binds names; a class statement evaluates its bases and, for
    each member of its body, the decorators and the default-argument
    expressions, and only then binds the class name.  The bodies of the
    methods are not run: the names they mention are resolved when they are
    called. *)

Inductive stmt : Type :=
| Import (module : string) (names : list string)
| ClassDef (name : string) (bases : list string)
    (body : list (string * list string)).

Definition builtins : list string :=
  ["abs"; "all"; "any"; "ascii"; "bin"; "bool"; "breakpoint"; "bytearray";
   "bytes"; "callable"; "chr"; "classmethod"; "compile"; "complex";
   "delattr"; "dict"; "dir"; "divmod"; "enumerate"; "eval"; "exec";
   "filter"; "float"; "format"; "frozenset"; "getattr"; "globals";
   "hasattr"; "hash"; "help"; "hex"; "id"; "input"; "int"; "isinstance";
   "issubclass"; "iter"; "len"; "list"; "locals"; "map"; "max";
   "memoryview"; "min"; "next"; "object"; "oct"; "open"; "ord"; "pow";
   "print"; "property"; "range"; "repr"; "reversed"; "round"; "set";
   "setattr"; "slice"; "sorted"; "staticmethod"; "str"; "sum"; "super";
   "tuple"; "type"; "vars"; "zip"; "__import__"; "__name__"; "__doc__";
   "__file__"; "Exception"; "AttributeError"; "AssertionError";
   "ImportError"; "IndexError"; "KeyError"; "NameError";
   "NotImplementedError"; "TypeError"; "ValueError"].

Definition sawyer_door_env_py : list stmt :=
  [ Import "abc" ["abc"];
    Import "collections" ["OrderedDict"];
    Import "mujoco_py" ["mujoco_py"];
    Import "numpy" ["np"];
    Import "sys" ["sys"];
    Import "multiworld.envs.mujoco.mujoco_env" ["MujocoEnv"];
    Import "gym.spaces" ["Box"];
    Import "multiworld.core.serializable" ["Serializable"];
    Import "multiworld.envs.env_util"
      ["get_stat_in_paths"; "create_stats_ordered_dict"; "get_asset_full_path"];
    Import "multiworld.core.multitask_env" ["MultitaskEnv"];
    Import "railrl.exploration_strategies.base"
      ["PolicyWrappedWithExplorationStrategy"];
    Import "railrl.exploration_strategies.epsilon_greedy" ["EpsilonGreedy"];
    Import "railrl.exploration_strategies.ou_strategy" ["OUStrategy"];
    Import "railrl.policies.simple" ["ZeroPolicy"];
    ClassDef "SawyerDoorEnv" ["MultitaskEnv"; "MujocoEnv"; "Serializable"; "abc"]
      [ ("__init__", []); ("model_path", ["property"]);
        ("reset_mocap_welds", []); ("step", []); ("_get_obs", []);
        ("_get_info", []); ("mocap_set_action", []);
        ("reset_mocap2body_xpos", []); ("get_endeff_pos", []);
        ("get_door_angle", []); ("endeff_id", ["property"]);
        ("_compute_reward", []); ("compute_rewards", []); ("reset", []);
        ("init_angles", ["property"]); ("goal_dim", ["property"]);
        ("sample_goals", []); ("set_goal_angle", []); ("set_goal_pos", []);
        ("get_goal", []); ("set_to_goal", []); ("get_diagnostics", []);
        ("get_env_state", []); ("set_env_state", []) ];
    ClassDef "SawyerDoorPushOpenEnv" ["SawyerDoorEnv"]
      [ ("__init__", []); ("mocap_set_action", []) ];
    ClassDef "SawyerDoorPushOpenActionLimitedEnv" ["SawyerDoorPushOpenEnv"]
      [ ("__init__", []); ("mocap_set_action", []); ("set_to_goal", []) ];
    ClassDef "SawyerDoorPushOpenAndReachEnv" ["SawyerDoorPushOpenEnv"]
      [ ("__init__", []); ("step", []); ("_compute_reward", []);
        ("goal_dim", ["property"]); ("sample_goals", []);
        ("convert_obs_to_goals", []); ("compute_her_reward_np", []);
        ("set_goal_angle", []); ("set_goal_pos", []); ("set_goal", []);
        ("set_to_goal", []); ("get_goal", []);
        ("log_diagnostics", ["logger"]) ];
    ClassDef "SawyerDoorPullOpenEnv" ["SawyerDoorEnv"]
      [ ("__init__", []); ("mocap_set_action", []) ] ].

Definition bound (scope : list string) (name : string) : bool :=
  existsb (String.eqb name) scope.

(** Name resolution: the enclosing scopes, innermost first, then the
    builtins. *)
Definition resolve (scope : list string) (name : string) : result unit :=
  if bound (scope ++ builtins) name then Ok tt else Raise (NameError name).

Fixpoint resolve_all (scope : list string) (names : list string)
  : result unit :=
  match names with
  | [] => Ok tt
  | n :: names' => resolve scope n ;;; resolve_all scope names'
  end.

Fixpoint exec_body (globals locals : list string)
  (body : list (string * list string)) : result unit :=
  match body with
  | [] => Ok tt
  | (member, evaluated) :: body' =>
      resolve_all (locals ++ globals) evaluated ;;;
      exec_body globals (member :: locals) body'
  end.

(** [available m] tells whether module [m] can be imported. *)
Definition exec_stmt (available : string -> bool) (globals : list string)
  (s : stmt) : result (list string) :=
  match s with
  | Import m names =>
      if available m then Ok (names ++ globals) else Raise (ImportError m)
  | ClassDef name bases body =>
      resolve_all globals bases ;;;
      exec_body globals [] body ;;;
      Ok (name :: globals)
  end.

Fixpoint exec_module (available : string -> bool) (globals : list string)
  (prog : list stmt) : result (list string) :=
  match prog with
  | [] => Ok globals
  | s :: prog' =>
      globals <- exec_stmt available globals s ;;
      exec_module available globals prog'
  end.

(** Every name the statements of a program would bind. *)
Fixpoint bound_names (prog : list stmt) : list string :=
  match prog with
  | [] => []
  | Import _ names :: prog' => names ++ bound_names prog'
  | ClassDef name _ _ :: prog' => name :: bound_names prog'
  end.

(** ** Binding keyword arguments *)

Fixpoint check_keywords (params : list string) (kw : kwargs) : result unit :=
  match kw with
  | [] => Ok tt
  | (k, _) :: kw' =>
      if bound params k then check_keywords params kw'
      else Raise (TypeError
             (String.append "__init__() got an unexpected keyword argument '"
                (String.append k "'")))
  end.

Fixpoint kw_get (kw : kwargs) (name : string) : option pyval :=
  match kw with
  | [] => None
  | (k, v) :: kw' => if String.eqb k name then Some v else kw_get kw' name
  end.

Definition kw_default (kw : kwargs) (name : string) (default : pyval) : pyval :=
  match kw_get kw name with Some v => v | None => default end.

Definition kw_remove (kw : kwargs) (names : list string) : kwargs :=
  filter (fun kv => negb (bound names (fst kv))) kw.

(** The attributes of [Env] are typed: a keyword value of another kind than
    its parameter is rejected when it is read. *)
Definition as_float (v : pyval) : result Q :=
  match v with
  | PyFloat q => Ok q
  | PyInt z => Ok (inject_Z z)
  | PyBool b => Ok (if b then 1 else 0)
  | _ => Raise (TypeError "a number is required")
  end.

Definition as_nat (v : pyval) : result nat :=
  match v with
  | PyInt z => Ok (Z.to_nat z)
  | PyBool b => Ok (if b then 1%nat else 0%nat)
  | _ => Raise (TypeError "an integer is required")
  end.

Definition as_bool (v : pyval) : result bool :=
  match v with
  | PyBool b => Ok b
  | _ => Raise (TypeError "a bool is required")
  end.

Definition as_str (v : pyval) : result string :=
  match v with
  | PyStr s => Ok s
  | _ => Raise (TypeError "a string is required")
  end.

Definition as_array (v : pyval) : result ndarray :=
  match v with
  | PyTuple l => Ok l
  | _ => Raise (TypeError "a sequence of numbers is required")
  end.

Section Environment.

Context (E : Engine).

Local Abbreviation Data := (MjData (Hidden E)).

(** The attributes of an environment object.  [klass] is [type(self)].
    [max_x_pos], [max_y_pos] and [min_y_pos] exist on the action-limited
    class only, [target_pos_scale], [target_angle_scale] and [_goal_pos] on
    the reach class only; the spaces that no method reads ([action_space],
    [state_space], [observation_space], [_state_goal]) are left out.
    [np_random] is numpy's process-wide generator.

    [SawyerDoorPushOpenAndReachEnv.__init__] never calls the constructor of
    [SawyerDoorEnv] and never assigns [reward_type], [indicator_threshold],
    [fix_goal] and [fixed_goal]: an object of the reach class has no such
    attributes and reading one raises [AttributeError].  The record has the
    four fields for every class, so what is proved of a method that reads
    one of them holds of the code for the four other classes; the methods
    the reach class defines itself ([step], [_compute_reward],
    [sample_goals], [compute_her_reward_np], [set_goal], [set_to_goal],
    [get_goal]) read none of them. *)
Record Env : Type := mk_Env {
  klass : cls;
  frame_skip : nat;
  reward_type : string;
  indicator_threshold : Q;
  fix_goal : bool;
  fixed_goal : ndarray;
  goal_space : Box;
  _pos_action_scale : Q;
  action_reward_scale : Q;
  _goal_angle : ndarray;
  max_x_pos : Q;
  max_y_pos : Q;
  min_y_pos : Q;
  target_pos_scale : Q;
  target_angle_scale : Q;
  _goal_pos : ndarray;
  data : Data;
  np_random : Rng E
}.

(** *** Attribute assignment *)

Definition set_data (self : Env) (d : Data) : Env :=
  mk_Env (klass self) (frame_skip self) (reward_type self)
    (indicator_threshold self) (fix_goal self) (fixed_goal self)
    (goal_space self) (_pos_action_scale self) (action_reward_scale self)
    (_goal_angle self) (max_x_pos self) (max_y_pos self) (min_y_pos self)
    (target_pos_scale self) (target_angle_scale self) (_goal_pos self)
    d (np_random self).

Definition set__goal_angle (self : Env) (g : ndarray) : Env :=
  mk_Env (klass self) (frame_skip self) (reward_type self)
    (indicator_threshold self) (fix_goal self) (fixed_goal self)
    (goal_space self) (_pos_action_scale self) (action_reward_scale self)
    g (max_x_pos self) (max_y_pos self) (min_y_pos self)
    (target_pos_scale self) (target_angle_scale self) (_goal_pos self)
    (data self) (np_random self).

Definition set__goal_pos (self : Env) (g : ndarray) : Env :=
  mk_Env (klass self) (frame_skip self) (reward_type self)
    (indicator_threshold self) (fix_goal self) (fixed_goal self)
    (goal_space self) (_pos_action_scale self) (action_reward_scale self)
    (_goal_angle self) (max_x_pos self) (max_y_pos self) (min_y_pos self)
    (target_pos_scale self) (target_angle_scale self) g
    (data self) (np_random self).

Definition set_np_random (self : Env) (g : Rng E) : Env :=
  mk_Env (klass self) (frame_skip self) (reward_type self)
    (indicator_threshold self) (fix_goal self) (fixed_goal self)
    (goal_space self) (_pos_action_scale self) (action_reward_scale self)
    (_goal_angle self) (max_x_pos self) (max_y_pos self) (min_y_pos self)
    (target_pos_scale self) (target_angle_scale self) (_goal_pos self)
    (data self) g.

Definition set_reward_type (self : Env) (rt : string) : Env :=
  mk_Env (klass self) (frame_skip self) rt
    (indicator_threshold self) (fix_goal self) (fixed_goal self)
    (goal_space self) (_pos_action_scale self) (action_reward_scale self)
    (_goal_angle self) (max_x_pos self) (max_y_pos self) (min_y_pos self)
    (target_pos_scale self) (target_angle_scale self) (_goal_pos self)
    (data self) (np_random self).

Definition set_mocap_pos (d : Data) (p : vec3) : Data :=
  mk_MjData (time d) (qpos d) (qvel d) (act d) (ctrl d) (endeff_xpos d)
    (endeff_xquat d) p (mocap_quat d) (nmocap d) (eq_type d) (eq_data d)
    (hidden d).

Definition set_mocap_quat (d : Data) (q : quat) : Data :=
  mk_MjData (time d) (qpos d) (qvel d) (act d) (ctrl d) (endeff_xpos d)
    (endeff_xquat d) (mocap_pos d) q (nmocap d) (eq_type d) (eq_data d)
    (hidden d).

Definition set_ctrl (d : Data) (u : ndarray) : Data :=
  mk_MjData (time d) (qpos d) (qvel d) (act d) u (endeff_xpos d)
    (endeff_xquat d) (mocap_pos d) (mocap_quat d) (nmocap d) (eq_type d)
    (eq_data d) (hidden d).

Definition set_eq_data (d : Data) (rows : option (list ndarray)) : Data :=
  mk_MjData (time d) (qpos d) (qvel d) (act d) (ctrl d) (endeff_xpos d)
    (endeff_xquat d) (mocap_pos d) (mocap_quat d) (nmocap d) (eq_type d)
    rows (hidden d).

(** [sim.get_state()] and [sim.set_state(state)] of mujoco_py: the time, the
    joint positions and velocities and the actuator activations are copied
    out of, and back into, the simulator's data. *)
Definition sim_get_state (d : Data) : MjSimState :=
  mk_MjSimState (time d) (qpos d) (qvel d) (act d).

Definition sim_set_state (d : Data) (s : MjSimState) : result Data :=
  new_qpos <- slice_assign (qpos d) (st_qpos s) ;;
  new_qvel <- slice_assign (qvel d) (st_qvel s) ;;
  new_act <- (if Nat.eqb (List.length (act d)) 0 then Ok (act d)
              else slice_assign (act d) (st_act s)) ;;
  Ok (mk_MjData (st_time s) new_qpos new_qvel new_act (ctrl d)
        (endeff_xpos d) (endeff_xquat d) (mocap_pos d) (mocap_quat d)
        (nmocap d) (eq_type d) (eq_data d) (hidden d)).

(** Modelled from the spec: [MujocoEnv.do_simulation] (mujoco_env.py is not
    part of this source file).  "advance simulation by N sub-steps given a
    per-joint torque vector": the control vector is stored and the simulator
    is stepped [n_frames] times. *)
Definition do_simulation (self : Env) (u : ndarray) (n_frames : nat) : Env :=
  set_data self (Nat.iter n_frames (sim_step E) (set_ctrl (data self) u)).

(** Modelled from the spec: [MujocoEnv.set_state] (mujoco_env.py is not part
    of this source file).  "query/set joint positions and velocities": the
    shapes are asserted, the joint state is replaced and the derived
    quantities are recomputed with [sim.forward()]. *)
Definition set_state (self : Env) (new_qpos new_qvel : ndarray) : result Env :=
  let d := data self in
  if Nat.eqb (List.length new_qpos) (List.length (qpos d))
     && Nat.eqb (List.length new_qvel) (List.length (qvel d))
  then
    let old_state := sim_get_state d in
    let new_state :=
      mk_MjSimState (st_time old_state) new_qpos new_qvel (st_act old_state) in
    d <- sim_set_state d new_state ;;
    Ok (set_data self (sim_forward E d))
  else Raise AssertionError.

(** *** Reading the simulator *)

Definition get_endeff_pos (self : Env) : ndarray :=
  vec3_array (endeff_xpos (data self)).

Definition get_door_angle (self : Env) : ndarray :=
  [get_joint_qpos E (data self) "doorjoint"].

Definition _get_obs (self : Env) : Obs :=
  let pos := get_endeff_pos self in
  let angle := get_door_angle self in
  let flat_obs := pos ++ angle in
  mk_Obs flat_obs (_goal_angle self) angle flat_obs (_goal_angle self) angle.

Definition _get_info (self : Env) : result Info :=
  d <- np_sub (get_door_angle self) (_goal_angle self) ;;
  let angle_diff := np_abs d in
  Ok [("angle_difference", angle_diff);
      ("angle_success",
       astype_float (np_lt angle_diff (indicator_threshold self)))].

(** *** The action mapper *)

Definition reset_mocap2body_xpos (d : Data) : Data :=
  set_mocap_quat (set_mocap_pos d (endeff_xpos d)) (endeff_xquat d).

Definition SawyerDoorEnv_mocap_set_action (self : Env) (action : ndarray)
  : result Env :=
  let pos_delta := action in
  let d := reset_mocap2body_xpos (data self) in
  new_mocap_pos <- vec3_add (mocap_pos d) pos_delta ;;
  let new_mocap_pos :=
    mk_vec3 (vx new_mocap_pos) (vy new_mocap_pos) (np_clip 0.06 0 0.5) in
  let d := set_mocap_pos d new_mocap_pos in
  Ok (set_data self (set_mocap_quat d (mk_quat 1 0 1 0))).

Definition SawyerDoorPushOpenEnv_mocap_set_action (self : Env)
  (action : ndarray) : result Env :=
  let pos_delta := action in
  let d := reset_mocap2body_xpos (data self) in
  new_mocap_pos <- vec3_add (mocap_pos d) pos_delta ;;
  let new_mocap_pos :=
    mk_vec3 (np_clip (vx new_mocap_pos) (-0.15) 0.15)
            (np_clip (vy new_mocap_pos) 0.5 2)
            (np_clip 0.06 0 0.5) in
  let d := set_mocap_pos d new_mocap_pos in
  Ok (set_data self (set_mocap_quat d (mk_quat 1 0 1 0))).

Definition SawyerDoorPushOpenActionLimitedEnv_mocap_set_action (self : Env)
  (action : ndarray) : result Env :=
  let pos_delta := action in
  let d := reset_mocap2body_xpos (data self) in
  new_mocap_pos <- vec3_add (mocap_pos d) pos_delta ;;
  let new_mocap_pos :=
    mk_vec3 (np_clip (vx new_mocap_pos) (- max_x_pos self) (max_x_pos self))
            (np_clip (vy new_mocap_pos) (min_y_pos self) (max_y_pos self))
            (np_clip 0.06 0 0.5) in
  let d := set_mocap_pos d new_mocap_pos in
  Ok (set_data self (set_mocap_quat d (mk_quat 1 0 1 0))).

Definition SawyerDoorPullOpenEnv_mocap_set_action (self : Env)
  (action : ndarray) : result Env :=
  let pos_delta := action in
  let d := reset_mocap2body_xpos (data self) in
  new_mocap_pos <- vec3_add (mocap_pos d) pos_delta ;;
  let new_mocap_pos :=
    mk_vec3 (np_clip (vx new_mocap_pos) (-0.15) 0.15)
            (np_clip (vy new_mocap_pos) (-3) 0.7)
            (np_clip 0.06 0 0.5) in
  let d := set_mocap_pos d new_mocap_pos in
  Ok (set_data self (set_mocap_quat d (mk_quat 1 0 1 0))).

(** [self.mocap_set_action]: the method of the most derived class. *)
Definition mocap_set_action (self : Env) (action : ndarray) : result Env :=
  match klass self with
  | SawyerDoorEnv => SawyerDoorEnv_mocap_set_action self action
  | SawyerDoorPushOpenEnv => SawyerDoorPushOpenEnv_mocap_set_action self action
  | SawyerDoorPushOpenActionLimitedEnv =>
      SawyerDoorPushOpenActionLimitedEnv_mocap_set_action self action
  | SawyerDoorPushOpenAndReachEnv =>
      SawyerDoorPushOpenEnv_mocap_set_action self action
  | SawyerDoorPullOpenEnv => SawyerDoorPullOpenEnv_mocap_set_action self action
  end.

(** *** Rewards *)

Definition _compute_reward (self : Env) (obs goal action : ndarray)
  : result Q :=
  actual_angle <- convert_ob_to_goal E obs ;;
  diff <- np_sub actual_angle goal ;;
  d0 <- getitem0 (np_abs diff) ;;
  Ok (- d0 - linalg_norm E action * action_reward_scale self).

Definition compute_rewards (self : Env) (achieved_goals desired_goals : ndarray)
  (info : Info) : result ndarray :=
  d <- np_sub achieved_goals desired_goals ;;
  let r := np_abs d in
  if String.eqb (reward_type self) "angle_difference" then
    Ok (np_neg r)
  else if String.eqb (reward_type self) "hand_success" then
    Ok (np_neg (astype_float (np_lt r (indicator_threshold self))))
  else
    Raise (NotImplementedError "Invalid/no reward type.").

(** Modelled from the spec: [MultitaskEnv.compute_reward]
    (multitask_env.py is not part of this source file).
    "compute_reward(achieved, desired, info) -> scalar and
    compute_rewards(achieved_batch, desired_batch, info) -> array": the
    reward of one sample is the batch reward of that sample alone. *)
Definition compute_reward (self : Env) (achieved_goal desired_goal : ndarray)
  (info : Info) : result ndarray :=
  compute_rewards self achieved_goal desired_goal info.

(** *** step *)

Definition SawyerDoorEnv_step (self : Env) (a : ndarray)
  : result (Env * (Obs * ndarray * bool * Info)) :=
  let a := map (fun x => np_clip x (-1) 1) a in
  self <- mocap_set_action self (np_scale (firstn 3 a) (_pos_action_scale self)) ;;
  let u := repeat 0 7 in
  let self := do_simulation self u (frame_skip self) in
  info <- _get_info self ;;
  let obs := _get_obs self in
  reward <- compute_reward self (achieved_goal obs) (desired_goal obs) info ;;
  let done := false in
  Ok (self, (obs, reward, done, info)).

(** The reach class inherits [_get_obs], so the [obs] its methods index is
    the dictionary above, whose keys are six strings: [obs[-1]] and
    [obs[:3]] raise. *)
Definition Obs_getitem_int (obs : Obs) (k : Z) : result Q :=
  Raise (KeyError (PyInt k)).
Definition Obs_getitem_slice (obs : Obs) (stop : nat) : result ndarray :=
  Raise (TypeError "unhashable type: 'slice'").

Definition SawyerDoorPushOpenAndReachEnv__compute_reward (self : Env)
  (obs : Obs) (goal action : ndarray) : result (Q * Q * Q) :=
  actual_angle <- Obs_getitem_int obs (-1) ;;
  goal_angle <- getitem0 (rev goal) ;;
  pos <- Obs_getitem_slice obs 3 ;;
  let goal_pos := firstn 3 goal in
  diff <- np_sub pos goal_pos ;;
  Ok (Qabs (actual_angle - goal_angle), linalg_norm E action,
      linalg_norm E diff).

(** [np.array([_goal_pos[0], _goal_pos[1], _goal_pos[2], _goal_angle])];
    the scalar goal angle of the reach class is a one-element list. *)
Definition SawyerDoorPushOpenAndReachEnv_get_goal (self : Env)
  : result ndarray :=
  g0 <- getitem (_goal_pos self) 0 ;;
  g1 <- getitem (_goal_pos self) 1 ;;
  g2 <- getitem (_goal_pos self) 2 ;;
  match _goal_angle self with
  | [g] => Ok [g0; g1; g2; g]
  | _ => Raise (ValueError "setting an array element with a sequence.")
  end.

Definition SawyerDoorPushOpenAndReachEnv_step (self : Env) (a : ndarray)
  : result (Env * (Obs * ndarray * bool * Info)) :=
  let a := map (fun x => np_clip x (-1) 1) a in
  self <- mocap_set_action self (np_scale (firstn 3 a) (_pos_action_scale self)) ;;
  let u := repeat 0 7 in
  let self := do_simulation self u (frame_skip self) in
  let obs := _get_obs self in
  goal <- SawyerDoorPushOpenAndReachEnv_get_goal self ;;
  '(angle_dist, action_penalty, pos_dist) <-
     SawyerDoorPushOpenAndReachEnv__compute_reward self obs goal a ;;
  let reward :=
    -1 * (angle_dist * target_angle_scale self
          + action_penalty * action_reward_scale self
          + pos_dist * target_pos_scale self) in
  let done := false in
  let info := [("angle_difference", [angle_dist]);
               ("distance", [pos_dist]);
               ("total_distance", [angle_dist + pos_dist])] in
  Ok (self, (obs, [reward], done, info)).

(** [self.step]: the method of the most derived class. *)
Definition step (self : Env) (a : ndarray)
  : result (Env * (Obs * ndarray * bool * Info)) :=
  match klass self with
  | SawyerDoorPushOpenAndReachEnv => SawyerDoorPushOpenAndReachEnv_step self a
  | _ => SawyerDoorEnv_step self a
  end.

(** *** Goals *)

(** One row of [np.random.uniform(low, high, size=(n, low.size))]. *)
Fixpoint uniform_row (b : Box) (g : Rng E) : ndarray * Rng E :=
  match b with
  | [] => ([], g)
  | (lo, hi) :: b' =>
      let (x, g1) := uniform E lo hi g in
      let (xs, g2) := uniform_row b' g1 in
      (x :: xs, g2)
  end.

Fixpoint uniform_rows (n : nat) (b : Box) (g : Rng E)
  : list ndarray * Rng E :=
  match n with
  | O => ([], g)
  | S n' =>
      let (r, g1) := uniform_row b g in
      let (rs, g2) := uniform_rows n' b g1 in
      (r :: rs, g2)
  end.

(** What [sample_goals] returns: a dictionary in the base class, a bare
    array in the reach class. *)
Inductive goals_value : Type :=
| GoalsDict (b : GoalBatch)
| GoalsArray (a : ndarray).

Definition SawyerDoorEnv_sample_goals (self : Env) (batch_size : nat)
  : GoalBatch * Env :=
  let (goals, self) :=
    if fix_goal self then (repeat (fixed_goal self) batch_size, self)
    else
      let (rows, g) := uniform_rows batch_size (goal_space self) (np_random self) in
      (rows, set_np_random self g) in
  (mk_GoalBatch goals goals, self).

(** [np.random.uniform(low, high, batch_size)]: the bounds have to
    broadcast against the shape [(batch_size,)]. *)
Definition SawyerDoorPushOpenAndReachEnv_sample_goals (self : Env)
  (batch_size : nat) : result (ndarray * Env) :=
  match goal_space self with
  | [(lo, hi)] =>
      let (row, g) := uniform_row (repeat (lo, hi) batch_size) (np_random self) in
      Ok (row, set_np_random self g)
  | b =>
      if Nat.eqb (List.length b) batch_size then
        let (row, g) := uniform_row b (np_random self) in
        Ok (row, set_np_random self g)
      else Raise (ValueError "shape mismatch: objects cannot be broadcast to a single shape")
  end.

Definition sample_goals (self : Env) (batch_size : nat)
  : result (goals_value * Env) :=
  match klass self with
  | SawyerDoorPushOpenAndReachEnv =>
      '(a, self) <- SawyerDoorPushOpenAndReachEnv_sample_goals self batch_size ;;
      Ok (GoalsArray a, self)
  | _ =>
      let (b, self) := SawyerDoorEnv_sample_goals self batch_size in
      Ok (GoalsDict b, self)
  end.

Definition batch_getitem (rows : list ndarray) (i : nat) : result ndarray :=
  match nth_error rows i with
  | Some r => Ok r
  | None => Raise (IndexError "index out of bounds")
  end.

(** Modelled from the spec: [MultitaskEnv.sample_goal] and
    [MultitaskEnv.unbatchify_dict] (multitask_env.py is not part of this
    source file).  A goal is "sampled at reset": a batch of one goal is
    drawn with [sample_goals] and entry [i] of every key is taken. *)
Definition unbatchify_dict (v : goals_value) (i : nat) : result Goal :=
  match v with
  | GoalsDict b =>
      dg <- batch_getitem (gb_desired_goal b) i ;;
      sg <- batch_getitem (gb_state_desired_goal b) i ;;
      Ok (mk_Goal dg sg)
  | GoalsArray _ => Raise (AttributeError "keys")
  end.

Definition sample_goal (self : Env) : result (Goal * Env) :=
  '(goals, self) <- sample_goals self 1 ;;
  g <- unbatchify_dict goals 0 ;;
  Ok (g, self).

Definition SawyerDoorEnv_get_goal (self : Env) : Goal :=
  mk_Goal (_goal_angle self) (_goal_angle self).

Definition init_angles : ndarray :=
  [0;
   1.02866769; - 0.695207647; 0.422932911;
   1.76670458; - 0.569637604; 0.624117280;
   3.53404635].

Definition reset (self : Env) (resample_on_reset : bool) : result (Env * Obs) :=
  let angles := qpos (data self) in
  let velocities := qvel (data self) in
  angles <- slice_assign angles init_angles ;;
  let velocities := repeat 0 (List.length velocities) in
  self <- set_state self angles velocities ;;
  self <- (if resample_on_reset then
             '(goal, self) <- sample_goal self ;;
             Ok (set__goal_angle self (g_state_desired_goal goal))
           else Ok self) ;;
  Ok (self, _get_obs self).

(** *** Snapshots *)

Definition get_env_state (self : Env) : EnvState :=
  let joint_state := sim_get_state (data self) in
  let mocap_state := Live in
  let goal := _goal_angle self in
  mk_EnvState joint_state mocap_state goal.

Definition mocap_pos_of (d : Data) (m : MocapRef) : vec3 :=
  match m with Live => mocap_pos d | Stored p _ => p end.
Definition mocap_quat_of (d : Data) (m : MocapRef) : quat :=
  match m with Live => mocap_quat d | Stored _ q => q end.

Definition set_env_state (self : Env) (state : EnvState) : result Env :=
  let goal := es_goal state in
  let joint_state := es_joint_state state in
  let mocap_state := es_mocap_state state in
  d <- sim_set_state (data self) joint_state ;;
  let d := set_mocap_pos d (mocap_pos_of d mocap_state) in
  let d := set_mocap_quat d (mocap_quat_of d mocap_state) in
  let d := sim_forward E d in
  Ok (set__goal_angle (set_data self d) goal).

(** *** Construction *)

Fixpoint weld_rows (weld : Z) (types : list Z) (rows : list ndarray)
  : list ndarray :=
  match rows, types with
  | r :: rows', t :: types' =>
      (if Z.eqb t weld then [0; 0; 0; 1; 0; 0; 0] else r)
        :: weld_rows weld types' rows'
  | _, _ => rows
  end.

Definition reset_mocap_welds (d : Data) : Data :=
  let d :=
    match eq_data d with
    | Some rows =>
        if Nat.ltb 0 (nmocap d)
        then set_eq_data d (Some (weld_rows (EQ_WELD E) (eq_type d) rows))
        else d
    | None => d
    end in
  sim_forward E d.

Definition SawyerDoorEnv_params : list string :=
  ["frame_skip"; "goal_low"; "goal_high"; "pos_action_scale";
   "action_reward_scale"; "reward_type"; "indicator_threshold"; "fix_goal";
   "fixed_goal"].

(** [SawyerDoorEnv.__init__] called with keywords [kw].  [k] is the class being
    instantiated, [limits] the attributes [max_x_pos], [max_y_pos] and
    [min_y_pos] that the action-limited subclass assigns before it calls
    up, [globals] the namespace of the module. *)
Definition SawyerDoorEnv___init__ (globals : list string) (k : cls)
  (limits : Q * Q * Q) (rng : Rng E) (kw : kwargs) : result Env :=
  check_keywords SawyerDoorEnv_params kw ;;;
  frame_skip <- as_nat (kw_default kw "frame_skip" (PyInt 30)) ;;
  goal_low <- as_float (kw_default kw "goal_low" (PyFloat (-1.5708))) ;;
  goal_high <- as_float (kw_default kw "goal_high" (PyFloat 1.5708)) ;;
  pos_action_scale <-
    as_float (kw_default kw "pos_action_scale" (PyFloat (1 / 100))) ;;
  action_reward_scale <-
    as_float (kw_default kw "action_reward_scale" (PyInt 0)) ;;
  reward_type <-
    as_str (kw_default kw "reward_type" (PyStr "angle_difference")) ;;
  indicator_threshold <-
    as_float (kw_default kw "indicator_threshold" (PyFloat 0.02)) ;;
  fix_goal <- as_bool (kw_default kw "fix_goal" (PyBool false)) ;;
  fixed_goal <-
    as_array (kw_default kw "fixed_goal" (PyTuple [0.15; 0.6; 0.3])) ;;
  resolve globals "locals" ;;;
  quick_init E kw ;;;
  resolve globals "MultitaskEnv" ;;;
  MultitaskEnv___init__ E ;;;
  resolve globals "MujocoEnv" ;;;
  resolve globals "get_asset_full_path" ;;;
  d <- MujocoEnv___init__ E
         (get_asset_full_path E "sawyer_door/sawyer_door.xml") frame_skip ;;
  resolve globals "np" ;;;
  resolve globals "Box" ;;;
  let goal_space := mk_Box [goal_low] [goal_high] in
  resolve globals "Dict" ;;;
  let '(max_x, max_y, min_y) := limits in
  let self :=
    mk_Env k frame_skip reward_type indicator_threshold fix_goal fixed_goal
      goal_space pos_action_scale action_reward_scale [] max_x max_y min_y
      0 0 [] d rng in
  '(self, _) <- reset self true ;;
  Ok (set_data self (reset_mocap_welds (data self))).

Definition SawyerDoorPushOpenEnv___init__ (globals : list string) (k : cls)
  (limits : Q * Q * Q) (rng : Rng E) (kw : kwargs) : result Env :=
  let min_angle := kw_default kw "min_angle" (PyInt 0) in
  let max_angle := kw_default kw "max_angle" (PyFloat 0.5) in
  let kwargs := kw_remove kw ["min_angle"; "max_angle"] in
  resolve globals "locals" ;;;
  quick_init E kw ;;;
  resolve globals "super" ;;;
  SawyerDoorEnv___init__ globals k limits rng
    (("min_angle", min_angle) :: ("max_angle", max_angle) :: kwargs).

Definition SawyerDoorPushOpenActionLimitedEnv___init__
  (globals : list string) (k : cls) (rng : Rng E) (kw : kwargs)
  : result Env :=
  let kwargs := kw_remove kw ["max_x_pos"; "max_y_pos"] in
  max_x_pos <- as_float (kw_default kw "max_x_pos" (PyFloat 0.1)) ;;
  max_y_pos <- as_float (kw_default kw "max_y_pos" (PyFloat 0.7)) ;;
  resolve globals "locals" ;;;
  quick_init E kw ;;;
  let min_y_pos := 0.5 in
  resolve globals "super" ;;;
  SawyerDoorPushOpenEnv___init__ globals k (max_x_pos, max_y_pos, min_y_pos)
    rng kwargs.

Definition SawyerDoorPullOpenEnv___init__ (globals : list string) (k : cls)
  (rng : Rng E) (kw : kwargs) : result Env :=
  let min_angle := kw_default kw "min_angle" (PyFloat (-0.5)) in
  let max_angle := kw_default kw "max_angle" (PyInt 0) in
  let kwargs := kw_remove kw ["min_angle"; "max_angle"] in
  resolve globals "locals" ;;;
  quick_init E kw ;;;
  resolve globals "super" ;;;
  SawyerDoorEnv___init__ globals k (0, 0, 0) rng
    (("min_angle", min_angle) :: ("max_angle", max_angle) :: kwargs).

Definition SawyerDoorPushOpenAndReachEnv_params : list string :=
  ["frame_skip"; "min_angle"; "max_angle"; "pos_action_scale";
   "action_reward_scale"; "goal"; "target_pos_scale"; "target_angle_scale"].

Definition SawyerDoorPushOpenAndReachEnv___init__ (globals : list string)
  (k : cls) (rng : Rng E) (kw : kwargs) : result Env :=
  check_keywords SawyerDoorPushOpenAndReachEnv_params kw ;;;
  frame_skip <- as_nat (kw_default kw "frame_skip" (PyInt 30)) ;;
  min_angle <- as_float (kw_default kw "min_angle" (PyInt 0)) ;;
  max_angle <- as_float (kw_default kw "max_angle" (PyFloat 0.5)) ;;
  pos_action_scale <-
    as_float (kw_default kw "pos_action_scale" (PyFloat (1 / 100))) ;;
  action_reward_scale <-
    as_float (kw_default kw "action_reward_scale" (PyInt 0)) ;;
  target_pos_scale <- as_float (kw_default kw "target_pos_scale" (PyInt 0)) ;;
  target_angle_scale <-
    as_float (kw_default kw "target_angle_scale" (PyInt 1)) ;;
  resolve globals "locals" ;;;
  quick_init E kw ;;;
  resolve globals "Box" ;;;
  resolve globals "np" ;;;
  let goal_space :=
    mk_Box [-0.1; 0.5; 0.06; min_angle] [0.1; 0.6; 0.06; max_angle] in
  '(goal, rng) <-
     match kw_default kw "goal" PyNone with
     | PyNone => sample_goal_for_rollout E rng
     | v => g <- as_array v ;; Ok (g, rng)
     end ;;
  (* self.set_goal(goal) *)
  resolve globals "MultitaskEnv" ;;;
  MultitaskEnv_set_goal E goal ;;;
  goal_angle <- getitem0 (rev goal) ;;
  let goal_pos := firstn 3 goal in
  resolve globals "MujocoEnv" ;;;
  resolve globals "get_asset_full_path" ;;;
  d <- MujocoEnv___init__ E
         (get_asset_full_path E "sawyer_door/sawyer_door.xml") frame_skip ;;
  let self :=
    mk_Env k frame_skip "" 0 false [] goal_space pos_action_scale
      action_reward_scale [goal_angle] 0 0 0 target_pos_scale
      target_angle_scale goal_pos d rng in
  '(self, _) <- reset self true ;;
  Ok (set_data self (reset_mocap_welds (data self))).

Definition class_name (k : cls) : string :=
  match k with
  | SawyerDoorEnv => "SawyerDoorEnv"
  | SawyerDoorPushOpenEnv => "SawyerDoorPushOpenEnv"
  | SawyerDoorPushOpenActionLimitedEnv => "SawyerDoorPushOpenActionLimitedEnv"
  | SawyerDoorPushOpenAndReachEnv => "SawyerDoorPushOpenAndReachEnv"
  | SawyerDoorPullOpenEnv => "SawyerDoorPullOpenEnv"
  end.

(** Calling class [k] with the keyword arguments [kw], against the module
    namespace [globals]. *)
Definition __init__ (globals : list string) (k : cls) (rng : Rng E)
  (kw : kwargs) : result Env :=
  match k with
  | SawyerDoorEnv => SawyerDoorEnv___init__ globals k (0, 0, 0) rng kw
  | SawyerDoorPushOpenEnv =>
      SawyerDoorPushOpenEnv___init__ globals k (0, 0, 0) rng kw
  | SawyerDoorPushOpenActionLimitedEnv =>
      SawyerDoorPushOpenActionLimitedEnv___init__ globals k rng kw
  | SawyerDoorPushOpenAndReachEnv =>
      SawyerDoorPushOpenAndReachEnv___init__ globals k rng kw
  | SawyerDoorPullOpenEnv => SawyerDoorPullOpenEnv___init__ globals k rng kw
  end.

(** What a caller does to obtain an environment: import the module, look
    the class up in it and call it. *)
Definition construct (available : string -> bool) (k : cls) (rng : Rng E)
  (kw : kwargs) : result Env :=
  globals <- exec_module available [] sawyer_door_env_py ;;
  resolve globals (class_name k) ;;;
  __init__ globals k rng kw.

(** *** Forcing the simulation to a goal *)

(** [a[0] = v] on a copy of [a]: the index is checked, then the value is
    converted to one float. *)
Definition setitem0 (a : ndarray) (v : result Q) : result ndarray :=
  match a with
  | [] => Raise (IndexError "index 0 is out of bounds for axis 0 with size 0")
  | _ :: a' => x <- v ;; Ok (x :: a')
  end.

(** An array stored into one float slot: only a size-one array converts. *)
Definition as_scalar (v : ndarray) : result Q :=
  match v with
  | [x] => Ok x
  | _ => Raise (ValueError "setting an array element with a sequence.")
  end.

(** [SawyerDoorEnv.set_goal_angle]; the reach class overrides it with the
    same body. *)
Definition set_goal_angle (self : Env) (angle : ndarray) : result Env :=
  let self := set__goal_angle self angle in
  let new_qpos := qpos (data self) in
  let new_qvel := qvel (data self) in
  new_qpos <- setitem0 new_qpos (as_scalar angle) ;;
  new_qvel <- setitem0 new_qvel (Ok 0) ;;
  set_state self new_qpos new_qvel.

(** [set_goal_angle] handed a dictionary: the dictionary is copied and
    stored, and storing it into [qpos[0]] raises. *)
Definition set_goal_angle_of_dict (self : Env) (goal : Goal) : result Env :=
  new_qpos <- setitem0 (qpos (data self))
                (Raise (TypeError "float() argument must be a string or a number, not 'dict'")) ;;
  new_qvel <- setitem0 (qvel (data self)) (Ok 0) ;;
  set_state self new_qpos new_qvel.

(** [data.set_mocap_pos('mocap', np.array(xyz))]: the value is broadcast
    into the three coordinates of the mocap body. *)
Definition vec3_of_array (xyz : ndarray) : result vec3 :=
  match xyz with
  | [v] => Ok (mk_vec3 v v v)
  | [x; y; z] => Ok (mk_vec3 x y z)
  | _ => Raise (ValueError "could not broadcast input array")
  end.

Fixpoint set_goal_pos_loop (n : nat) (self : Env) (xyz : ndarray)
  : result Env :=
  match n with
  | O => Ok self
  | S n' =>
      p <- vec3_of_array xyz ;;
      let d := set_mocap_pos (data self) p in
      let d := set_mocap_quat d (mk_quat 1 0 1 0) in
      let u := repeat 0 7 in
      let self := do_simulation (set_data self d) u (frame_skip self) in
      set_goal_pos_loop n' self xyz
  end.

(** [SawyerDoorEnv.set_goal_pos]; the reach class overrides it with the
    same body. *)
Definition set_goal_pos (self : Env) (xyz : ndarray) : result Env :=
  set_goal_pos_loop 10 self xyz.

(** What a caller hands to [set_to_goal]: a goal dictionary or a bare
    array. *)
Inductive goal_arg : Type :=
| ArgDict (g : Goal)
| ArgArray (a : ndarray).

Definition SawyerDoorEnv_set_to_goal (self : Env) (goal : goal_arg)
  : result Env :=
  match goal with
  | ArgDict g =>
      let state_goal := g_state_desired_goal g in
      set_goal_angle self state_goal
  | ArgArray _ =>
      Raise (IndexError "only integers, slices, ellipsis, numpy.newaxis and integer or boolean arrays are valid indices")
  end.

Definition SawyerDoorPushOpenActionLimitedEnv_set_to_goal (self : Env)
  (goal : goal_arg) : result Env :=
  let (ee_pos, g) :=
    uniform_row [(- max_x_pos self, max_x_pos self);
                 (min_y_pos self, 0.6);
                 (0.06, 0.06)] (np_random self) in
  let self := set_np_random self g in
  self <- set_goal_pos self ee_pos ;;
  match goal with
  | ArgArray a => set_goal_angle self a
  | ArgDict g => set_goal_angle_of_dict self g
  end.

Definition SawyerDoorPushOpenAndReachEnv_set_to_goal (self : Env)
  (goal : goal_arg) : result Env :=
  match goal with
  | ArgArray a =>
      self <- set_goal_pos self (firstn 3 a) ;;
      angle <- getitem0 (rev a) ;;
      set_goal_angle self [angle]
  | ArgDict _ => Raise (TypeError "unhashable type: 'slice'")
  end.

(** [self.set_to_goal]: the method of the most derived class. *)
Definition set_to_goal (self : Env) (goal : goal_arg) : result Env :=
  match klass self with
  | SawyerDoorPushOpenActionLimitedEnv =>
      SawyerDoorPushOpenActionLimitedEnv_set_to_goal self goal
  | SawyerDoorPushOpenAndReachEnv =>
      SawyerDoorPushOpenAndReachEnv_set_to_goal self goal
  | _ => SawyerDoorEnv_set_to_goal self goal
  end.

(** *** The reach class on arrays *)

Definition SawyerDoorPushOpenAndReachEnv_set_goal (self : Env)
  (goal : ndarray) : result Env :=
  MultitaskEnv_set_goal E goal ;;;
  angle <- getitem0 (rev goal) ;;
  let self := set__goal_angle self [angle] in
  Ok (set__goal_pos self (firstn 3 goal)).

(** [SawyerDoorPushOpenAndReachEnv._compute_reward] when [obs] is a flat
    array, as [compute_her_reward_np] calls it with one transition. *)
Definition SawyerDoorPushOpenAndReachEnv__compute_reward_np (self : Env)
  (obs goal action : ndarray) : result (Q * Q * Q) :=
  actual_angle <- getitem0 (rev obs) ;;
  goal_angle <- getitem0 (rev goal) ;;
  let pos := firstn 3 obs in
  let goal_pos := firstn 3 goal in
  diff <- np_sub pos goal_pos ;;
  Ok (Qabs (actual_angle - goal_angle), linalg_norm E action,
      linalg_norm E diff).

Definition compute_her_reward_np (self : Env) (ob action next_ob goal : ndarray)
  (env_info : option Info) : result Q :=
  '(angle_dist, action_penalty, pos_dist) <-
     SawyerDoorPushOpenAndReachEnv__compute_reward_np self next_ob goal action ;;
  let reward :=
    -1 * (angle_dist * target_angle_scale self
          + action_penalty * action_reward_scale self
          + pos_dist * target_pos_scale self) in
  Ok reward.

End Environment.

Arguments klass {E}.
Arguments frame_skip {E}.
Arguments reward_type {E}.
Arguments indicator_threshold {E}.
Arguments fix_goal {E}.
Arguments fixed_goal {E}.
Arguments goal_space {E}.
Arguments _pos_action_scale {E}.
Arguments action_reward_scale {E}.
Arguments _goal_angle {E}.
Arguments max_x_pos {E}.
Arguments max_y_pos {E}.
Arguments min_y_pos {E}.
Arguments target_pos_scale {E}.
Arguments target_angle_scale {E}.
Arguments _goal_pos {E}.
Arguments data {E}.
Arguments np_random {E}.

(** ** A small engine to run the code on

    The end effector is welded to the mocap target: [sim.forward()] moves it
    there, and a sub-step advances the clock and does the same.  Joints do
    not move, every collaborator of the constructor succeeds, the random
    generator is a counter and returns the lower bound. *)

Definition example_forward (d : MjData unit) : MjData unit :=
  mk_MjData (time d) (qpos d) (qvel d) (act d) (ctrl d)
    (mocap_pos d) (mocap_quat d) (mocap_pos d) (mocap_quat d) (nmocap d)
    (eq_type d) (eq_data d) (hidden d).

Definition example_step (d : MjData unit) : MjData unit :=
  example_forward
    (mk_MjData (time d + 0.002) (qpos d) (qvel d) (act d) (ctrl d)
       (endeff_xpos d) (endeff_xquat d) (mocap_pos d) (mocap_quat d)
       (nmocap d) (eq_type d) (eq_data d) (hidden d)).

Definition example_data : MjData unit :=
  mk_MjData 0 [0; 0; 0; 0; 0; 0; 0; 0] [0; 0; 0; 0; 0; 0; 0; 0] [] []
    (mk_vec3 0 0.6 0.06) (mk_quat 1 0 1 0)
    (mk_vec3 0 0.6 0.06) (mk_quat 1 0 1 0)
    1 [1%Z] (Some [[0; 0; 0; 0; 0; 0; 0]]) tt.

Definition example_engine : Engine :=
  mk_Engine unit nat
    example_step
    example_forward
    (fun d _ => nth 0 (qpos d) 0)
    1%Z
    (fun lo _ g => (lo, S g))
    (fun a => fold_right (fun x acc => Qabs x + acc) 0 a)
    (fun obs => Ok (skipn 3 obs))
    (fun _ => Raise (AttributeError "sample_goal_for_rollout"))
    (fun _ => Raise (AttributeError "set_goal"))
    (fun _ => Ok tt)
    (Ok tt)
    (fun _ _ => Ok example_data)
    (fun path => path).

Definition example_env (k : cls) (rt : string) (fix_goal : bool)
  : Env example_engine :=
  mk_Env example_engine k 30 rt 0.02 fix_goal [0.15; 0.6; 0.3]
    [(-1.5708, 1.5708)] (1 / 100) 0 [0.3] 0.1 0.7 0.5 0 1 [] example_data
    O.

(** ** Specification-side definitions *)

(** The nominal namespace of the module: every name its statements bind. *)
Definition module_namespace : list string := bound_names sawyer_door_env_py.

(** "reward = -|achieved - desired| (per-element absolute error, negated)" *)
Definition negated_absolute_difference (achieved desired : ndarray)
  : result ndarray :=
  broadcast (fun a d => - Qabs (a - d)) achieved desired.

(** "reward = -1 if |achieved - desired| >= threshold else 0" *)
Definition sparse_indicator (threshold achieved desired : Q) : Q :=
  if Qle_bool threshold (Qabs (achieved - desired)) then -1 else 0.

(** "-(|angle(obs) - goal|) - action_reward_scale * ||action||" *)
Definition single_sample_reward (angle goal scale norm : Q) : Q :=
  - Qabs (angle - goal) - scale * norm.

(** Shapes numpy can combine element-wise. *)
Definition broadcastable (a b : ndarray) : Prop :=
  List.length a = 1%nat \/ List.length b = 1%nat \/ List.length a = List.length b.

(** The workspace box of a variant: bounds on the x and on the y coordinate
    of the mocap target.  The base class clamps neither. *)
Record box : Type := mk_box { x_lo : Q; x_hi : Q; y_lo : Q; y_hi : Q }.

Definition workspace {E : Engine} (self : Env E) : option box :=
  match klass self with
  | SawyerDoorEnv => None
  | SawyerDoorPushOpenEnv => Some (mk_box (-0.15) 0.15 0.5 2)
  | SawyerDoorPushOpenActionLimitedEnv =>
      Some (mk_box (- max_x_pos self) (max_x_pos self)
              (min_y_pos self) (max_y_pos self))
  | SawyerDoorPushOpenAndReachEnv => Some (mk_box (-0.15) 0.15 0.5 2)
  | SawyerDoorPullOpenEnv => Some (mk_box (-0.15) 0.15 (-3) 0.7)
  end.

Definition in_box (b : box) (p : vec3) : Prop :=
  x_lo b <= vx p /\ vx p <= x_hi b /\ y_lo b <= vy p /\ vy p <= y_hi b.

Definition nonempty_box (b : box) : Prop :=
  x_lo b <= x_hi b /\ y_lo b <= y_hi b.

(** The displacement [step] hands to [mocap_set_action]. *)
Definition displacement {E : Engine} (self : Env E) (a : ndarray) : ndarray :=
  np_scale (firstn 3 (map (fun x => np_clip x (-1) 1) a))
    (_pos_action_scale self).

(** The example engine with the goal setter of [MultitaskEnv] in place. *)
Definition example_engine_with_set_goal : Engine :=
  mk_Engine unit nat
    example_step
    example_forward
    (fun d _ => nth 0 (qpos d) 0)
    1%Z
    (fun lo _ g => (lo, S g))
    (fun a => fold_right (fun x acc => Qabs x + acc) 0 a)
    (fun obs => Ok (skipn 3 obs))
    (fun _ => Raise (AttributeError "sample_goal_for_rollout"))
    (fun _ => Ok tt)
    (fun _ => Ok tt)
    (Ok tt)
    (fun _ _ => Ok example_data)
    (fun path => path).

Definition example_reach_env : Env example_engine_with_set_goal :=
  mk_Env example_engine_with_set_goal SawyerDoorPushOpenAndReachEnv 30 "" 0
    false [] [(-0.1, 0.1); (0.5, 0.6); (0.06, 0.06); (0, 0.5)] (1 / 100) 0
    [0.3] 0 0 0 0 1 [0; 0.55; 0.06] example_data O.

(** A goal inside a box: every component between its two bounds. *)
Definition in_goal_space (b : Box) (g : ndarray) : Prop :=
  Forall2 (fun bounds x => fst bounds <= x /\ x <= snd bounds) b g.

(** The contract of [np.random.uniform] on ordered bounds. *)
Definition uniform_in_bounds (E : Engine) : Prop :=
  forall lo hi g, lo <= hi ->
    lo <= fst (uniform E lo hi g) /\ fst (uniform E lo hi g) <= hi.

(** The identity weld written by [reset_mocap_welds]. *)
Definition identity_weld : ndarray := [0; 0; 0; 1; 0; 0; 0].

(** The entry of an info dictionary under a key. *)
Fixpoint info_get (info : Info) (key : string) : option ndarray :=
  match info with
  | [] => None
  | (k, v) :: info' => if String.eqb k key then Some v else info_get info' key
  end.

(** The property [goal_dim]: 1 in [SawyerDoorEnv] and the classes that
    inherit it, 4 in the reach class. *)
Definition goal_dim (k : cls) : nat :=
  match k with
  | SawyerDoorPushOpenAndReachEnv => 4
  | _ => 1
  end.

(** ** An engine whose derived quantities lag

    As in MuJoCo, a sub-step first runs the forward pass on the state it is
    given and then integrates, so the derived quantities it leaves behind are
    those of the state before the integration.  [hidden] is the position of
    the end-effector body: [sim.forward()] copies it into [body_xpos], and
    the integration moves the body half of the way to the mocap target and
    advances the clock. *)

Definition lagged_forward (d : MjData vec3) : MjData vec3 :=
  mk_MjData (time d) (qpos d) (qvel d) (act d) (ctrl d)
    (hidden d) (endeff_xquat d) (mocap_pos d) (mocap_quat d) (nmocap d)
    (eq_type d) (eq_data d) (hidden d).

Definition lagged_integrate (d : MjData vec3) : MjData vec3 :=
  mk_MjData (time d + 0.002) (qpos d) (qvel d) (act d) (ctrl d)
    (endeff_xpos d) (endeff_xquat d) (mocap_pos d) (mocap_quat d) (nmocap d)
    (eq_type d) (eq_data d)
    (mk_vec3 ((vx (hidden d) + vx (mocap_pos d)) / 2)
             ((vy (hidden d) + vy (mocap_pos d)) / 2)
             ((vz (hidden d) + vz (mocap_pos d)) / 2)).

Definition lagged_step (d : MjData vec3) : MjData vec3 :=
  lagged_integrate (lagged_forward d).

Definition lagged_data : MjData vec3 :=
  mk_MjData 0 [0; 0; 0; 0; 0; 0; 0; 0] [0; 0; 0; 0; 0; 0; 0; 0] [] []
    (mk_vec3 0 0.6 0.06) (mk_quat 1 0 1 0)
    (mk_vec3 0 0.6 0.06) (mk_quat 1 0 1 0)
    1 [1%Z] (Some [[0; 0; 0; 0; 0; 0; 0]]) (mk_vec3 0 0.6 0.06).

Definition lagged_engine : Engine :=
  mk_Engine vec3 nat
    lagged_step
    lagged_forward
    (fun d _ => nth 0 (qpos d) 0)
    1%Z
    (fun lo _ g => (lo, S g))
    (fun a => fold_right (fun x acc => Qabs x + acc) 0 a)
    (fun obs => Ok (skipn 3 obs))
    (fun _ => Raise (AttributeError "sample_goal_for_rollout"))
    (fun _ => Raise (AttributeError "set_goal"))
    (fun _ => Ok tt)
    (Ok tt)
    (fun _ _ => Ok lagged_data)
    (fun path => path).

(** A push-open environment on the lagging engine, one sub-step per step. *)
Definition lagged_env : Env lagged_engine :=
  mk_Env lagged_engine SawyerDoorPushOpenEnv 1 "angle_difference" 0.02 false
    [0.15; 0.6; 0.3] [(-1.5708, 1.5708)] (1 / 100) 0 [0.3] 0.1 0.7 0.5 0 1 []
    lagged_data O.

(** [sim.forward()] recomputes the derived quantities from the state: doing
    it twice is doing it once. *)
Definition forward_idempotent (E : Engine) : Prop :=
  forall d, sim_forward E (sim_forward E d) = sim_forward E d.

(** Two steps with the same action, one after the other. *)
Definition two_steps {E : Engine} (self : Env E) (a : ndarray)
  : result (Env E * (Obs * ndarray * bool * Info)) :=
  '(self, _) <- step E self a ;;
  step E self a.

(** * Properties *)

(** ** The error monad *)

Lemma raises_bind {A B : Type} (c : result A) (k : A -> result B) :
  (forall a, raises (k a)) -> raises (bind c k).
Proof.
  intros Hk. destruct c as [a | e]; simpl.
  - apply Hk.
  - exists e. reflexivity.
Qed.

Lemma raises_bind_l {A B : Type} (c : result A) (k : A -> result B) :
  raises c -> raises (bind c k).
Proof.
  intros [e He]. rewrite He. exists e. reflexivity.
Qed.

Lemma raises_not_Ok {A : Type} (c : result A) (a : A) :
  raises c -> c <> Ok a.
Proof.
  intros [e He] Hc. rewrite He in Hc. discriminate.
Qed.

Lemma bind_Ok_inv {A B : Type} (c : result A) (k : A -> result B) (b : B) :
  bind c k = Ok b -> exists a, c = Ok a /\ k a = Ok b.
Proof.
  destruct c as [a | e]; simpl; intros H.
  - exists a. split; [reflexivity | exact H].
  - discriminate.
Qed.

(** ** Importing the module *)

(** Whatever can be imported, executing a program either goes as it does
    when every import succeeds, or stops at an import. *)
Lemma exec_module_available (available : string -> bool) (prog : list stmt) :
  forall globals,
    exec_module available globals prog
    = exec_module (fun _ => true) globals prog
    \/ exists m, exec_module available globals prog = Raise (ImportError m).
Proof.
  induction prog as [| s prog IH]; intros globals; simpl.
  - left. reflexivity.
  - destruct s as [m names | name bases body]; simpl.
    + destruct (available m); simpl.
      * apply IH.
      * right. exists m. reflexivity.
    + destruct (resolve_all globals bases ;;; exec_body globals [] body ;;;
                Ok (name :: globals)) as [g | e]; simpl.
      * apply IH.
      * left. reflexivity.
Qed.

Lemma module_import_fails (available : string -> bool) :
  exec_module available [] sawyer_door_env_py = Raise (NameError "logger")
  \/ exists m,
       exec_module available [] sawyer_door_env_py = Raise (ImportError m).
Proof.
  destruct (exec_module_available available sawyer_door_env_py [])
    as [H | H].
  - left. rewrite H. vm_compute. reflexivity.
  - right. exact H.
Qed.

(** The two unbound names are all that stops the model: with [logger]
    bound the module executes to its end, and with [Dict] bound the base
    constructor completes on the example engine. *)
Example module_executes_once_logger_is_bound :
  returns (exec_module (fun _ => true) []
             (Import "railrl.core" ["logger"] :: sawyer_door_env_py)).
Proof. eexists. vm_compute. reflexivity. Qed.

Example base_constructor_completes_once_Dict_is_bound :
  returns (SawyerDoorEnv___init__ example_engine ("Dict" :: module_namespace)
             SawyerDoorEnv (0, 0, 0) O []).
Proof. eexists. vm_compute. reflexivity. Qed.

Section Construction.

Context (E : Engine).

Lemma Dict_is_unbound : resolve module_namespace "Dict" = Raise (NameError "Dict").
Proof. vm_compute. reflexivity. Qed.

Lemma SawyerDoorEnv___init___raises (k : cls) (limits : Q * Q * Q)
  (rng : Rng E) (kw : kwargs) :
  raises (SawyerDoorEnv___init__ E module_namespace k limits rng kw).
Proof.
  unfold SawyerDoorEnv___init__.
  repeat first
    [ apply raises_bind_l; rewrite Dict_is_unbound; eexists; reflexivity
    | apply raises_bind; intros ].
Qed.

Lemma min_angle_is_rejected (globals : list string) (k : cls)
  (limits : Q * Q * Q) (rng : Rng E) (v v' : pyval) (kw : kwargs) :
  SawyerDoorEnv___init__ E globals k limits rng
    (("min_angle", v) :: ("max_angle", v') :: kw)
  = Raise (TypeError
      "__init__() got an unexpected keyword argument 'min_angle'").
Proof. reflexivity. Qed.

Lemma SawyerDoorPushOpenEnv___init___raises (globals : list string) (k : cls)
  (limits : Q * Q * Q) (rng : Rng E) (kw : kwargs) :
  raises (SawyerDoorPushOpenEnv___init__ E globals k limits rng kw).
Proof.
  unfold SawyerDoorPushOpenEnv___init__.
  do 3 (apply raises_bind; intros).
  rewrite min_angle_is_rejected. eexists. reflexivity.
Qed.

Lemma SawyerDoorPullOpenEnv___init___raises (globals : list string) (k : cls)
  (rng : Rng E) (kw : kwargs) :
  raises (SawyerDoorPullOpenEnv___init__ E globals k rng kw).
Proof.
  unfold SawyerDoorPullOpenEnv___init__.
  do 3 (apply raises_bind; intros).
  rewrite min_angle_is_rejected. eexists. reflexivity.
Qed.

Lemma SawyerDoorPushOpenActionLimitedEnv___init___raises
  (globals : list string) (k : cls) (rng : Rng E) (kw : kwargs) :
  raises (SawyerDoorPushOpenActionLimitedEnv___init__ E globals k rng kw).
Proof.
  unfold SawyerDoorPushOpenActionLimitedEnv___init__.
  do 5 (apply raises_bind; intros).
  apply SawyerDoorPushOpenEnv___init___raises.
Qed.

Lemma construct_raises (available : string -> bool) (k : cls) (rng : Rng E)
  (kw : kwargs) :
  construct E available k rng kw = Raise (NameError "logger")
  \/ exists m, construct E available k rng kw = Raise (ImportError m).
Proof.
  unfold construct.
  destruct (module_import_fails available) as [H | [m H]]; rewrite H; simpl.
  - left. reflexivity.
  - right. exists m. reflexivity.
Qed.

End Construction.

(** C1: no environment can be constructed.  Importing the module stops at
    the class statement of the reach class, whose default argument
    [logger=logger] names nothing (or earlier, at an import that fails), so
    calling any class through the module raises for every configuration.
    Taken by themselves, against the namespace the module would have had,
    the base constructor always raises, its last resort being the unbound
    name [Dict], and the push-open, action-limited and pull-open
    constructors always raise because the base constructor rejects the
    keyword [min_angle]. *)
Theorem C1_construction_always_raises :
  (forall (E : Engine) available k rng kw,
      construct E available k rng kw = Raise (NameError "logger")
      \/ exists m, construct E available k rng kw = Raise (ImportError m))
  /\ exec_module (fun _ => true) [] sawyer_door_env_py
     = Raise (NameError "logger")
  /\ (forall available, raises (exec_module available [] sawyer_door_env_py))
  /\ resolve module_namespace "Dict" = Raise (NameError "Dict")
  /\ (forall (E : Engine) k limits rng kw,
        raises (SawyerDoorEnv___init__ E module_namespace k limits rng kw))
  /\ (forall (E : Engine) k limits rng v v' kw,
        SawyerDoorEnv___init__ E module_namespace k limits rng
          (("min_angle", v) :: ("max_angle", v') :: kw)
        = Raise (TypeError
            "__init__() got an unexpected keyword argument 'min_angle'"))
  /\ (forall (E : Engine) k limits rng kw,
        raises (SawyerDoorPushOpenEnv___init__ E module_namespace k limits
                  rng kw))
  /\ (forall (E : Engine) k rng kw,
        raises (SawyerDoorPushOpenActionLimitedEnv___init__ E
                  module_namespace k rng kw))
  /\ (forall (E : Engine) k rng kw,
        raises (SawyerDoorPullOpenEnv___init__ E module_namespace k rng kw)).
Proof.
  split; [| split; [| split; [| split; [| split; [| split; [| split;
    [| split]]]]]]].
  - intros E available k rng kw. apply construct_raises.
  - vm_compute. reflexivity.
  - intros available.
    destruct (module_import_fails available) as [H | [m H]];
      rewrite H; eexists; reflexivity.
  - apply Dict_is_unbound.
  - intros E k limits rng kw. apply SawyerDoorEnv___init___raises.
  - intros E k limits rng v v' kw. apply min_angle_is_rejected.
  - intros E k limits rng kw. apply SawyerDoorPushOpenEnv___init___raises.
  - intros E k rng kw.
    apply SawyerDoorPushOpenActionLimitedEnv___init___raises.
  - intros E k rng kw. apply SawyerDoorPullOpenEnv___init___raises.
Qed.

(** ** Arrays *)

Lemma zip_with_sym (f g : Q -> Q -> Q) :
  (forall x y, f x y = g y x) ->
  forall a b, zip_with f a b = zip_with g b a.
Proof.
  intros Hfg. induction a as [| x a IH]; intros [| y b]; simpl;
    try reflexivity.
  rewrite Hfg, IH. reflexivity.
Qed.

Lemma zip_with_map (f : Q -> Q -> Q) (h : Q -> Q) :
  forall a b, map h (zip_with f a b) = zip_with (fun x y => h (f x y)) a b.
Proof.
  induction a as [| x a IH]; intros [| y b]; simpl; try reflexivity.
  rewrite IH. reflexivity.
Qed.

Lemma broadcast_sym (f g : Q -> Q -> Q) (a b : ndarray) :
  (forall x y, f x y = g y x) ->
  broadcast f a b = broadcast g b a.
Proof.
  intros Hfg. unfold broadcast.
  destruct a as [| x [| x' a]]; destruct b as [| y [| y' b]]; simpl;
    try reflexivity;
    try (rewrite !Hfg; do 3 f_equal; apply map_ext; intros; apply Hfg).
  rewrite Nat.eqb_sym.
  destruct (Nat.eqb (List.length b) (List.length a)); try reflexivity.
  rewrite !Hfg. rewrite (zip_with_sym f g Hfg). reflexivity.
Qed.

Lemma broadcast_map (f : Q -> Q -> Q) (h : Q -> Q) (a b : ndarray) :
  (r <- broadcast f a b ;; Ok (map h r))
  = broadcast (fun x y => h (f x y)) a b.
Proof.
  unfold broadcast.
  destruct a as [| x [| x' a]]; destruct b as [| y [| y' b]]; simpl;
    rewrite ?map_map; try reflexivity.
  destruct (Nat.eqb (List.length a) (List.length b)); simpl; try reflexivity.
  rewrite zip_with_map. reflexivity.
Qed.

Lemma broadcast_returns (f : Q -> Q -> Q) (a b : ndarray) :
  broadcastable a b -> returns (broadcast f a b).
Proof.
  unfold broadcastable, broadcast.
  destruct a as [| x [| x' a]]; destruct b as [| y [| y' b]]; simpl;
    intros [H | [H | H]]; try discriminate; try (eexists; reflexivity).
  injection H as H. rewrite H, Nat.eqb_refl.
  eexists. reflexivity.
Qed.

Lemma broadcast_head (f : Q -> Q -> Q) (x y : Q) (a b r : ndarray) :
  broadcast f (x :: a) (y :: b) = Ok r -> exists r', r = f x y :: r'.
Proof.
  unfold broadcast.
  destruct a as [| x' a]; destruct b as [| y' b]; simpl; intros H.
  - injection H as H. subst r. eexists. reflexivity.
  - injection H as H. subst r. eexists. reflexivity.
  - injection H as H. subst r. eexists. reflexivity.
  - destruct (Nat.eqb (List.length a) (List.length b)); try discriminate.
    injection H as H. subst r. eexists. reflexivity.
Qed.

Lemma broadcast_singleton_l (f : Q -> Q -> Q) (x : Q) (b : ndarray) :
  broadcast f [x] b = Ok (map (f x) b).
Proof. reflexivity. Qed.

(** The absolute difference does not depend on the order of its operands,
    as fractions and not only as numbers. *)
Lemma Qabs_Qminus_sym (x y : Q) : Qabs (x - y) = Qabs (y - x).
Proof.
  destruct x as [xn xd], y as [yn yd].
  unfold Qminus, Qplus, Qopp, Qabs; simpl.
  rewrite (Pos.mul_comm yd xd). f_equal.
  replace (yn * Z.pos xd + - xn * Z.pos yd)%Z
    with (- (xn * Z.pos yd + - yn * Z.pos xd))%Z by ring.
  rewrite Z.abs_opp. reflexivity.
Qed.

Lemma Qmult_comm_eq (x y : Q) : (x * y)%Q = (y * x)%Q.
Proof.
  destruct x as [xn xd], y as [yn yd]. unfold Qmult; simpl.
  rewrite (Z.mul_comm xn yn), (Pos.mul_comm xd yd). reflexivity.
Qed.

(** ** The batch reward *)

Section Rewards.

Context (E : Engine).

Lemma compute_rewards_angle_difference (e : Env E) (a d : ndarray)
  (info : Info) :
  reward_type e = "angle_difference" ->
  compute_rewards E e a d info = negated_absolute_difference a d.
Proof.
  intros Hrt. unfold compute_rewards, negated_absolute_difference, np_sub.
  rewrite Hrt, String.eqb_refl.
  pose proof (broadcast_map Qminus (fun x => - Qabs x) a d) as H.
  cbv beta in H. rewrite <- H.
  destruct (broadcast Qminus a d) as [r | ex]; simpl; try reflexivity.
  unfold np_neg, np_abs. rewrite map_map. reflexivity.
Qed.

Lemma compute_rewards_hand_success (e : Env E) (a d : ndarray)
  (info : Info) :
  compute_rewards E (set_reward_type E e "hand_success") a d info
  = broadcast
      (fun x y => - (if Qltb (Qabs (x - y)) (indicator_threshold e)
                     then 1 else 0)) a d.
Proof.
  unfold compute_rewards, np_sub.
  cbn [reward_type set_reward_type indicator_threshold].
  pose proof (broadcast_map Qminus
                (fun x => - (if Qltb (Qabs x) (indicator_threshold e)
                             then 1 else 0)) a d) as H.
  cbv beta in H. rewrite <- H.
  destruct (broadcast Qminus a d) as [r | ex]; simpl; try reflexivity.
  unfold np_neg, astype_float, np_lt, np_abs. rewrite !map_map.
  reflexivity.
Qed.

Lemma negated_absolute_difference_sym (a d : ndarray) :
  negated_absolute_difference a d = negated_absolute_difference d a.
Proof.
  unfold negated_absolute_difference. apply broadcast_sym.
  intros x y. rewrite Qabs_Qminus_sym. reflexivity.
Qed.

Lemma compute_rewards_unsupported (e : Env E) (a d : ndarray) (info : Info) :
  reward_type e <> "angle_difference" ->
  reward_type e <> "hand_success" ->
  forall r, np_sub a d = Ok r ->
  compute_rewards E e a d info
  = Raise (NotImplementedError "Invalid/no reward type.").
Proof.
  intros H1 H2 r Hr. unfold compute_rewards. rewrite Hr. simpl.
  apply String.eqb_neq in H1. apply String.eqb_neq in H2.
  rewrite H1, H2. reflexivity.
Qed.

End Rewards.

(** C2: what the code computes under [reward_type = 'hand_success'].  The
    comparison runs the other way round: an element is rewarded [-1] when
    [|achieved - desired| < t] and [0] otherwise, so the reward and the
    sparse indicator of the specification always add up to [-1] and never
    agree.  With [t = 0.02] the call on [[0.0]] and [[0.025]] gives [[0]]
    where the indicator is [-1], and the call on [[0.0]] and [[0.01]] gives
    [[-1]] where it is [0]. *)
Theorem C2_hand_success_is_inverted :
  compute_rewards example_engine
    (example_env SawyerDoorEnv "hand_success" false) [0] [0.025] [] = Ok [0]
  /\ sparse_indicator 0.02 0 0.025 = -1
  /\ compute_rewards example_engine
       (example_env SawyerDoorEnv "hand_success" false) [0] [0.01] []
     = Ok [-1]
  /\ sparse_indicator 0.02 0 0.01 = 0
  /\ (forall (E : Engine) (e : Env E) (a d : ndarray) (info : Info),
        compute_rewards E (set_reward_type E e "hand_success") a d info
        = broadcast
            (fun x y => - (if Qltb (Qabs (x - y)) (indicator_threshold e)
                           then 1 else 0)) a d)
  /\ (forall t x y : Q,
        - (if Qltb (Qabs (x - y)) t then 1 else 0) + sparse_indicator t x y
        == -1).
Proof.
  split; [| split; [| split; [| split; [| split]]]].
  - vm_compute. reflexivity.
  - vm_compute. reflexivity.
  - vm_compute. reflexivity.
  - vm_compute. reflexivity.
  - intros E e a d info. apply compute_rewards_hand_success.
  - intros t x y. unfold sparse_indicator, Qltb.
    destruct (Qle_bool t (Qabs (x - y))); simpl; reflexivity.
Qed.

(** C4: under a reward type other than 'angle_difference' and
    'hand_success', [compute_rewards] never returns a reward, and on every
    batch whose achieved and desired arrays combine element-wise it raises
    [NotImplementedError("Invalid/no reward type.")]. *)
Theorem C4_unsupported_reward_type_raises (E : Engine) (e : Env E)
  (achieved desired : ndarray) (info : Info) :
  reward_type e <> "angle_difference" ->
  reward_type e <> "hand_success" ->
  raises (compute_rewards E e achieved desired info)
  /\ (broadcastable achieved desired ->
      compute_rewards E e achieved desired info
      = Raise (NotImplementedError "Invalid/no reward type.")).
Proof.
  intros H1 H2. split.
  - unfold compute_rewards.
    destruct (np_sub achieved desired) as [r | ex] eqn:Hr; simpl.
    + apply String.eqb_neq in H1. apply String.eqb_neq in H2.
      rewrite H1, H2. eexists. reflexivity.
    + eexists. reflexivity.
  - intros Hb.
    destruct (broadcast_returns Qminus achieved desired Hb) as [r Hr].
    apply (compute_rewards_unsupported E e achieved desired info H1 H2 r Hr).
Qed.

(** C5: under [reward_type = 'angle_difference'], [compute_rewards] is the
    element-wise negated absolute difference of its two arrays, and it is
    symmetric in them. *)
Theorem C5_angle_difference_symmetric (E : Engine) (e : Env E)
  (a b : ndarray) (info : Info) :
  reward_type e = "angle_difference" ->
  compute_rewards E e a b info = negated_absolute_difference a b
  /\ compute_rewards E e a b info = compute_rewards E e b a info.
Proof.
  intros Hrt. split.
  - apply compute_rewards_angle_difference. exact Hrt.
  - rewrite !compute_rewards_angle_difference by exact Hrt.
    apply negated_absolute_difference_sym.
Qed.

(** ** The action mapper *)

Lemma np_clip_bounds (x lo hi : Q) :
  lo <= hi -> lo <= np_clip x lo hi /\ np_clip x lo hi <= hi.
Proof.
  intros Hle. unfold np_clip.
  destruct (Q.min_spec (Qmax x lo) hi) as [[H1 H2] | [H1 H2]];
    destruct (Q.max_spec x lo) as [[H3 H4] | [H3 H4]];
    rewrite H2; rewrite ?H4; rewrite H4 in H1; split; lra.
Qed.

Lemma np_clip_unit (x : Q) : Qabs (np_clip x (-1) 1) <= 1.
Proof.
  apply Qabs_Qle_condition.
  apply (np_clip_bounds x (-1) 1). lra.
Qed.

Lemma scaled_clip_bound (x s : Q) :
  Qabs (np_clip x (-1) 1 * s) <= Qabs s.
Proof.
  rewrite Qabs_Qmult.
  assert (H1 := np_clip_unit x).
  assert (H2 := Qabs_nonneg s).
  assert (H3 := Qabs_nonneg (np_clip x (-1) 1)).
  nra.
Qed.

Lemma Forall_firstn {A : Type} (P : A -> Prop) (n : nat) (l : list A) :
  Forall P l -> Forall P (firstn n l).
Proof.
  intros H. revert n. induction H as [| x l Hx Hl IH]; intros [| n]; simpl;
    constructor; auto.
Qed.

(** Opens the dispatch and the four implementations of [mocap_set_action]. *)
Ltac unfold_mocap_set_action :=
  unfold mocap_set_action, SawyerDoorEnv_mocap_set_action,
    SawyerDoorPushOpenEnv_mocap_set_action,
    SawyerDoorPushOpenActionLimitedEnv_mocap_set_action,
    SawyerDoorPullOpenEnv_mocap_set_action.

Section ActionMapper.

Context (E : Engine).

Lemma displacement_bound (e : Env E) (a : ndarray) :
  Forall (fun dx => Qabs dx <= Qabs (_pos_action_scale e)) (displacement e a).
Proof.
  unfold displacement, np_scale.
  apply Forall_map. apply Forall_firstn. apply Forall_map.
  apply Forall_forall. intros x _. apply scaled_clip_bound.
Qed.

Lemma displacement_length (e : Env E) (a : ndarray) :
  List.length a = 4%nat -> List.length (displacement e a) = 3%nat.
Proof.
  intros Ha. unfold displacement, np_scale.
  rewrite length_map, length_firstn, length_map, Ha. reflexivity.
Qed.

Lemma vec3_add_returns (p : vec3) (delta : ndarray) :
  List.length delta = 3%nat -> returns (vec3_add p delta).
Proof.
  destruct delta as [| dx [| dy [| dz [| w delta]]]]; try discriminate.
  intros _. eexists. reflexivity.
Qed.

(** Every variant pins the height and the orientation, and only replaces
    the simulator data of the environment. *)
Lemma mocap_set_action_inv (e e' : Env E) (action : ndarray) :
  mocap_set_action E e action = Ok e' ->
  vz (mocap_pos (data e')) = 0.06
  /\ mocap_quat (data e') = mk_quat 1 0 1 0
  /\ e' = set_data E e (data e').
Proof.
  unfold_mocap_set_action.
  destruct (klass e);
    destruct (vec3_add (mocap_pos (reset_mocap2body_xpos E (data e))) action)
      as [p | ex]; simpl; intros H; try discriminate;
    injection H as H; subst e'; repeat split.
Qed.

Lemma mocap_set_action_returns (e : Env E) (action : ndarray) :
  List.length action = 3%nat -> returns (mocap_set_action E e action).
Proof.
  intros Hlen.
  destruct (vec3_add_returns
              (mocap_pos (reset_mocap2body_xpos E (data e))) action Hlen)
    as [p Hp].
  unfold_mocap_set_action.
  destruct (klass e); rewrite Hp; simpl; eexists; reflexivity.
Qed.

Lemma mocap_set_action_in_workspace (e e' : Env E) (action : ndarray)
  (b : box) :
  workspace e = Some b -> nonempty_box b ->
  mocap_set_action E e action = Ok e' ->
  in_box b (mocap_pos (data e')).
Proof.
  unfold workspace, nonempty_box, in_box. unfold_mocap_set_action.
  destruct (klass e); intros Hb [Hx Hy];
    try discriminate; injection Hb as Hb; subst b;
    destruct (vec3_add (mocap_pos (reset_mocap2body_xpos E (data e))) action)
      as [p | ex]; simpl in *; intros H; try discriminate;
    injection H as H; subst e'; simpl;
    match goal with
    | |- _ <= np_clip ?x ?lo ?hi /\ _ <= _ /\ _ <= np_clip ?y ?lo' ?hi' /\ _ =>
        destruct (np_clip_bounds x lo hi Hx);
        destruct (np_clip_bounds y lo' hi' Hy)
    end; repeat split; assumption.
Qed.

Lemma do_simulation_mocap_pos (e : Env E) (u : ndarray) (n : nat) :
  (forall d, mocap_pos (sim_step E d) = mocap_pos d) ->
  mocap_pos (data (do_simulation E e u n)) = mocap_pos (data e).
Proof.
  intros Hstep. unfold do_simulation. simpl.
  induction n as [| n IH]; simpl.
  - reflexivity.
  - rewrite Hstep. exact IH.
Qed.

(** What a step of a class other than the reach class leaves behind: the
    environment after [mocap_set_action], advanced by the simulator. *)
Lemma SawyerDoorEnv_step_inv (e e' : Env E) (a : ndarray)
  (out : Obs * ndarray * bool * Info) :
  SawyerDoorEnv_step E e a = Ok (e', out) ->
  exists e1,
    mocap_set_action E e (displacement e a) = Ok e1
    /\ e' = do_simulation E e1 (repeat 0 7) (frame_skip e1)
    /\ snd (fst out) = false.
Proof.
  unfold SawyerDoorEnv_step. fold (displacement e a).
  intros H.
  apply bind_Ok_inv in H. destruct H as [e1 [H1 H]].
  apply bind_Ok_inv in H. destruct H as [info [_ H]].
  apply bind_Ok_inv in H. destruct H as [reward [_ H]].
  injection H as H1' H2'. subst e' out.
  exists e1. repeat split. exact H1.
Qed.

Lemma step_in_workspace (e e' : Env E) (a : ndarray) (b : box)
  (out : Obs * ndarray * bool * Info) :
  (forall d, mocap_pos (sim_step E d) = mocap_pos d) ->
  klass e <> SawyerDoorPushOpenAndReachEnv ->
  workspace e = Some b -> nonempty_box b ->
  step E e a = Ok (e', out) ->
  in_box b (mocap_pos (data e')).
Proof.
  intros Hsim Hk Hb Hne Hstep.
  assert (Hbase : SawyerDoorEnv_step E e a = Ok (e', out)).
  { unfold step in Hstep. destruct (klass e); try exact Hstep.
    exfalso. apply Hk. reflexivity. }
  apply SawyerDoorEnv_step_inv in Hbase.
  destruct Hbase as [e1 [H1 [He' _]]]. subst e'.
  rewrite do_simulation_mocap_pos by exact Hsim.
  apply (mocap_set_action_in_workspace e e1 (displacement e a) b Hb Hne H1).
Qed.

End ActionMapper.

(** C6: for a raw 4-vector action, every component of the displacement that
    [step] adds to the mocap target is at most the position scale in
    magnitude, [mocap_set_action] then commits a target inside the workspace
    box of the variant, x in [-0.15, 0.15] and y in [0.5, 2] for the
    push-open class, x in [-max_x_pos, max_x_pos] and y in
    [min_y_pos, max_y_pos] for the action-limited class whose bounds are in
    order, and the target is still there when [step] returns, the
    simulator leaving the mocap target where it was put. *)
Theorem C6_action_mapper_bounds (E : Engine) (e : Env E) (a : ndarray) :
  List.length a = 4%nat ->
  Forall (fun dx => Qabs dx <= Qabs (_pos_action_scale e)) (displacement e a)
  /\ (0 <= _pos_action_scale e ->
      Forall (fun dx => Qabs dx <= _pos_action_scale e) (displacement e a))
  /\ (exists e1, mocap_set_action E e (displacement e a) = Ok e1)
  /\ (forall e1, mocap_set_action E e (displacement e a) = Ok e1 ->
      (klass e = SawyerDoorPushOpenEnv ->
       in_box (mk_box (-0.15) 0.15 0.5 2) (mocap_pos (data e1)))
      /\ (klass e = SawyerDoorPushOpenActionLimitedEnv ->
          0 <= max_x_pos e -> min_y_pos e <= max_y_pos e ->
          in_box (mk_box (- max_x_pos e) (max_x_pos e)
                    (min_y_pos e) (max_y_pos e))
            (mocap_pos (data e1))))
  /\ ((forall d, mocap_pos (sim_step E d) = mocap_pos d) ->
      forall e' out, step E e a = Ok (e', out) ->
      (klass e = SawyerDoorPushOpenEnv ->
       in_box (mk_box (-0.15) 0.15 0.5 2) (mocap_pos (data e')))
      /\ (klass e = SawyerDoorPushOpenActionLimitedEnv ->
          0 <= max_x_pos e -> min_y_pos e <= max_y_pos e ->
          in_box (mk_box (- max_x_pos e) (max_x_pos e)
                    (min_y_pos e) (max_y_pos e))
            (mocap_pos (data e')))).
Proof.
  intros Ha.
  split; [| split; [| split; [| split]]].
  - apply displacement_bound.
  - intros Hs.
    eapply Forall_impl; [| apply displacement_bound].
    intros dx Hdx. simpl in Hdx.
    rewrite (Qabs_pos _ Hs) in Hdx. exact Hdx.
  - apply mocap_set_action_returns. apply displacement_length. exact Ha.
  - intros e1 H1. split.
    + intros Hk.
      apply (mocap_set_action_in_workspace E e e1 (displacement e a)).
      * unfold workspace. rewrite Hk. reflexivity.
      * split; simpl; lra.
      * exact H1.
    + intros Hk Hx Hy.
      apply (mocap_set_action_in_workspace E e e1 (displacement e a)).
      * unfold workspace. rewrite Hk. reflexivity.
      * split; simpl; lra.
      * exact H1.
  - intros Hsim e' out Hstep. split.
    + intros Hk.
      apply (step_in_workspace E e e' a _ out Hsim).
      * rewrite Hk. discriminate.
      * unfold workspace. rewrite Hk. reflexivity.
      * split; simpl; lra.
      * exact Hstep.
    + intros Hk Hx Hy.
      apply (step_in_workspace E e e' a _ out Hsim).
      * rewrite Hk. discriminate.
      * unfold workspace. rewrite Hk. reflexivity.
      * split; simpl; lra.
      * exact Hstep.
Qed.

(** C7: whenever [mocap_set_action] returns, in every variant and for every
    action, the z coordinate of the mocap target is 0.06 and its quaternion
    is (1, 0, 1, 0); and it returns for every displacement of three
    components. *)
Theorem C7_height_and_orientation_pinned (E : Engine) (e : Env E)
  (action : ndarray) :
  (forall e', mocap_set_action E e action = Ok e' ->
     vz (mocap_pos (data e')) = 0.06
     /\ mocap_quat (data e') = mk_quat 1 0 1 0)
  /\ (List.length action = 3%nat ->
      exists e', mocap_set_action E e action = Ok e').
Proof.
  split.
  - intros e' H.
    destruct (mocap_set_action_inv E e e' action H) as [Hz [Hq _]].
    split; assumption.
  - apply mocap_set_action_returns.
Qed.

(** ** step *)

Section Step.

Context (E : Engine).

Lemma SawyerDoorPushOpenAndReachEnv_step_raises (e : Env E) (a : ndarray) :
  raises (SawyerDoorPushOpenAndReachEnv_step E e a).
Proof.
  unfold SawyerDoorPushOpenAndReachEnv_step.
  apply raises_bind; intros e1.
  apply raises_bind; intros goal.
  apply raises_bind_l.
  unfold SawyerDoorPushOpenAndReachEnv__compute_reward, Obs_getitem_int.
  eexists. reflexivity.
Qed.

Lemma step_done_false (e e' : Env E) (a : ndarray) (obs : Obs)
  (reward : ndarray) (done : bool) (info : Info) :
  step E e a = Ok (e', (obs, reward, done, info)) -> done = false.
Proof.
  unfold step. intros H.
  destruct (klass e);
    try (apply SawyerDoorEnv_step_inv in H;
         destruct H as [e1 [_ [_ Hd]]]; exact Hd).
  exfalso.
  apply (raises_not_Ok _ _ (SawyerDoorPushOpenAndReachEnv_step_raises e a) H).
Qed.

Lemma compute_rewards_returns (e : Env E) (x : Q) (goal : ndarray)
  (info : Info) :
  reward_type e = "angle_difference" \/ reward_type e = "hand_success" ->
  returns (compute_rewards E e [x] goal info).
Proof.
  intros Hrt. unfold compute_rewards, np_sub.
  rewrite broadcast_singleton_l. simpl.
  destruct Hrt as [Hrt | Hrt]; rewrite Hrt; simpl; eexists; reflexivity.
Qed.

Lemma _get_info_returns (e : Env E) : returns (_get_info E e).
Proof.
  unfold _get_info, np_sub, get_door_angle.
  rewrite broadcast_singleton_l. eexists. reflexivity.
Qed.

Lemma compute_reward_returns (e : Env E) (info : Info) :
  reward_type e = "angle_difference" \/ reward_type e = "hand_success" ->
  returns (compute_reward E e (achieved_goal (_get_obs E e))
             (desired_goal (_get_obs E e)) info).
Proof.
  intros Hrt. unfold compute_reward, _get_obs, get_door_angle.
  cbn [achieved_goal desired_goal].
  apply compute_rewards_returns. exact Hrt.
Qed.

Lemma SawyerDoorEnv_step_returns (e : Env E) (a : ndarray) :
  List.length a = 4%nat ->
  reward_type e = "angle_difference" \/ reward_type e = "hand_success" ->
  exists e' obs reward info,
    SawyerDoorEnv_step E e a = Ok (e', (obs, reward, false, info)).
Proof.
  intros Ha Hrt.
  destruct (mocap_set_action_returns E e (displacement e a)
              (displacement_length E e a Ha)) as [e1 H1].
  destruct (mocap_set_action_inv E e e1 _ H1) as [_ [_ He1]].
  assert (Hrt1 : reward_type
                   (do_simulation E e1 (repeat 0 7) (frame_skip e1))
                 = reward_type e).
  { rewrite He1. reflexivity. }
  rewrite <- Hrt1 in Hrt.
  unfold SawyerDoorEnv_step. fold (displacement e a).
  rewrite H1. cbn [bind].
  destruct (_get_info_returns
              (do_simulation E e1 (repeat 0 7) (frame_skip e1)))
    as [info Hinfo].
  rewrite Hinfo. cbn [bind].
  destruct (compute_reward_returns _ info Hrt) as [r Hr].
  rewrite Hr. cbn [bind].
  eexists. eexists. eexists. eexists. reflexivity.
Qed.

End Step.

(** C9: [step] never reports the end of an episode.  Whenever it returns,
    in any variant, [done] is [False]; and for a class other than the reach
    class, a 4-vector action and a supported reward type it does return. *)
Theorem C9_step_never_done (E : Engine) (e : Env E) (a : ndarray) :
  (forall e' obs reward done info,
     step E e a = Ok (e', (obs, reward, done, info)) -> done = false)
  /\ (klass e <> SawyerDoorPushOpenAndReachEnv ->
      List.length a = 4%nat ->
      reward_type e = "angle_difference" \/ reward_type e = "hand_success" ->
      exists e' obs reward info,
        step E e a = Ok (e', (obs, reward, false, info))).
Proof.
  split.
  - intros e' obs reward done info. apply step_done_false.
  - intros Hk Ha Hrt.
    unfold step.
    destruct (klass e); try (apply SawyerDoorEnv_step_returns; assumption).
    exfalso. apply Hk. reflexivity.
Qed.

(** ** The single-sample reward *)

Section SingleSample.

Context (E : Engine).

Lemma _compute_reward_reward_type (e : Env E) (rt : string)
  (obs goal action : ndarray) :
  _compute_reward E (set_reward_type E e rt) obs goal action
  = _compute_reward E e obs goal action.
Proof. reflexivity. Qed.

Lemma _compute_reward_value (e : Env E) (obs action : ndarray)
  (angle g : Q) (angles goals : ndarray) :
  convert_ob_to_goal E obs = Ok (angle :: angles) ->
  broadcastable (angle :: angles) (g :: goals) ->
  _compute_reward E e obs (g :: goals) action
  = Ok (single_sample_reward angle g (action_reward_scale e)
          (linalg_norm E action)).
Proof.
  intros Hc Hb. unfold _compute_reward, single_sample_reward, np_sub.
  rewrite Hc. cbn [bind].
  destruct (broadcast_returns Qminus _ _ Hb) as [r Hr].
  rewrite Hr. cbn [bind].
  destruct (broadcast_head _ _ _ _ _ _ Hr) as [r' Hr']. subst r.
  cbn [np_abs map getitem0 bind].
  rewrite (Qmult_comm_eq (linalg_norm E action) (action_reward_scale e)).
  reflexivity.
Qed.

End SingleSample.

(** C8: the single-sample reward [SawyerDoorEnv._compute_reward] does not
    read [reward_type]: it is the same under every reward type, and it is
    [-(|angle(obs) - goal|) - action_reward_scale * ||action||], angle and
    goal being the first entries of the arrays compared.  The batch path
    differs from it: under 'hand_success' the two disagree on the sample
    below, and under an unsupported reward type the batch path raises where
    the single-sample path returns. *)
Theorem C8_single_sample_reward_ignores_reward_type :
  (forall (E : Engine) (e : Env E) rt obs goal action,
     _compute_reward E (set_reward_type E e rt) obs goal action
     = _compute_reward E e obs goal action)
  /\ (forall (E : Engine) (e : Env E) obs action angle g angles goals,
        convert_ob_to_goal E obs = Ok (angle :: angles) ->
        broadcastable (angle :: angles) (g :: goals) ->
        _compute_reward E e obs (g :: goals) action
        = Ok (single_sample_reward angle g (action_reward_scale e)
                (linalg_norm E action)))
  /\ (exists single batch,
        _compute_reward example_engine
          (example_env SawyerDoorEnv "hand_success" false)
          [0; 0.6; 0.06; 0] [0.01] [0; 0; 0; 0] = Ok single
        /\ compute_rewards example_engine
             (example_env SawyerDoorEnv "hand_success" false)
             [0] [0.01] [] = Ok [batch]
        /\ ~ single == batch)
  /\ (exists single,
        _compute_reward example_engine
          (example_env SawyerDoorEnv "bogus" false)
          [0; 0.6; 0.06; 0] [0.01] [0; 0; 0; 0] = Ok single
        /\ compute_rewards example_engine
             (example_env SawyerDoorEnv "bogus" false) [0] [0.01] []
           = Raise (NotImplementedError "Invalid/no reward type.")).
Proof.
  split; [| split; [| split]].
  - intros E e rt obs goal action. apply _compute_reward_reward_type.
  - intros E e obs action angle g angles goals.
    apply _compute_reward_value.
  - eexists. eexists. split; [| split].
    + vm_compute. reflexivity.
    + vm_compute. reflexivity.
    + vm_compute. discriminate.
  - eexists. split.
    + vm_compute. reflexivity.
    + vm_compute. reflexivity.
Qed.

(** ** Snapshots *)

Lemma slice_assign_same_length (target src : ndarray) :
  List.length src = List.length target -> slice_assign target src = Ok src.
Proof.
  intros H. unfold slice_assign.
  destruct src as [| x [| x' src]].
  - rewrite H, Nat.eqb_refl. reflexivity.
  - rewrite <- H. reflexivity.
  - rewrite H, Nat.eqb_refl. reflexivity.
Qed.

Section Snapshots.

Context (E : Engine).

Lemma sim_set_state_returns (d : MjData (Hidden E)) (t : Q)
  (new_qpos new_qvel : ndarray) :
  List.length new_qpos = List.length (qpos d) ->
  List.length new_qvel = List.length (qvel d) ->
  sim_set_state E d (mk_MjSimState t new_qpos new_qvel (act d))
  = Ok (mk_MjData t new_qpos new_qvel (act d) (ctrl d) (endeff_xpos d)
          (endeff_xquat d) (mocap_pos d) (mocap_quat d) (nmocap d)
          (eq_type d) (eq_data d) (hidden d)).
Proof.
  intros Hp Hv. unfold sim_set_state. cbn [st_time st_qpos st_qvel st_act].
  rewrite (slice_assign_same_length _ _ Hp).
  rewrite (slice_assign_same_length _ _ Hv).
  rewrite (slice_assign_same_length (act d) (act d) eq_refl).
  destruct (Nat.eqb (List.length (act d)) 0); reflexivity.
Qed.

Lemma sim_set_state_get_state (d : MjData (Hidden E)) :
  sim_set_state E d (sim_get_state E d) = Ok d.
Proof.
  unfold sim_get_state.
  rewrite sim_set_state_returns by reflexivity.
  destruct d. reflexivity.
Qed.

Lemma set_env_state_get_env_state (e : Env E) :
  set_env_state E e (get_env_state E e)
  = Ok (set_data E e (sim_forward E (data e))).
Proof.
  unfold set_env_state, get_env_state.
  cbn [es_goal es_joint_state es_mocap_state].
  rewrite sim_set_state_get_state. cbn [bind mocap_pos_of mocap_quat_of].
  destruct e as [k fs rt it fg fxg gs pas ars ga mx my mny tps tas gp d rng].
  destruct d. reflexivity.
Qed.

End Snapshots.

(** ** reset with a fixed goal *)

Section Reset.

Context (E : Engine).

Lemma set_state_returns (e : Env E) (new_qpos new_qvel : ndarray) :
  List.length new_qpos = List.length (qpos (data e)) ->
  List.length new_qvel = List.length (qvel (data e)) ->
  exists d,
    set_state E e new_qpos new_qvel = Ok (set_data E e (sim_forward E d))
    /\ qpos d = new_qpos.
Proof.
  intros Hp Hv. unfold set_state.
  rewrite Hp, Hv, !Nat.eqb_refl. cbn [andb].
  unfold sim_get_state at 2. cbn [st_act].
  unfold sim_get_state. cbn [st_time].
  rewrite sim_set_state_returns by assumption.
  cbn [bind]. eexists. split; reflexivity.
Qed.

Lemma sample_goal_fixed (e : Env E) :
  klass e <> SawyerDoorPushOpenAndReachEnv ->
  fix_goal e = true ->
  sample_goal E e = Ok (mk_Goal (fixed_goal e) (fixed_goal e), e).
Proof.
  intros Hk Hfix.
  unfold sample_goal, sample_goals, SawyerDoorEnv_sample_goals.
  rewrite Hfix.
  destruct (klass e); try reflexivity.
  exfalso. apply Hk. reflexivity.
Qed.

(** With [fix_goal] set, [reset] stores the whole fixed goal as the goal
    angle and reports it as the desired goal. *)
Lemma reset_fixed_goal (e : Env E) :
  klass e <> SawyerDoorPushOpenAndReachEnv ->
  fix_goal e = true ->
  List.length (qpos (data e)) = 8%nat ->
  exists d,
    reset E e true
    = Ok (set__goal_angle E (set_data E e (sim_forward E d)) (fixed_goal e),
          _get_obs E
            (set__goal_angle E (set_data E e (sim_forward E d)) (fixed_goal e)))
    /\ List.length (qpos d) = 8%nat.
Proof.
  intros Hk Hfix Hq. unfold reset.
  rewrite (slice_assign_same_length (qpos (data e)) init_angles)
    by (rewrite Hq; reflexivity).
  cbn [bind].
  destruct (set_state_returns e init_angles
              (repeat 0 (List.length (qvel (data e)))))
    as [d [Hd Hqd]].
  - rewrite Hq. reflexivity.
  - apply repeat_length.
  - rewrite Hd. cbn [bind].
    rewrite sample_goal_fixed by assumption.
    cbn [bind g_state_desired_goal].
    exists d. split; [reflexivity |].
    rewrite Hqd. reflexivity.
Qed.

End Reset.

(** What two resets in a row do with a fixed goal, on every engine: both
    return, and the desired goal of both observations is the whole array
    [fixed_goal], all three components of it. *)
Lemma reset_twice_fixed_goal (E : Engine) (e : Env E) :
  (forall d, List.length (qpos (sim_forward E d)) = List.length (qpos d)) ->
  klass e = SawyerDoorPushOpenEnv ->
  fix_goal e = true ->
  fixed_goal e = [0.15; 0.6; 0.3] ->
  List.length (qpos (data e)) = 8%nat ->
  exists e1 obs1 e2 obs2,
    reset E e true = Ok (e1, obs1)
    /\ reset E e1 true = Ok (e2, obs2)
    /\ desired_goal obs1 = [0.15; 0.6; 0.3]
    /\ desired_goal obs2 = desired_goal obs1.
Proof.
  intros Hnq Hk Hfix Hgoal Hq.
  assert (Hne : klass e <> SawyerDoorPushOpenAndReachEnv)
    by (rewrite Hk; discriminate).
  destruct (reset_fixed_goal E e Hne Hfix Hq) as [d [H1 Hd]].
  set (e1 := set__goal_angle E (set_data E e (sim_forward E d)) (fixed_goal e))
    in *.
  assert (Hq1 : List.length (qpos (data e1)) = 8%nat).
  { unfold e1. cbn [data set__goal_angle set_data]. rewrite Hnq. exact Hd. }
  destruct (reset_fixed_goal E e1 Hne Hfix Hq1) as [d' [H2 _]].
  eexists. eexists. eexists. eexists.
  split; [exact H1 |]. split; [exact H2 |].
  split.
  - unfold e1. cbn [_get_obs desired_goal _goal_angle set__goal_angle].
    exact Hgoal.
  - reflexivity.
Qed.

(** ** The theorems at work on the example engine *)

Lemma C4_unsupported_reward_type_raises_witness :
  broadcastable [0] [0.01; 0.025]
  /\ compute_rewards example_engine (example_env SawyerDoorEnv "bogus" false)
       [0] [0.01; 0.025] []
     = Raise (NotImplementedError "Invalid/no reward type.").
Proof.
  split.
  - left. reflexivity.
  - apply (C4_unsupported_reward_type_raises example_engine
             (example_env SawyerDoorEnv "bogus" false) [0] [0.01; 0.025] []).
    + discriminate.
    + discriminate.
    + left. reflexivity.
Defined.

Lemma C5_angle_difference_symmetric_witness :
  compute_rewards example_engine
    (example_env SawyerDoorEnv "angle_difference" false) [0; 0.2] [0.25; 0.1] []
  = compute_rewards example_engine
      (example_env SawyerDoorEnv "angle_difference" false) [0.25; 0.1] [0; 0.2] [].
Proof.
  apply (C5_angle_difference_symmetric example_engine
           (example_env SawyerDoorEnv "angle_difference" false)).
  reflexivity.
Defined.

Lemma C6_action_mapper_bounds_witness :
  Forall (fun dx => Qabs dx <= 1 / 100)
    (displacement
       (example_env SawyerDoorPushOpenActionLimitedEnv "angle_difference"
          false) [2; -3; 0.5; 0])
  /\ match mocap_set_action example_engine
             (example_env SawyerDoorPushOpenActionLimitedEnv
                "angle_difference" false)
             (displacement
                (example_env SawyerDoorPushOpenActionLimitedEnv
                   "angle_difference" false) [2; -3; 0.5; 0]) with
     | Ok e1 => in_box (mk_box (- 0.1) 0.1 0.5 0.7) (mocap_pos (data e1))
     | Raise _ => False
     end
  /\ match step example_engine
             (example_env SawyerDoorPushOpenActionLimitedEnv
                "angle_difference" false)
             [2; -3; 0.5; 0] with
     | Ok (e', _) => in_box (mk_box (- 0.1) 0.1 0.5 0.7) (mocap_pos (data e'))
     | Raise _ => False
     end
  /\ match step example_engine
             (example_env SawyerDoorPushOpenEnv "angle_difference" false)
             [2; -3; 0.5; 0] with
     | Ok (e', _) => in_box (mk_box (-0.15) 0.15 0.5 2) (mocap_pos (data e'))
     | Raise _ => False
     end.
Proof.
  destruct (C6_action_mapper_bounds example_engine
              (example_env SawyerDoorPushOpenActionLimitedEnv
                 "angle_difference" false) [2; -3; 0.5; 0] eq_refl)
    as [_ [Hscale [_ [Hset Hstep]]]].
  destruct (C6_action_mapper_bounds example_engine
              (example_env SawyerDoorPushOpenEnv "angle_difference" false)
              [2; -3; 0.5; 0] eq_refl)
    as [_ [_ [_ [_ Hstep']]]].
  split; [| split; [| split]].
  - apply Hscale. discriminate.
  - destruct (mocap_set_action example_engine
                (example_env SawyerDoorPushOpenActionLimitedEnv
                   "angle_difference" false)
                (displacement
                   (example_env SawyerDoorPushOpenActionLimitedEnv
                      "angle_difference" false) [2; -3; 0.5; 0]))
      as [e1 | ex] eqn:H1.
    + apply (proj2 (Hset e1 eq_refl)).
      * reflexivity.
      * discriminate.
      * discriminate.
    + vm_compute in H1. discriminate H1.
  - destruct (step example_engine
                (example_env SawyerDoorPushOpenActionLimitedEnv
                   "angle_difference" false) [2; -3; 0.5; 0])
      as [[e' out] | ex] eqn:H1.
    + apply (proj2 (Hstep (fun d => eq_refl) e' out eq_refl)).
      * reflexivity.
      * discriminate.
      * discriminate.
    + vm_compute in H1. discriminate H1.
  - destruct (step example_engine
                (example_env SawyerDoorPushOpenEnv "angle_difference" false)
                [2; -3; 0.5; 0])
      as [[e' out] | ex] eqn:H1.
    + apply (proj1 (Hstep' (fun d => eq_refl) e' out eq_refl)).
      reflexivity.
    + vm_compute in H1. discriminate H1.
Defined.

Lemma C7_height_and_orientation_pinned_witness :
  exists e',
    mocap_set_action example_engine
      (example_env SawyerDoorPullOpenEnv "angle_difference" false)
      [0.01; -0.01; 0.01] = Ok e'
    /\ vz (mocap_pos (data e')) = 0.06
    /\ mocap_quat (data e') = mk_quat 1 0 1 0.
Proof.
  destruct (C7_height_and_orientation_pinned example_engine
              (example_env SawyerDoorPullOpenEnv "angle_difference" false)
              [0.01; -0.01; 0.01]) as [Hinv Hret].
  destruct (Hret eq_refl) as [e' He'].
  exists e'. split.
  - exact He'.
  - apply Hinv. exact He'.
Defined.

Lemma C8_single_sample_reward_ignores_reward_type_witness :
  _compute_reward example_engine
    (example_env SawyerDoorEnv "hand_success" false)
    [0; 0.6; 0.06; 0.2] [0.3] [1; 0; 0; 0]
  = Ok (single_sample_reward 0.2 0.3 0 1).
Proof.
  apply (proj1 (proj2 C8_single_sample_reward_ignores_reward_type)
           example_engine (example_env SawyerDoorEnv "hand_success" false)
           [0; 0.6; 0.06; 0.2] [1; 0; 0; 0] 0.2 0.3 [] []).
  - reflexivity.
  - left. reflexivity.
Defined.

Lemma C9_step_never_done_witness :
  exists e' obs reward done info,
    step example_engine
      (example_env SawyerDoorPushOpenEnv "hand_success" false)
      [2; -3; 0.5; 0] = Ok (e', (obs, reward, done, info))
    /\ done = false.
Proof.
  destruct (C9_step_never_done example_engine
              (example_env SawyerDoorPushOpenEnv "hand_success" false)
              [2; -3; 0.5; 0]) as [Hdone Hret].
  destruct Hret as [e' [obs [reward [info Hstep]]]].
  - discriminate.
  - reflexivity.
  - right. reflexivity.
  - exists e', obs, reward, false, info. split.
    + exact Hstep.
    + apply (Hdone e' obs reward false info Hstep).
Defined.

(** * Further properties of the code *)

(** ** What a step changes and returns *)

Section StepFrame.

Context (E : Engine).

Lemma SawyerDoorEnv_step_frame (e e' : Env E) (a : ndarray) (obs : Obs)
  (reward : ndarray) (done : bool) (info : Info) :
  SawyerDoorEnv_step E e a = Ok (e', (obs, reward, done, info)) ->
  e' = set_data E e (data e')
  /\ obs = _get_obs E e'
  /\ _get_info E e' = Ok info
  /\ compute_reward E e' (achieved_goal obs) (desired_goal obs) info
     = Ok reward.
Proof.
  unfold SawyerDoorEnv_step. fold (displacement e a). intros H.
  apply bind_Ok_inv in H. destruct H as [e1 [H1 H]].
  apply bind_Ok_inv in H. destruct H as [info' [Hinfo H]].
  apply bind_Ok_inv in H. destruct H as [reward' [Hrew H]].
  injection H as He' Hobs Hr Hd Hi. subst e' obs reward' info'.
  destruct (mocap_set_action_inv E e e1 _ H1) as [_ [_ He1]].
  split; [| split; [| split]].
  - unfold do_simulation. rewrite He1. reflexivity.
  - reflexivity.
  - exact Hinfo.
  - exact Hrew.
Qed.

Lemma step_frame (e e' : Env E) (a : ndarray) (obs : Obs)
  (reward : ndarray) (done : bool) (info : Info) :
  step E e a = Ok (e', (obs, reward, done, info)) ->
  e' = set_data E e (data e')
  /\ obs = _get_obs E e'
  /\ _get_info E e' = Ok info
  /\ compute_reward E e' (achieved_goal obs) (desired_goal obs) info
     = Ok reward.
Proof.
  unfold step. intros H.
  destruct (klass e); try (apply (SawyerDoorEnv_step_frame _ _ _ _ _ _ _ H)).
  exfalso.
  apply (raises_not_Ok _ _ (SawyerDoorPushOpenAndReachEnv_step_raises E e a) H).
Qed.

Lemma np_sub_singleton_length (x : Q) (b r : ndarray) :
  np_sub [x] b = Ok r -> List.length r = List.length b.
Proof.
  unfold np_sub. rewrite broadcast_singleton_l. intros H.
  injection H as H. subst r. apply length_map.
Qed.

End StepFrame.

(** X1: a step that returns has replaced the simulator data and nothing
    else: the stored goal, the configuration and the random generator are
    those of before.  The observation it returns is the one [_get_obs] reads
    from the new state, its desired goal is the goal stored before the step
    and its achieved goal is the last entry of its four-entry observation. *)
Theorem X1_step_changes_only_the_simulator (E : Engine) (e e' : Env E)
  (a : ndarray) (obs : Obs) (reward : ndarray) (done : bool) (info : Info) :
  step E e a = Ok (e', (obs, reward, done, info)) ->
  e' = set_data E e (data e')
  /\ _goal_angle e' = _goal_angle e
  /\ np_random e' = np_random e
  /\ obs = _get_obs E e'
  /\ desired_goal obs = _goal_angle e
  /\ List.length (observation obs) = 4%nat
  /\ achieved_goal obs = skipn 3 (observation obs).
Proof.
  intros H.
  destruct (step_frame E e e' a obs reward done info H) as [He' [Hobs _]].
  split; [exact He' |].
  split; [rewrite He'; reflexivity |].
  split; [rewrite He'; reflexivity |].
  split; [exact Hobs |].
  rewrite Hobs. split; [rewrite He' at 1; reflexivity |].
  split; reflexivity.
Qed.

(** X2: the reward a step returns is computed from the same state as its
    info dictionary.  Under 'angle_difference' it is the negated
    [angle_difference] entry, under 'hand_success' the negated
    [angle_success] entry, and in both cases it has one entry per component
    of the stored goal. *)
Theorem X2_step_reward_is_negated_info (E : Engine) (e e' : Env E)
  (a : ndarray) (obs : Obs) (reward : ndarray) (done : bool) (info : Info) :
  step E e a = Ok (e', (obs, reward, done, info)) ->
  List.length reward = List.length (_goal_angle e)
  /\ (reward_type e = "angle_difference" ->
      exists diff, info_get info "angle_difference" = Some diff
                   /\ reward = np_neg diff)
  /\ (reward_type e = "hand_success" ->
      exists success, info_get info "angle_success" = Some success
                      /\ reward = np_neg success).
Proof.
  intros H.
  destruct (step_frame E e e' a obs reward done info H)
    as [He' [Hobs [Hinfo Hrew]]].
  assert (Hg : _goal_angle e' = _goal_angle e) by (rewrite He'; reflexivity).
  assert (Hrt : reward_type e' = reward_type e) by (rewrite He'; reflexivity).
  rewrite Hobs in Hrew.
  unfold compute_reward, compute_rewards, _get_obs, get_door_angle in Hrew.
  cbn [achieved_goal desired_goal] in Hrew.
  unfold _get_info, get_door_angle in Hinfo.
  destruct (np_sub [get_joint_qpos E (data e') "doorjoint"] (_goal_angle e'))
    as [d | ex] eqn:Hd; cbn [bind] in Hinfo, Hrew; try discriminate.
  injection Hinfo as Hinfo.
  pose proof (np_sub_singleton_length _ _ _ Hd) as Hlen.
  rewrite Hg in Hlen. rewrite Hrt in Hrew.
  split; [| split].
  - destruct (String.eqb (reward_type e) "angle_difference").
    + injection Hrew as Hrew. subst reward.
      unfold np_neg, np_abs. rewrite !length_map. exact Hlen.
    + destruct (String.eqb (reward_type e) "hand_success");
        try discriminate.
      injection Hrew as Hrew. subst reward.
      unfold np_neg, astype_float, np_lt, np_abs. rewrite !length_map.
      exact Hlen.
  - intros Hty. rewrite Hty in Hrew. cbn in Hrew.
    injection Hrew as Hrew. subst reward info.
    eexists. split; reflexivity.
  - intros Hty. rewrite Hty in Hrew. cbn in Hrew.
    injection Hrew as Hrew. subst reward info.
    eexists. split; reflexivity.
Qed.

(** ** Saturating actions *)

Lemma np_clip_unit_idempotent (x : Q) :
  np_clip (np_clip x (-1) 1) (-1) 1 = np_clip x (-1) 1.
Proof.
  unfold np_clip, Qmin, Qmax, GenericMinMax.gmin, GenericMinMax.gmax.
  destruct (Qcompare x (-1)) eqn:H1.
  - destruct (Qcompare x 1) eqn:H2; rewrite ?H1, ?H2; reflexivity.
  - reflexivity.
  - destruct (Qcompare x 1) eqn:H2; rewrite ?H1, ?H2; reflexivity.
Qed.

(** X3: actions saturate.  A step with a raw action is the step with that
    action clipped to [-1, 1] beforehand, in every variant: same next
    state, observation, reward and info, or the same exception. *)
Theorem X3_step_saturates_the_action (E : Engine) (e : Env E) (a : ndarray) :
  step E e (map (fun x => np_clip x (-1) 1) a) = step E e a.
Proof.
  unfold step, SawyerDoorEnv_step, SawyerDoorPushOpenAndReachEnv_step.
  rewrite map_map.
  rewrite (map_ext _ _ np_clip_unit_idempotent).
  reflexivity.
Qed.

(** ** The action mapper reads the end effector afresh *)

Section FreshTarget.

Context (E : Engine).

Lemma mocap_set_action_forgets_target (e : Env E) (p : vec3) (q : quat)
  (action : ndarray) :
  mocap_set_action E
    (set_data E e (set_mocap_quat E (set_mocap_pos E (data e) p) q)) action
  = mocap_set_action E e action.
Proof.
  destruct e as [k fs rt it fg fxg gs pas ars ga mx my mny tps tas gp d rng].
  destruct d. reflexivity.
Qed.

Lemma mocap_set_action_target (e e' : Env E) (action : ndarray) :
  mocap_set_action E e action = Ok e' ->
  e' = set_data E e
         (set_mocap_quat E (set_mocap_pos E (data e) (mocap_pos (data e')))
            (mocap_quat (data e'))).
Proof.
  unfold_mocap_set_action.
  destruct e as [k fs rt it fg fxg gs pas ars ga mx my mny tps tas gp d rng].
  destruct d. cbn [klass data].
  destruct k;
    match goal with
    | |- context [vec3_add ?p action] => destruct (vec3_add p action)
    end; cbn [bind]; intros H; try discriminate;
    injection H as H; subst e'; reflexivity.
Qed.

End FreshTarget.

(** X4: [mocap_set_action] starts from the end effector, not from the
    previous mocap target: its result is the same whatever mocap pose the
    simulator held before, so a call repeated with the same displacement,
    the simulation not having advanced, changes nothing more. *)
Theorem X4_mocap_set_action_does_not_accumulate (E : Engine) (e : Env E)
  (action : ndarray) :
  (forall p q,
     mocap_set_action E
       (set_data E e (set_mocap_quat E (set_mocap_pos E (data e) p) q)) action
     = mocap_set_action E e action)
  /\ (forall e1, mocap_set_action E e action = Ok e1 ->
                 mocap_set_action E e1 action = Ok e1).
Proof.
  split.
  - intros p q. apply mocap_set_action_forgets_target.
  - intros e1 H1.
    rewrite (mocap_set_action_target E e e1 action H1) at 1.
    rewrite mocap_set_action_forgets_target. exact H1.
Qed.

(** X5: the workspace of the classes C6 leaves out.  The pull-open class
    keeps the target in x in [-0.15, 0.15] and y in [-3, 0.7], the reach
    class in the box of the push-open class it inherits from, and the base
    class clamps neither coordinate: its target is the end effector moved
    by the displacement, wherever that is. *)
Theorem X5_workspace_of_the_other_classes (E : Engine) (e e' : Env E)
  (action : ndarray) :
  mocap_set_action E e action = Ok e' ->
  (klass e = SawyerDoorPullOpenEnv ->
   in_box (mk_box (-0.15) 0.15 (-3) 0.7) (mocap_pos (data e')))
  /\ (klass e = SawyerDoorPushOpenAndReachEnv ->
      in_box (mk_box (-0.15) 0.15 0.5 2) (mocap_pos (data e')))
  /\ (klass e = SawyerDoorEnv ->
      forall dx dy dz, action = [dx; dy; dz] ->
        vx (mocap_pos (data e')) = vx (endeff_xpos (data e)) + dx
        /\ vy (mocap_pos (data e')) = vy (endeff_xpos (data e)) + dy).
Proof.
  intros H. split; [| split].
  - intros Hk.
    apply (mocap_set_action_in_workspace E e e' action).
    + unfold workspace. rewrite Hk. reflexivity.
    + split; simpl; lra.
    + exact H.
  - intros Hk.
    apply (mocap_set_action_in_workspace E e e' action).
    + unfold workspace. rewrite Hk. reflexivity.
    + split; simpl; lra.
    + exact H.
  - intros Hk dx dy dz Ha. subst action.
    unfold mocap_set_action in H. rewrite Hk in H.
    unfold SawyerDoorEnv_mocap_set_action in H. cbn in H.
    injection H as H. subst e'. split; reflexivity.
Qed.

(** ** The range of the batch reward *)

Lemma Forall_zip_with (P : Q -> Prop) (f : Q -> Q -> Q) :
  (forall x y, P (f x y)) -> forall a b, Forall P (zip_with f a b).
Proof.
  intros HP. induction a as [| x a IH]; intros [| y b]; simpl;
    constructor; auto.
Qed.

Lemma Forall_broadcast (P : Q -> Prop) (f : Q -> Q -> Q) (a b r : ndarray) :
  (forall x y, P (f x y)) -> broadcast f a b = Ok r -> Forall P r.
Proof.
  intros HP.
  assert (Hl : forall x l, Forall P (map (f x) l)).
  { intros x l. apply Forall_map. apply Forall_forall. intros; apply HP. }
  assert (Hr : forall y l, Forall P (map (fun x => f x y) l)).
  { intros y l. apply Forall_map. apply Forall_forall. intros; apply HP. }
  unfold broadcast.
  destruct a as [| x [| x' a]]; destruct b as [| y [| y' b]]; simpl;
    intros H;
    try (destruct (Nat.eqb (List.length a) (List.length b));
         [| discriminate]);
    try discriminate;
    injection H as H; subst r;
    repeat (apply Forall_cons; [apply HP |]);
    first [apply Forall_nil | apply Hl | apply Hr
          | apply Forall_zip_with; exact HP].
Qed.

(** X6: a reward is never positive.  Whenever [compute_rewards] returns,
    every entry is at most 0; under 'hand_success' every entry is 0 or -1;
    under 'angle_difference' the reward of one sample is 0 exactly when the
    achieved and the desired value are equal. *)
Theorem X6_rewards_are_never_positive (E : Engine) (e : Env E)
  (achieved desired r : ndarray) (info : Info) :
  compute_rewards E e achieved desired info = Ok r ->
  Forall (fun x => x <= 0) r
  /\ (reward_type e = "hand_success" -> Forall (fun x => x = 0 \/ x = -1) r)
  /\ (reward_type e = "angle_difference" ->
      forall a d x, achieved = [a] -> desired = [d] -> r = [x] ->
                    (x == 0 <-> a == d)).
Proof.
  intros H.
  assert (Hcases :
    (reward_type e = "angle_difference"
     /\ negated_absolute_difference achieved desired = Ok r)
    \/ (reward_type e = "hand_success"
        /\ broadcast
             (fun x y => - (if Qltb (Qabs (x - y)) (indicator_threshold e)
                            then 1 else 0)) achieved desired = Ok r)).
  { destruct (String.eqb (reward_type e) "angle_difference") eqn:H1.
    - apply String.eqb_eq in H1. left. split; [exact H1 |].
      rewrite <- (compute_rewards_angle_difference E e _ _ info H1). exact H.
    - destruct (String.eqb (reward_type e) "hand_success") eqn:H2.
      + apply String.eqb_eq in H2. right. split; [exact H2 |].
        rewrite <- (compute_rewards_hand_success E e achieved desired info).
        rewrite <- H. unfold compute_rewards.
        cbn [reward_type set_reward_type indicator_threshold].
        rewrite H2. reflexivity.
      + exfalso. unfold compute_rewards in H.
        destruct (np_sub achieved desired); cbn [bind] in H;
          try discriminate.
        rewrite H1, H2 in H. discriminate. }
  split; [| split].
  - destruct Hcases as [[_ Hr] | [_ Hr]].
    + apply (Forall_broadcast _ _ _ _ _) with (2 := Hr).
      intros x y. assert (Hn := Qabs_nonneg (x - y)). lra.
    + apply (Forall_broadcast _ _ _ _ _) with (2 := Hr).
      intros x y.
      destruct (Qltb (Qabs (x - y)) (indicator_threshold e));
        vm_compute; discriminate.
  - intros Hty. destruct Hcases as [[Hty' _] | [_ Hr]].
    + rewrite Hty in Hty'. discriminate.
    + apply (Forall_broadcast _ _ _ _ _) with (2 := Hr).
      intros x y.
      destruct (Qltb (Qabs (x - y)) (indicator_threshold e));
        [right | left]; reflexivity.
  - intros Hty a d x Ha Hd Hx. subst achieved desired r.
    destruct Hcases as [[_ Hr] | [Hty' _]].
    + assert (Hx : x = - Qabs (a - d)).
      { change (Ok [- Qabs (a - d)] = Ok [x]) in Hr. congruence. }
      subst x. split.
      * intros H0.
        assert (Hle : Qabs (a - d) <= 0) by lra.
        apply Qabs_Qle_condition in Hle. lra.
      * intros Heq. assert (H0 : a - d == 0) by lra.
        rewrite H0. reflexivity.
    + rewrite Hty in Hty'. discriminate.
Qed.

(** ** Sampling goals *)

Section Sampling.

Context (E : Engine).

Lemma uniform_row_length (b : Box) :
  forall g, List.length (fst (uniform_row E b g)) = List.length b.
Proof.
  induction b as [| [lo hi] b IH]; intros g; simpl.
  - reflexivity.
  - destruct (uniform E lo hi g) as [x g1].
    specialize (IH g1). destruct (uniform_row E b g1) as [xs g2].
    simpl in *. rewrite IH. reflexivity.
Qed.

Lemma uniform_row_in_goal_space (b : Box) :
  uniform_in_bounds E ->
  Forall (fun bounds => fst bounds <= snd bounds) b ->
  forall g, in_goal_space b (fst (uniform_row E b g)).
Proof.
  intros Hu Hb. unfold in_goal_space.
  induction Hb as [| [lo hi] b Hlh Hb IH]; intros g; simpl.
  - constructor.
  - specialize (Hu lo hi g Hlh).
    destruct (uniform E lo hi g) as [x g1].
    specialize (IH g1). destruct (uniform_row E b g1) as [xs g2].
    simpl in *. constructor; assumption.
Qed.

Lemma uniform_rows_length (n : nat) (b : Box) :
  forall g, List.length (fst (uniform_rows E n b g)) = n.
Proof.
  induction n as [| n IH]; intros g; simpl.
  - reflexivity.
  - destruct (uniform_row E b g) as [r g1].
    specialize (IH g1). destruct (uniform_rows E n b g1) as [rs g2].
    simpl in *. rewrite IH. reflexivity.
Qed.

Lemma uniform_rows_in_goal_space (n : nat) (b : Box) :
  uniform_in_bounds E ->
  Forall (fun bounds => fst bounds <= snd bounds) b ->
  forall g, Forall (in_goal_space b) (fst (uniform_rows E n b g)).
Proof.
  intros Hu Hb. induction n as [| n IH]; intros g; simpl.
  - constructor.
  - pose proof (uniform_row_in_goal_space b Hu Hb g) as Hrow.
    destruct (uniform_row E b g) as [r g1].
    specialize (IH g1). destruct (uniform_rows E n b g1) as [rs g2].
    simpl in *. constructor; assumption.
Qed.

Lemma SawyerDoorEnv_sample_goals_frame (e : Env E) (n : nat) :
  snd (SawyerDoorEnv_sample_goals E e n)
  = set_np_random E e (np_random (snd (SawyerDoorEnv_sample_goals E e n))).
Proof.
  unfold SawyerDoorEnv_sample_goals.
  destruct (uniform_rows E n (goal_space e) (np_random e)) as [rows g].
  destruct e as [k fs rt it fg fxg gs pas ars ga mx my mny tps tas gp d rng].
  cbn [fix_goal]. destruct fg; reflexivity.
Qed.

Lemma sample_goal_frame (e e' : Env E) (goal : Goal) :
  sample_goal E e = Ok (goal, e') ->
  e' = set_np_random E e (np_random e').
Proof.
  unfold sample_goal, sample_goals.
  pose proof (SawyerDoorEnv_sample_goals_frame e 1) as Hframe.
  destruct (SawyerDoorEnv_sample_goals E e 1) as [b s1].
  cbn [snd] in Hframe.
  destruct (klass e).
  5: { cbn [bind]. destruct (unbatchify_dict (GoalsDict b) 0) as [g | ex];
       cbn [bind]; intros H; try discriminate.
       injection H as _ H. subst e'. exact Hframe. }
  4: { destruct (SawyerDoorPushOpenAndReachEnv_sample_goals E e 1)
         as [[a s'] | ex]; cbn; intros H; discriminate. }
  all: cbn [bind]; destruct (unbatchify_dict (GoalsDict b) 0) as [g | ex];
    cbn [bind]; intros H; try discriminate;
    injection H as _ H; subst e'; exact Hframe.
Qed.

Lemma sample_goal_reach_raises (e : Env E) :
  klass e = SawyerDoorPushOpenAndReachEnv -> raises (sample_goal E e).
Proof.
  intros Hk. unfold sample_goal, sample_goals. rewrite Hk.
  destruct (SawyerDoorPushOpenAndReachEnv_sample_goals E e 1)
    as [[a s'] | ex]; cbn; eexists; reflexivity.
Qed.

End Sampling.

(** X7: what [SawyerDoorEnv.sample_goals] returns.  Both keys hold the same
    batch of [batch_size] goals and only the random generator of the
    environment can have changed.  With [fix_goal] the goals are copies of
    the fixed goal and the generator is not used; without it every goal has
    one component per dimension of the goal space and, the generator
    drawing within ordered bounds, lies inside the goal space. *)
Theorem X7_sampled_goals (E : Engine) (e : Env E) (batch_size : nat) :
  gb_desired_goal (fst (SawyerDoorEnv_sample_goals E e batch_size))
  = gb_state_desired_goal (fst (SawyerDoorEnv_sample_goals E e batch_size))
  /\ List.length
       (gb_desired_goal (fst (SawyerDoorEnv_sample_goals E e batch_size)))
     = batch_size
  /\ snd (SawyerDoorEnv_sample_goals E e batch_size)
     = set_np_random E e
         (np_random (snd (SawyerDoorEnv_sample_goals E e batch_size)))
  /\ (fix_goal e = true ->
      gb_desired_goal (fst (SawyerDoorEnv_sample_goals E e batch_size))
      = repeat (fixed_goal e) batch_size
      /\ snd (SawyerDoorEnv_sample_goals E e batch_size) = e)
  /\ (fix_goal e = false ->
      uniform_in_bounds E ->
      Forall (fun bounds => fst bounds <= snd bounds) (goal_space e) ->
      Forall (in_goal_space (goal_space e))
        (gb_desired_goal (fst (SawyerDoorEnv_sample_goals E e batch_size)))).
Proof.
  unfold SawyerDoorEnv_sample_goals.
  pose proof (uniform_rows_length E batch_size (goal_space e) (np_random e))
    as Hlen.
  pose proof (fun Hu Hb =>
                uniform_rows_in_goal_space E batch_size (goal_space e) Hu Hb
                  (np_random e)) as Hin.
  destruct (uniform_rows E batch_size (goal_space e) (np_random e))
    as [rows g].
  destruct e as [k fs rt it fg fxg gs pas ars ga mx my mny tps tas gp d rng].
  cbn [fix_goal fixed_goal goal_space np_random] in *.
  destruct fg; cbn [fst snd gb_desired_goal gb_state_desired_goal] in *.
  - split; [reflexivity |]. split; [apply repeat_length |].
    split; [reflexivity |]. split.
    + intros _. split; reflexivity.
    + intros Hf. discriminate.
  - split; [reflexivity |]. split; [exact Hlen |].
    split; [reflexivity |]. split.
    + intros Hf. discriminate.
    + intros _ Hu Hb. apply Hin; assumption.
Qed.

(** X8: [SawyerDoorPushOpenAndReachEnv.sample_goals] does not return a
    batch.  Its goal space having more than one dimension, it raises
    [ValueError] unless [batch_size] equals the number of dimensions, and
    then it returns one flat array with one entry per dimension. *)
Theorem X8_reach_sample_goals_is_not_batched (E : Engine) (e : Env E)
  (batch_size : nat) :
  (2 <= List.length (goal_space e))%nat ->
  (batch_size <> List.length (goal_space e) ->
   SawyerDoorPushOpenAndReachEnv_sample_goals E e batch_size
   = Raise (ValueError
       "shape mismatch: objects cannot be broadcast to a single shape"))
  /\ (batch_size = List.length (goal_space e) ->
      exists row e',
        SawyerDoorPushOpenAndReachEnv_sample_goals E e batch_size
        = Ok (row, e')
        /\ List.length row = List.length (goal_space e)).
Proof.
  intros Hdim. unfold SawyerDoorPushOpenAndReachEnv_sample_goals.
  pose proof (uniform_row_length E (goal_space e) (np_random e)) as Hlen.
  destruct (goal_space e) as [| [lo hi] [| p rest]] eqn:Hgs;
    simpl in Hdim; try lia.
  split.
  - intros Hne. apply Nat.eqb_neq in Hne. rewrite Nat.eqb_sym in Hne.
    rewrite Hne. reflexivity.
  - intros Heq. rewrite <- Heq, Nat.eqb_refl.
    destruct (uniform_row E ((lo, hi) :: p :: rest) (np_random e))
      as [row g]. simpl in Hlen.
    eexists. eexists. split; [reflexivity |]. rewrite Heq. exact Hlen.
Qed.

(** ** reset *)

Section ResetFrame.

Context (E : Engine).

Lemma set_state_inv (e e1 : Env E) (new_qpos new_qvel : ndarray) :
  set_state E e new_qpos new_qvel = Ok e1 ->
  exists d,
    e1 = set_data E e (sim_forward E d)
    /\ qpos d = new_qpos
    /\ qvel d = new_qvel
    /\ time d = time (data e)
    /\ mocap_pos d = mocap_pos (data e)
    /\ mocap_quat d = mocap_quat (data e).
Proof.
  unfold set_state.
  destruct (Nat.eqb (List.length new_qpos) (List.length (qpos (data e))))
    eqn:Hp; cbn [andb]; try discriminate.
  destruct (Nat.eqb (List.length new_qvel) (List.length (qvel (data e))))
    eqn:Hv; try discriminate.
  apply Nat.eqb_eq in Hp. apply Nat.eqb_eq in Hv.
  unfold sim_get_state at 2. cbn [st_act].
  unfold sim_get_state. cbn [st_time].
  rewrite (sim_set_state_returns E _ _ _ _ Hp Hv). cbn [bind].
  intros H. injection H as H. subst e1.
  eexists. split; [reflexivity |]. repeat split.
Qed.

Lemma reset_inv (e e' : Env E) (resample : bool) (obs : Obs) :
  reset E e resample = Ok (e', obs) ->
  obs = _get_obs E e'
  /\ (exists d,
        data e' = sim_forward E d
        /\ qpos d = init_angles
        /\ qvel d = repeat 0 (List.length (qvel (data e)))
        /\ time d = time (data e)
        /\ mocap_pos d = mocap_pos (data e)
        /\ mocap_quat d = mocap_quat (data e))
  /\ (resample = false ->
      _goal_angle e' = _goal_angle e /\ np_random e' = np_random e).
Proof.
  unfold reset. intros H.
  apply bind_Ok_inv in H. destruct H as [angles [Ha H]].
  apply bind_Ok_inv in H. destruct H as [e1 [H1 H]].
  apply bind_Ok_inv in H. destruct H as [e2 [H2 H]].
  injection H as He' Hobs. subst e' obs.
  assert (Hangles : angles = init_angles).
  { unfold slice_assign, init_angles in Ha.
    destruct (Nat.eqb _ _) in Ha; try discriminate.
    injection Ha as Ha. symmetry. exact Ha. }
  subst angles.
  destruct (set_state_inv e e1 _ _ H1) as [d [He1 [Hq [Hv [Ht [Hm Hmq]]]]]].
  assert (Hdata : data e2 = data e1
                  /\ (resample = false ->
                      _goal_angle e2 = _goal_angle e1
                      /\ np_random e2 = np_random e1)).
  { destruct resample.
    - apply bind_Ok_inv in H2. destruct H2 as [[goal s] [Hs H2]].
      cbn in H2. injection H2 as H2. subst e2.
      rewrite (sample_goal_frame E e1 s goal Hs).
      split; [reflexivity | intros Hf; discriminate].
    - injection H2 as H2. subst e2. split; [reflexivity |].
      intros _. split; reflexivity. }
  destruct Hdata as [Hdata Hkeep].
  split; [reflexivity |]. split.
  - exists d. rewrite Hdata, He1. cbn [data set_data].
    repeat split; assumption.
  - intros Hf. destruct (Hkeep Hf) as [Hg Hr].
    rewrite Hg, Hr, He1. split; reflexivity.
Qed.

Lemma reset_wrong_nq (e : Env E) (resample : bool) :
  List.length (qpos (data e)) <> 8%nat ->
  reset E e resample = Raise (ValueError "could not broadcast input array").
Proof.
  intros Hn. unfold reset, slice_assign, init_angles.
  cbn [List.length].
  apply Nat.eqb_neq in Hn. rewrite Nat.eqb_sym in Hn. rewrite Hn.
  reflexivity.
Qed.

Lemma set_state_klass (e e1 : Env E) (new_qpos new_qvel : ndarray) :
  set_state E e new_qpos new_qvel = Ok e1 -> klass e1 = klass e.
Proof.
  intros H. destruct (set_state_inv e e1 _ _ H) as [d [He1 _]].
  rewrite He1. reflexivity.
Qed.

Lemma reset_reach_raises (e : Env E) :
  klass e = SawyerDoorPushOpenAndReachEnv -> raises (reset E e true).
Proof.
  intros Hk. unfold reset.
  apply raises_bind. intros angles.
  destruct (set_state E e angles (repeat 0 (List.length (qvel (data e)))))
    as [e1 | ex] eqn:H1; cbn [bind].
  - apply raises_bind_l. apply raises_bind_l.
    apply sample_goal_reach_raises.
    rewrite (set_state_klass e e1 _ _ H1). exact Hk.
  - eexists. reflexivity.
Qed.

End ResetFrame.

(** X9: what [reset] writes.  A reset that returns has handed to
    [sim.forward()] the initial joint angles and zero velocities, with the
    clock and the mocap pose as they were: neither is reset.  Its
    observation is the one [_get_obs] reads afterwards, and without
    resampling the goal and the random generator are kept.  On a model that
    does not have eight joint positions it raises [ValueError]. *)
Theorem X9_reset_writes_the_initial_joint_state (E : Engine) (e : Env E)
  (resample_on_reset : bool) :
  (forall e' obs,
     reset E e resample_on_reset = Ok (e', obs) ->
     obs = _get_obs E e'
     /\ (exists d,
           data e' = sim_forward E d
           /\ qpos d = init_angles
           /\ qvel d = repeat 0 (List.length (qvel (data e)))
           /\ time d = time (data e)
           /\ mocap_pos d = mocap_pos (data e)
           /\ mocap_quat d = mocap_quat (data e))
     /\ (resample_on_reset = false ->
         _goal_angle e' = _goal_angle e /\ np_random e' = np_random e))
  /\ (List.length (qpos (data e)) <> 8%nat ->
      reset E e resample_on_reset
      = Raise (ValueError "could not broadcast input array")).
Proof.
  split.
  - intros e' obs. apply reset_inv.
  - apply reset_wrong_nq.
Qed.

(** X10: the reach class cannot resample a goal.  Its [sample_goals]
    returns a bare array where [sample_goal] unpacks a dictionary (or it
    has raised before), so for the reach class [sample_goal] and [reset]
    with [resample_on_reset=True], the default, never return. *)
Theorem X10_reach_reset_never_resamples (E : Engine) (e : Env E) :
  klass e = SawyerDoorPushOpenAndReachEnv ->
  raises (sample_goal E e) /\ raises (reset E e true).
Proof.
  intros Hk. split.
  - apply sample_goal_reach_raises. exact Hk.
  - apply reset_reach_raises. exact Hk.
Qed.

(** ** Forcing the simulation to a goal *)

Section ToGoal.

Context (E : Engine).

Lemma set_goal_angle_inv (e e' : Env E) (angle : ndarray) :
  set_goal_angle E e angle = Ok e' ->
  exists a q0 qs v0 vs d,
    angle = [a]
    /\ qpos (data e) = q0 :: qs
    /\ qvel (data e) = v0 :: vs
    /\ e' = set_data E (set__goal_angle E e angle) (sim_forward E d)
    /\ qpos d = a :: qs
    /\ qvel d = 0 :: vs
    /\ mocap_pos d = mocap_pos (data e)
    /\ mocap_quat d = mocap_quat (data e).
Proof.
  unfold set_goal_angle. cbn [data set__goal_angle].
  destruct (qpos (data e)) as [| q0 qs] eqn:Hq; cbn [setitem0 bind];
    try discriminate.
  destruct angle as [| a [| a' angle]]; cbn [as_scalar bind];
    try discriminate.
  destruct (qvel (data e)) as [| v0 vs] eqn:Hv; cbn [setitem0 bind];
    try discriminate.
  intros H.
  destruct (set_state_inv E _ _ _ _ H) as [d [He' [Hqd [Hvd [_ [Hm Hmq]]]]]].
  exists a, q0, qs, v0, vs, d.
  repeat split; try reflexivity; assumption.
Qed.

Lemma set_goal_angle_returns (e : Env E) (a q0 v0 : Q) (qs vs : ndarray) :
  qpos (data e) = q0 :: qs ->
  qvel (data e) = v0 :: vs ->
  returns (set_goal_angle E e [a]).
Proof.
  intros Hq Hv. unfold set_goal_angle. cbn [data set__goal_angle].
  rewrite Hq, Hv. cbn [setitem0 as_scalar bind].
  destruct (set_state_returns E (set__goal_angle E e [a]) (a :: qs) (0 :: vs))
    as [d [Hd _]].
  - cbn [data set__goal_angle]. rewrite Hq. reflexivity.
  - cbn [data set__goal_angle]. rewrite Hv. reflexivity.
  - rewrite Hd. eexists. reflexivity.
Qed.

Lemma set_goal_angle_wrong_size (e : Env E) (angle : ndarray) :
  qpos (data e) <> [] ->
  List.length angle <> 1%nat ->
  set_goal_angle E e angle
  = Raise (ValueError "setting an array element with a sequence.").
Proof.
  intros Hq Ha. unfold set_goal_angle. cbn [data set__goal_angle].
  destruct (qpos (data e)) as [| q0 qs]; [contradiction Hq; reflexivity |].
  destruct angle as [| a [| a' angle]]; try reflexivity.
  contradiction Ha. reflexivity.
Qed.

Lemma base_set_to_goal (e : Env E) (goal : goal_arg) :
  klass e <> SawyerDoorPushOpenActionLimitedEnv ->
  klass e <> SawyerDoorPushOpenAndReachEnv ->
  set_to_goal E e goal = SawyerDoorEnv_set_to_goal E e goal.
Proof.
  intros H1 H2. unfold set_to_goal.
  destruct (klass e); try reflexivity; [contradiction H1 | contradiction H2];
    reflexivity.
Qed.

End ToGoal.

(** X11: [set_to_goal] of the base, push-open and pull-open classes reads
    only the [state_desired_goal] entry.  When that entry is one angle the
    call stores it as the goal, so that [get_goal] returns it under both
    keys, and hands to [sim.forward()] the joint state with the door joint
    at that angle and at rest, the other joints and the mocap target as they
    were.  When the entry does not hold exactly one number, as the default
    fixed goal of three, it raises [ValueError]. *)
Theorem X11_set_to_goal_moves_the_door_joint (E : Engine) (e : Env E)
  (goal : Goal) :
  klass e <> SawyerDoorPushOpenActionLimitedEnv ->
  klass e <> SawyerDoorPushOpenAndReachEnv ->
  (forall e', set_to_goal E e (ArgDict goal) = Ok e' ->
     SawyerDoorEnv_get_goal E e'
     = mk_Goal (g_state_desired_goal goal) (g_state_desired_goal goal)
     /\ exists a d,
          g_state_desired_goal goal = [a]
          /\ data e' = sim_forward E d
          /\ qpos d = a :: tl (qpos (data e))
          /\ qvel d = 0 :: tl (qvel (data e))
          /\ mocap_pos d = mocap_pos (data e)
          /\ mocap_quat d = mocap_quat (data e))
  /\ (forall a, g_state_desired_goal goal = [a] ->
        qpos (data e) <> [] -> qvel (data e) <> [] ->
        exists e', set_to_goal E e (ArgDict goal) = Ok e')
  /\ (List.length (g_state_desired_goal goal) <> 1%nat ->
      qpos (data e) <> [] ->
      set_to_goal E e (ArgDict goal)
      = Raise (ValueError "setting an array element with a sequence.")).
Proof.
  intros Hk1 Hk2. rewrite (base_set_to_goal E e _ Hk1 Hk2).
  unfold SawyerDoorEnv_set_to_goal.
  split; [| split].
  - intros e' H.
    destruct (set_goal_angle_inv E e e' _ H)
      as [a [q0 [qs [v0 [vs [d [Ha [Hq [Hv [He' [Hqd [Hvd [Hm Hmq]]]]]]]]]]]]].
    split.
    + rewrite He'. reflexivity.
    + exists a, d. rewrite Hq, Hv. cbn [tl].
      split; [exact Ha |]. split; [rewrite He'; reflexivity |].
      repeat split; assumption.
  - intros a Ha Hq Hv. rewrite Ha.
    destruct (qpos (data e)) as [| q0 qs] eqn:Hq'; [contradiction Hq; reflexivity |].
    destruct (qvel (data e)) as [| v0 vs] eqn:Hv'; [contradiction Hv; reflexivity |].
    apply (set_goal_angle_returns E e a q0 v0 qs vs Hq' Hv').
  - intros Hlen Hq. apply set_goal_angle_wrong_size; assumption.
Qed.

(** X12: the classes disagree on what [set_to_goal] takes.  The base,
    push-open and pull-open classes index their argument with a key, so a
    bare array raises [IndexError]; the action-limited and the reach class
    treat it as an array, so a goal dictionary, which is what [sample_goal]
    and [get_goal] return, always raises. *)
Theorem X12_set_to_goal_argument_kinds (E : Engine) (e : Env E) :
  (klass e <> SawyerDoorPushOpenActionLimitedEnv ->
   klass e <> SawyerDoorPushOpenAndReachEnv ->
   forall a,
     set_to_goal E e (ArgArray a)
     = Raise (IndexError "only integers, slices, ellipsis, numpy.newaxis and integer or boolean arrays are valid indices"))
  /\ (klass e = SawyerDoorPushOpenActionLimitedEnv
      \/ klass e = SawyerDoorPushOpenAndReachEnv ->
      forall g, raises (set_to_goal E e (ArgDict g))).
Proof.
  split.
  - intros Hk1 Hk2 a. rewrite (base_set_to_goal E e _ Hk1 Hk2). reflexivity.
  - intros [Hk | Hk] g; unfold set_to_goal; rewrite Hk.
    + unfold SawyerDoorPushOpenActionLimitedEnv_set_to_goal.
      destruct (uniform_row E _ (np_random e)) as [ee_pos rng].
      apply raises_bind. intros e1.
      unfold set_goal_angle_of_dict.
      apply raises_bind_l.
      destruct (qpos (data e1)); cbn; eexists; reflexivity.
    + cbn. eexists. reflexivity.
Qed.

Section GoalPosition.

Context (E : Engine).

Lemma do_simulation_mocap_quat (e : Env E) (u : ndarray) (n : nat) :
  (forall d, mocap_quat (sim_step E d) = mocap_quat d) ->
  mocap_quat (data (do_simulation E e u n)) = mocap_quat (data e).
Proof.
  intros Hstep. unfold do_simulation. simpl.
  induction n as [| n IH]; simpl.
  - reflexivity.
  - rewrite Hstep. exact IH.
Qed.

Lemma set_goal_pos_loop_spec (xyz : ndarray) (p : vec3) (n : nat) :
  vec3_of_array xyz = Ok p ->
  forall e : Env E,
  exists e',
    set_goal_pos_loop E (S n) e xyz = Ok e'
    /\ e' = set_data E e (data e')
    /\ ((forall d, mocap_pos (sim_step E d) = mocap_pos d) ->
        mocap_pos (data e') = p)
    /\ ((forall d, mocap_quat (sim_step E d) = mocap_quat d) ->
        mocap_quat (data e') = mk_quat 1 0 1 0).
Proof.
  intros Hp. induction n as [| n IH]; intros e.
  - cbn [set_goal_pos_loop]. rewrite Hp. cbn [bind].
    eexists. split; [reflexivity |]. split; [reflexivity |]. split.
    + intros Hs. rewrite do_simulation_mocap_pos by exact Hs. reflexivity.
    + intros Hs. rewrite do_simulation_mocap_quat by exact Hs. reflexivity.
  - remember (S n) as m. cbn [set_goal_pos_loop]. rewrite Hp. cbn [bind].
    subst m.
    destruct (IH (do_simulation E
                    (set_data E e
                       (set_mocap_quat E (set_mocap_pos E (data e) p)
                          (mk_quat 1 0 1 0)))
                    (repeat 0 7) (frame_skip e)))
      as [e' [H [He' [Hpos Hquat]]]].
    exists e'. split; [exact H |]. split; [| split; assumption].
    rewrite He' at 1. reflexivity.
Qed.

Lemma set_goal_pos_wrong_shape (e : Env E) (xyz : ndarray) :
  List.length xyz <> 1%nat -> List.length xyz <> 3%nat ->
  set_goal_pos E e xyz = Raise (ValueError "could not broadcast input array").
Proof.
  intros H1 H3. unfold set_goal_pos. cbn [set_goal_pos_loop].
  destruct xyz as [| x [| y [| z [| w xyz]]]]; try reflexivity.
  - contradiction H1. reflexivity.
  - contradiction H3. reflexivity.
Qed.

End GoalPosition.

(** X13: [set_goal_pos] drives the mocap target without the clamps of the
    action mapper.  For three coordinates it returns, having replaced only
    the simulator data, and, the simulator leaving the mocap pose where it
    is put, the target is then exactly the requested position, whatever the
    workspace box and the height 0.06, with the quaternion (1, 0, 1, 0).
    Coordinates that are neither one nor three raise [ValueError]. *)
Theorem X13_set_goal_pos_is_not_clamped (E : Engine) (e : Env E)
  (xyz : ndarray) :
  (forall x y z, xyz = [x; y; z] ->
     exists e',
       set_goal_pos E e xyz = Ok e'
       /\ e' = set_data E e (data e')
       /\ ((forall d, mocap_pos (sim_step E d) = mocap_pos d) ->
           mocap_pos (data e') = mk_vec3 x y z)
       /\ ((forall d, mocap_quat (sim_step E d) = mocap_quat d) ->
           mocap_quat (data e') = mk_quat 1 0 1 0))
  /\ (List.length xyz <> 1%nat -> List.length xyz <> 3%nat ->
      set_goal_pos E e xyz
      = Raise (ValueError "could not broadcast input array")).
Proof.
  split.
  - intros x y z Hxyz. subst xyz. unfold set_goal_pos.
    apply (set_goal_pos_loop_spec E [x; y; z] (mk_vec3 x y z) 9).
    reflexivity.
  - apply set_goal_pos_wrong_shape.
Qed.

(** ** The reach class on arrays *)

Lemma getitem0_rev (a : ndarray) :
  a <> [] -> getitem0 (rev a) = Ok (last a 0).
Proof.
  intros Ha. destruct (exists_last Ha) as [l [x Hl]]. subst a.
  rewrite rev_app_distr, last_last. reflexivity.
Qed.

Section ReachGoal.

Context (E : Engine).

Lemma reach_set_goal_inv (e e' : Env E) (goal : ndarray) :
  SawyerDoorPushOpenAndReachEnv_set_goal E e goal = Ok e' ->
  goal <> []
  /\ _goal_angle e' = [last goal 0]
  /\ _goal_pos e' = firstn 3 goal
  /\ data e' = data e.
Proof.
  unfold SawyerDoorPushOpenAndReachEnv_set_goal. intros H.
  apply bind_Ok_inv in H. destruct H as [u [_ H]].
  apply bind_Ok_inv in H. destruct H as [angle [Ha H]].
  injection H as H. subst e'.
  assert (Hne : goal <> []).
  { intros Hnil. subst goal. discriminate Ha. }
  rewrite (getitem0_rev goal Hne) in Ha. injection Ha as Ha. subst angle.
  split; [exact Hne |]. split; [reflexivity |]. split; reflexivity.
Qed.

End ReachGoal.

(** X14: [get_goal] after [set_goal] in the reach class.  A goal of four
    components comes back as it was set.  In general the first three
    components and the last one come back: a longer goal loses its middle
    without an error, a goal of three comes back with its last component
    repeated, and after a goal of one or two components [get_goal] raises
    [IndexError]. *)
Theorem X14_reach_get_goal_after_set_goal (E : Engine) (e e' : Env E)
  (goal : ndarray) :
  SawyerDoorPushOpenAndReachEnv_set_goal E e goal = Ok e' ->
  ((3 <= List.length goal)%nat ->
   SawyerDoorPushOpenAndReachEnv_get_goal E e'
   = Ok (firstn 3 goal ++ [last goal 0]))
  /\ (List.length goal = 4%nat ->
      SawyerDoorPushOpenAndReachEnv_get_goal E e' = Ok goal)
  /\ ((List.length goal < 3)%nat ->
      SawyerDoorPushOpenAndReachEnv_get_goal E e'
      = Raise (IndexError "index out of bounds")).
Proof.
  intros H.
  destruct (reach_set_goal_inv E e e' goal H) as [Hne [Ha [Hp _]]].
  unfold SawyerDoorPushOpenAndReachEnv_get_goal. rewrite Ha, Hp.
  split; [| split].
  - intros Hlen.
    destruct goal as [| g0 [| g1 [| g2 rest]]]; simpl in Hlen; try lia.
    reflexivity.
  - intros Hlen.
    destruct goal as [| g0 [| g1 [| g2 [| g3 [| g4 rest]]]]];
      simpl in Hlen; try lia.
    reflexivity.
  - intros Hlen.
    destruct goal as [| g0 [| g1 [| g2 rest]]]; simpl in Hlen; try lia;
      reflexivity.
Qed.

(** X15: the relabelling reward [compute_her_reward_np] of one transition.
    For a non-empty [next_ob] and [goal] whose first three entries numpy can
    subtract, it returns, and its value is minus the weighted sum of the
    angle error between the last entries of [next_ob] and [goal], the norm
    of the action and the norm of the position error, the difference of the
    first three entries:
    -1 * (|angle - goal_angle| * target_angle_scale
          + norm(action) * action_reward_scale
          + norm(pos - goal_pos) * target_pos_scale).
    Whenever it returns, that is its value.  So with the default weights
    (angle 1, action 0, position 0) it is minus the absolute angle error
    alone; with weights that are not negative, norms not being negative
    either, it is never positive; and on an empty [next_ob] it raises
    [IndexError]. *)
Theorem X15_her_reward (E : Engine) (e : Env E)
  (ob action next_ob goal : ndarray) (env_info : option Info) :
  (forall pos angle goal_pos goal_angle diff,
     next_ob = pos ++ [angle] -> goal = goal_pos ++ [goal_angle] ->
     np_sub (firstn 3 next_ob) (firstn 3 goal) = Ok diff ->
     compute_her_reward_np E e ob action next_ob goal env_info
     = Ok (-1 * (Qabs (angle - goal_angle) * target_angle_scale e
                 + linalg_norm E action * action_reward_scale e
                 + linalg_norm E diff * target_pos_scale e)))
  /\ (forall r pos angle goal_pos goal_angle,
        next_ob = pos ++ [angle] -> goal = goal_pos ++ [goal_angle] ->
        compute_her_reward_np E e ob action next_ob goal env_info = Ok r ->
        (exists diff,
           np_sub (firstn 3 next_ob) (firstn 3 goal) = Ok diff
           /\ r = -1 * (Qabs (angle - goal_angle) * target_angle_scale e
                        + linalg_norm E action * action_reward_scale e
                        + linalg_norm E diff * target_pos_scale e))
        /\ (target_angle_scale e == 1 -> action_reward_scale e == 0 ->
            target_pos_scale e == 0 -> r == - Qabs (angle - goal_angle))
        /\ (0 <= target_angle_scale e -> 0 <= action_reward_scale e ->
            0 <= target_pos_scale e ->
            (forall v, 0 <= linalg_norm E v) -> r <= 0))
  /\ (next_ob = [] ->
      compute_her_reward_np E e ob action next_ob goal env_info
      = Raise (IndexError "index 0 is out of bounds for axis 0 with size 0")).
Proof.
  split; [| split].
  - intros pos angle goal_pos goal_angle diff Hob Hgoal Hsub.
    subst next_ob goal.
    unfold compute_her_reward_np,
      SawyerDoorPushOpenAndReachEnv__compute_reward_np.
    rewrite !rev_app_distr. cbn [rev app getitem0 bind].
    rewrite Hsub. reflexivity.
  - intros r pos angle goal_pos goal_angle Hob Hgoal H.
    subst next_ob goal.
    unfold compute_her_reward_np,
      SawyerDoorPushOpenAndReachEnv__compute_reward_np in H.
    rewrite !rev_app_distr in H. cbn [rev app getitem0 bind] in H.
    destruct (np_sub (firstn 3 (pos ++ [angle]))
                (firstn 3 (goal_pos ++ [goal_angle]))) as [diff | ex];
      cbn [bind] in H; try discriminate.
    assert (Hr : r = -1 * (Qabs (angle - goal_angle) * target_angle_scale e
                           + linalg_norm E action * action_reward_scale e
                           + linalg_norm E diff * target_pos_scale e))
      by congruence.
    split; [| split].
    + exists diff. split; [reflexivity | exact Hr].
    + subst r. intros H1 H2 H3. rewrite H1, H2, H3. ring.
    + subst r. intros H1 H2 H3 Hn.
      assert (Ha := Qabs_nonneg (angle - goal_angle)).
      assert (Hna := Hn action). assert (Hnd := Hn diff).
      nra.
  - intros Hob. subst next_ob. reflexivity.
Qed.

(** ** Snapshots do not hold the mocap pose *)

Section SnapshotAliasing.

Context (E : Engine).

Lemma set_env_state_inv (e e' : Env E) (state : EnvState) :
  List.length (st_qpos (es_joint_state state)) = List.length (qpos (data e)) ->
  List.length (st_qvel (es_joint_state state)) = List.length (qvel (data e)) ->
  set_env_state E e state = Ok e' ->
  exists d,
    e' = set__goal_angle E (set_data E e (sim_forward E d)) (es_goal state)
    /\ time d = st_time (es_joint_state state)
    /\ qpos d = st_qpos (es_joint_state state)
    /\ qvel d = st_qvel (es_joint_state state)
    /\ mocap_pos d = mocap_pos_of E (data e) (es_mocap_state state)
    /\ mocap_quat d = mocap_quat_of E (data e) (es_mocap_state state).
Proof.
  intros Hp Hv. unfold set_env_state, sim_set_state.
  rewrite (slice_assign_same_length _ _ Hp).
  rewrite (slice_assign_same_length _ _ Hv). cbn [bind].
  destruct (if Nat.eqb (List.length (act (data e))) 0
            then Ok (act (data e))
            else slice_assign (act (data e)) (st_act (es_joint_state state)))
    as [new_act | ex]; cbn [bind]; intros H; try discriminate.
  injection H as H. subst e'.
  eexists. split; [reflexivity |].
  destruct (es_mocap_state state); repeat split.
Qed.

End SnapshotAliasing.

(** X16: a snapshot does not hold the mocap pose.  [get_env_state] keeps
    the arrays [data.mocap_pos] and [data.mocap_quat] themselves, so when
    the snapshot of an environment is restored later, on the same model, the
    clock, the joint positions and velocities and the goal of the snapshot
    come back, but the mocap pose handed to [sim.forward()] is the one the
    simulator holds at that later moment, not the one of the snapshot.  The
    goal position of the reach class is not part of the snapshot either. *)
Theorem X16_snapshot_keeps_the_live_mocap_pose (E : Engine)
  (e later restored : Env E) :
  List.length (qpos (data e)) = List.length (qpos (data later)) ->
  List.length (qvel (data e)) = List.length (qvel (data later)) ->
  set_env_state E later (get_env_state E e) = Ok restored ->
  _goal_angle restored = _goal_angle e
  /\ _goal_pos restored = _goal_pos later
  /\ exists d,
       data restored = sim_forward E d
       /\ time d = time (data e)
       /\ qpos d = qpos (data e)
       /\ qvel d = qvel (data e)
       /\ mocap_pos d = mocap_pos (data later)
       /\ mocap_quat d = mocap_quat (data later).
Proof.
  intros Hp Hv H.
  destruct (set_env_state_inv E later restored (get_env_state E e) Hp Hv H)
    as [d [Hr [Ht [Hq [Hqv [Hm Hmq]]]]]].
  split; [| split].
  - rewrite Hr. reflexivity.
  - rewrite Hr. reflexivity.
  - exists d. rewrite Hr. cbn in *. repeat split; assumption.
Qed.

(** ** Mocap welds *)

Lemma weld_rows_length (weld : Z) (rows : list ndarray) :
  forall types, List.length (weld_rows weld types rows) = List.length rows.
Proof.
  induction rows as [| r rows IH]; intros [| t types]; simpl;
    try reflexivity.
  rewrite IH. reflexivity.
Qed.

Lemma weld_rows_nth (weld : Z) (rows : list ndarray) :
  forall types i r,
    nth_error rows i = Some r ->
    nth_error (weld_rows weld types rows) i
    = Some (match nth_error types i with
            | Some t => if Z.eqb t weld then identity_weld else r
            | None => r
            end).
Proof.
  induction rows as [| r0 rows IH]; intros types i r Hr.
  - destruct i; discriminate.
  - destruct types as [| t types]; destruct i as [| i]; simpl in *.
    + exact Hr.
    + rewrite Hr. destruct i; reflexivity.
    + injection Hr as Hr. subst r0. reflexivity.
    + apply IH. exact Hr.
Qed.

(** X17: [reset_mocap_welds] rewrites weld constraints only.  With no mocap
    body or no constraint data it only calls [sim.forward()].  Otherwise
    the constraint table handed to [sim.forward()] has as many rows as
    before, every row whose type is [EQ_WELD] is the identity weld
    (0, 0, 0, 1, 0, 0, 0), and every other row is untouched. *)
Theorem X17_reset_mocap_welds_touches_welds_only (E : Engine)
  (d : MjData (Hidden E)) :
  (nmocap d = 0%nat \/ eq_data d = None ->
   reset_mocap_welds E d = sim_forward E d)
  /\ (forall rows,
        eq_data d = Some rows -> (0 < nmocap d)%nat ->
        exists rows',
          reset_mocap_welds E d = sim_forward E (set_eq_data E d (Some rows'))
          /\ List.length rows' = List.length rows
          /\ forall i r,
               nth_error rows i = Some r ->
               nth_error rows' i
               = Some (match nth_error (eq_type d) i with
                       | Some t => if Z.eqb t (EQ_WELD E) then identity_weld
                                   else r
                       | None => r
                       end)).
Proof.
  unfold reset_mocap_welds. split.
  - intros [Hn | Hn]; rewrite Hn.
    + destruct (eq_data d); reflexivity.
    + reflexivity.
  - intros rows Hrows Hn. rewrite Hrows.
    apply Nat.ltb_lt in Hn. rewrite Hn.
    exists (weld_rows (EQ_WELD E) (eq_type d) rows).
    split; [reflexivity |]. split.
    + apply weld_rows_length.
    + intros i r Hr. apply weld_rows_nth. exact Hr.
Qed.

(** ** The reach class cannot step *)

(** X18: [step] of the reach class never returns.  It hands the observation
    dictionary of the inherited [_get_obs] to a reward function that indexes
    it with -1: for every state and action the call raises, and once the
    action mapper and [get_goal] have gone through, with a 4-vector action
    and a goal of three position components and one angle, the exception is
    [KeyError(-1)]. *)
Theorem X18_reach_step_raises_KeyError (E : Engine) (e : Env E)
  (a : ndarray) :
  klass e = SawyerDoorPushOpenAndReachEnv ->
  raises (step E e a)
  /\ (List.length a = 4%nat ->
      List.length (_goal_pos e) = 3%nat ->
      List.length (_goal_angle e) = 1%nat ->
      step E e a = Raise (KeyError (PyInt (-1)))).
Proof.
  intros Hk. unfold step. rewrite Hk. split.
  - apply SawyerDoorPushOpenAndReachEnv_step_raises.
  - intros Ha Hp Hg.
    unfold SawyerDoorPushOpenAndReachEnv_step. fold (displacement e a).
    destruct (mocap_set_action_returns E e (displacement e a)
                (displacement_length E e a Ha)) as [e1 H1].
    destruct (mocap_set_action_inv E e e1 _ H1) as [_ [_ He1]].
    rewrite H1. cbn [bind].
    unfold SawyerDoorPushOpenAndReachEnv_get_goal.
    assert (Hp1 : _goal_pos (do_simulation E e1 (repeat 0 7) (frame_skip e1))
                  = _goal_pos e) by (rewrite He1; reflexivity).
    assert (Hg1 : _goal_angle (do_simulation E e1 (repeat 0 7) (frame_skip e1))
                  = _goal_angle e) by (rewrite He1; reflexivity).
    rewrite Hp1, Hg1.
    destruct (_goal_pos e) as [| g0 [| g1 [| g2 [| g3 gp]]]];
      try discriminate.
    destruct (_goal_angle e) as [| ga [| ga' gs]]; try discriminate.
    reflexivity.
Qed.

(** ** The info dictionary *)

(** X19: on an object of the base, push-open, action-limited or pull-open
    class, whose constructor assigns [indicator_threshold], [_get_info]
    never fails.  For every state and every stored goal it returns the two
    entries [angle_difference] and [angle_success], each with one value per
    component of the goal; a difference is never negative, and a success
    flag is 1 when its difference is strictly below the threshold and 0
    otherwise, so a difference equal to the threshold is no success.  (An
    object of the reach class has no attribute [indicator_threshold]: there
    [_get_info] raises [AttributeError], and the reach [step] never calls
    it.) *)
Theorem X19_get_info_never_fails (E : Engine) (e : Env E) :
  klass e <> SawyerDoorPushOpenAndReachEnv ->
  exists diff success,
    _get_info E e
    = Ok [("angle_difference", diff); ("angle_success", success)]
    /\ List.length diff = List.length (_goal_angle e)
    /\ Forall2
         (fun d s =>
            0 <= d
            /\ (d < indicator_threshold e -> s = 1)
            /\ (indicator_threshold e <= d -> s = 0))
         diff success.
Proof.
  intros _. unfold _get_info, np_sub, get_door_angle.
  rewrite broadcast_singleton_l. cbn [bind].
  eexists. eexists. split; [reflexivity |]. split.
  - unfold np_abs. rewrite !length_map. reflexivity.
  - unfold astype_float, np_lt, np_abs.
    induction (map (Qminus (get_joint_qpos E (data e) "doorjoint"))
                 (_goal_angle e)) as [| x l IH]; simpl; constructor.
    + split; [apply Qabs_nonneg |].
      unfold Qltb.
      destruct (Qle_bool (indicator_threshold e) (Qabs x)) eqn:Hb; simpl.
      * apply Qle_bool_iff in Hb. split; [intros Hlt; lra | reflexivity].
      * split; [reflexivity |]. intros Hle.
        apply Qle_bool_iff in Hle. rewrite Hle in Hb. discriminate.
    + exact IH.
Qed.

(** ** set_to_goal of the action-limited and of the reach class *)

Section ToGoalArrays.

Context (E : Engine).

Lemma set_goal_pos_inv (e e1 : Env E) (xyz : ndarray) :
  set_goal_pos E e xyz = Ok e1 ->
  e1 = set_data E e (data e1)
  /\ exists p,
       vec3_of_array xyz = Ok p
       /\ ((forall d, mocap_pos (sim_step E d) = mocap_pos d) ->
           mocap_pos (data e1) = p).
Proof.
  unfold set_goal_pos. intros H.
  destruct (vec3_of_array xyz) as [p | ex] eqn:Hp.
  - destruct (set_goal_pos_loop_spec E xyz p 9 Hp e)
      as [e' [H' [He' [Hpos _]]]].
    rewrite H' in H. injection H as H. subst e'.
    split; [exact He' |]. exists p. split; [reflexivity | exact Hpos].
  - cbn [set_goal_pos_loop] in H. rewrite Hp in H. discriminate.
Qed.

End ToGoalArrays.

(** X20: where the action-limited class puts the end effector in
    [set_to_goal].  Whenever the call returns, with bounds in order and a
    generator that draws within them, the mocap target handed on, the
    simulator leaving it where it is put, lies in x in
    [-max_x_pos, max_x_pos] and y in [min_y_pos, 0.6], at height 0.06: on
    the hand's side of the door, between the hand and the door.  The goal
    stored is the array passed in. *)
Theorem X20_action_limited_set_to_goal (E : Engine) (e e' : Env E)
  (goal : ndarray) :
  klass e = SawyerDoorPushOpenActionLimitedEnv ->
  uniform_in_bounds E ->
  (forall d, mocap_pos (sim_step E d) = mocap_pos d) ->
  0 <= max_x_pos e -> min_y_pos e <= 0.6 ->
  set_to_goal E e (ArgArray goal) = Ok e' ->
  _goal_angle e' = goal
  /\ exists d,
       data e' = sim_forward E d
       /\ - max_x_pos e <= vx (mocap_pos d) <= max_x_pos e
       /\ min_y_pos e <= vy (mocap_pos d) <= 0.6
       /\ vz (mocap_pos d) == 0.06.
Proof.
  intros Hk Hu Hs Hx Hy. unfold set_to_goal. rewrite Hk.
  unfold SawyerDoorPushOpenActionLimitedEnv_set_to_goal.
  pose proof (uniform_row_in_goal_space E
                [(- max_x_pos e, max_x_pos e); (min_y_pos e, 0.6);
                 (0.06, 0.06)] Hu) as Hin.
  specialize (Hin ltac:(repeat constructor; simpl; lra) (np_random e)).
  destruct (uniform_row E _ (np_random e)) as [ee_pos rng].
  cbn [fst] in Hin. intros H.
  apply bind_Ok_inv in H. destruct H as [e1 [H1 H2]].
  destruct (set_goal_pos_inv E _ e1 ee_pos H1) as [He1 [p [Hp Hpos]]].
  specialize (Hpos Hs).
  destruct (set_goal_angle_inv E e1 e' goal H2)
    as [a [q0 [qs [v0 [vs [d [Ha [_ [_ [He' [_ [_ [Hm _]]]]]]]]]]]]].
  split.
  - rewrite He'. reflexivity.
  - exists d. split; [rewrite He'; reflexivity |].
    rewrite Hm, Hpos. clear Hpos Hm H1 H2 He1 He'.
    unfold in_goal_space in Hin.
    inversion Hin as [| b1 x bs xs [Hx1 Hx2] Hin1]; subst.
    inversion Hin1 as [| b2 y bs2 ys [Hy1 Hy2] Hin2]; subst.
    inversion Hin2 as [| b3 z bs3 zs [Hz1 Hz2] Hin3]; subst.
    inversion Hin3; subst.
    cbn in Hp. injection Hp as Hp. subst p. cbn in *.
    repeat split; try assumption. lra.
Qed.

(** X21: [set_to_goal] of the reach class leaves the stored goal position
    behind.  Whenever the call returns it has stored the last component of
    its argument as the goal angle and driven the mocap target, the
    simulator leaving it where it is put, to the first three components;
    but [_goal_pos] is the one of before, so [get_goal] then reports the
    old goal position with the new angle. *)
Theorem X21_reach_set_to_goal_keeps_the_old_goal_position (E : Engine)
  (e e' : Env E) (goal : ndarray) :
  klass e = SawyerDoorPushOpenAndReachEnv ->
  set_to_goal E e (ArgArray goal) = Ok e' ->
  _goal_angle e' = [last goal 0]
  /\ _goal_pos e' = _goal_pos e
  /\ (forall p0 p1 p2, _goal_pos e = [p0; p1; p2] ->
        SawyerDoorPushOpenAndReachEnv_get_goal E e'
        = Ok [p0; p1; p2; last goal 0])
  /\ exists d p,
       data e' = sim_forward E d
       /\ vec3_of_array (firstn 3 goal) = Ok p
       /\ ((forall s, mocap_pos (sim_step E s) = mocap_pos s) ->
           mocap_pos d = p).
Proof.
  intros Hk. unfold set_to_goal. rewrite Hk.
  unfold SawyerDoorPushOpenAndReachEnv_set_to_goal. intros H.
  apply bind_Ok_inv in H. destruct H as [e1 [H1 H]].
  apply bind_Ok_inv in H. destruct H as [angle [Hangle H2]].
  destruct (set_goal_pos_inv E e e1 _ H1) as [He1 [p [Hp Hpos]]].
  assert (Hne : goal <> []).
  { intros Hnil. subst goal. discriminate Hangle. }
  rewrite (getitem0_rev goal Hne) in Hangle.
  injection Hangle as Hangle. subst angle.
  destruct (set_goal_angle_inv E e1 e' _ H2)
    as [a [q0 [qs [v0 [vs [d [Ha [_ [_ [He' [_ [_ [Hm _]]]]]]]]]]]]].
  assert (Hga : _goal_angle e' = [last goal 0])
    by (rewrite He'; reflexivity).
  assert (Hgp : _goal_pos e' = _goal_pos e)
    by (rewrite He', He1; reflexivity).
  split; [exact Hga |]. split; [exact Hgp |]. split.
  - intros p0 p1 p2 Hpos3.
    unfold SawyerDoorPushOpenAndReachEnv_get_goal.
    rewrite Hga, Hgp, Hpos3. reflexivity.
  - exists d, p. split; [rewrite He'; reflexivity |].
    split; [exact Hp |]. intros Hs. rewrite Hm. apply Hpos. exact Hs.
Qed.

(** ** The further properties at work on the example engine *)

Lemma example_uniform_in_bounds : uniform_in_bounds example_engine.
Proof.
  intros lo hi g Hle. simpl. split; [apply Qle_refl | exact Hle].
Qed.

Lemma example_norm_nonneg (v : ndarray) :
  0 <= linalg_norm example_engine_with_set_goal v.
Proof.
  simpl. induction v as [| x v IH]; simpl.
  - apply Qle_refl.
  - assert (H := Qabs_nonneg x). lra.
Qed.

Lemma X1_step_changes_only_the_simulator_witness :
  match step example_engine
          (example_env SawyerDoorPushOpenEnv "angle_difference" false)
          [2; -3; 0.5; 0] with
  | Ok (e', (obs, _, _, _)) =>
      _goal_angle e' = [0.3] /\ desired_goal obs = [0.3]
      /\ achieved_goal obs = skipn 3 (observation obs)
  | Raise _ => False
  end.
Proof.
  destruct (step example_engine
              (example_env SawyerDoorPushOpenEnv "angle_difference" false)
              [2; -3; 0.5; 0])
    as [[e' [[[obs reward] done] info]] | ex] eqn:H.
  - destruct (X1_step_changes_only_the_simulator _ _ _ _ _ _ _ _ H)
      as [_ [Hg [_ [_ [Hd [_ Ha]]]]]].
    split; [exact Hg |]. split; [exact Hd | exact Ha].
  - vm_compute in H. discriminate H.
Defined.

Lemma X2_step_reward_is_negated_info_witness :
  match step example_engine
          (example_env SawyerDoorPushOpenEnv "hand_success" false)
          [2; -3; 0.5; 0] with
  | Ok (_, (_, reward, _, info)) =>
      exists success,
        info_get info "angle_success" = Some success
        /\ reward = np_neg success
  | Raise _ => False
  end.
Proof.
  destruct (step example_engine
              (example_env SawyerDoorPushOpenEnv "hand_success" false)
              [2; -3; 0.5; 0])
    as [[e' [[[obs reward] done] info]] | ex] eqn:H.
  - apply (proj2 (proj2
             (X2_step_reward_is_negated_info _ _ _ _ _ _ _ _ H))).
    reflexivity.
  - vm_compute in H. discriminate H.
Defined.

Lemma X4_mocap_set_action_does_not_accumulate_witness :
  match mocap_set_action example_engine
          (example_env SawyerDoorPushOpenEnv "angle_difference" false)
          [0.01; -0.01; 0] with
  | Ok e1 => mocap_set_action example_engine e1 [0.01; -0.01; 0] = Ok e1
  | Raise _ => False
  end.
Proof.
  destruct (mocap_set_action example_engine
              (example_env SawyerDoorPushOpenEnv "angle_difference" false)
              [0.01; -0.01; 0]) as [e1 | ex] eqn:H.
  - apply (proj2 (X4_mocap_set_action_does_not_accumulate example_engine
                    (example_env SawyerDoorPushOpenEnv "angle_difference"
                       false) [0.01; -0.01; 0]) e1 H).
  - vm_compute in H. discriminate H.
Defined.

Lemma X5_workspace_of_the_other_classes_witness :
  match mocap_set_action example_engine
          (example_env SawyerDoorPullOpenEnv "angle_difference" false)
          [0.5; 5; 0] with
  | Ok e' => in_box (mk_box (-0.15) 0.15 (-3) 0.7) (mocap_pos (data e'))
  | Raise _ => False
  end
  /\ match mocap_set_action example_engine
             (example_env SawyerDoorPushOpenAndReachEnv "angle_difference"
                false) [0.5; 5; 0] with
     | Ok e' => in_box (mk_box (-0.15) 0.15 0.5 2) (mocap_pos (data e'))
     | Raise _ => False
     end
  /\ match mocap_set_action example_engine
             (example_env SawyerDoorEnv "angle_difference" false)
             [0.5; 5; 0] with
     | Ok e' =>
         vx (mocap_pos (data e')) = 0 + 0.5
         /\ vy (mocap_pos (data e')) = 0.6 + 5
     | Raise _ => False
     end.
Proof.
  split; [| split].
  - destruct (mocap_set_action example_engine
                (example_env SawyerDoorPullOpenEnv "angle_difference" false)
                [0.5; 5; 0]) as [e' | ex] eqn:H.
    + apply (proj1 (X5_workspace_of_the_other_classes _ _ _ _ H)).
      reflexivity.
    + vm_compute in H. discriminate H.
  - destruct (mocap_set_action example_engine
                (example_env SawyerDoorPushOpenAndReachEnv
                   "angle_difference" false) [0.5; 5; 0])
      as [e' | ex] eqn:H.
    + apply (proj1 (proj2 (X5_workspace_of_the_other_classes _ _ _ _ H))).
      reflexivity.
    + vm_compute in H. discriminate H.
  - destruct (mocap_set_action example_engine
                (example_env SawyerDoorEnv "angle_difference" false)
                [0.5; 5; 0]) as [e' | ex] eqn:H.
    + apply (proj2 (proj2 (X5_workspace_of_the_other_classes _ _ _ _ H))
               eq_refl 0.5 5 0 eq_refl).
    + vm_compute in H. discriminate H.
Defined.

Lemma X6_rewards_are_never_positive_witness :
  match compute_rewards example_engine
          (example_env SawyerDoorEnv "hand_success" false)
          [0; 0.3] [0.01; 0] [] with
  | Ok r => Forall (fun x => x <= 0) r /\ Forall (fun x => x = 0 \/ x = -1) r
  | Raise _ => False
  end.
Proof.
  destruct (compute_rewards example_engine
              (example_env SawyerDoorEnv "hand_success" false)
              [0; 0.3] [0.01; 0] []) as [r | ex] eqn:H.
  - destruct (X6_rewards_are_never_positive _ _ _ _ _ _ H) as [H1 [H2 _]].
    split; [exact H1 | apply H2; reflexivity].
  - vm_compute in H. discriminate H.
Defined.

Lemma X7_sampled_goals_witness :
  Forall (in_goal_space [(-1.5708, 1.5708)])
    (gb_desired_goal
       (fst (SawyerDoorEnv_sample_goals example_engine
               (example_env SawyerDoorEnv "angle_difference" false) 3)))
  /\ gb_desired_goal
       (fst (SawyerDoorEnv_sample_goals example_engine
               (example_env SawyerDoorEnv "angle_difference" true) 2))
     = [[0.15; 0.6; 0.3]; [0.15; 0.6; 0.3]].
Proof.
  split.
  - apply (proj2 (proj2 (proj2 (proj2
             (X7_sampled_goals example_engine
                (example_env SawyerDoorEnv "angle_difference" false) 3))))).
    + reflexivity.
    + exact example_uniform_in_bounds.
    + repeat constructor. discriminate.
  - apply (proj1 (proj1 (proj2 (proj2 (proj2
             (X7_sampled_goals example_engine
                (example_env SawyerDoorEnv "angle_difference" true) 2))))
             eq_refl)).
Defined.

Lemma X8_reach_sample_goals_is_not_batched_witness :
  SawyerDoorPushOpenAndReachEnv_sample_goals example_engine_with_set_goal
    example_reach_env 1
  = Raise (ValueError
      "shape mismatch: objects cannot be broadcast to a single shape")
  /\ exists row e',
       SawyerDoorPushOpenAndReachEnv_sample_goals
         example_engine_with_set_goal example_reach_env 4 = Ok (row, e')
       /\ List.length row = 4%nat.
Proof.
  split.
  - apply (proj1 (X8_reach_sample_goals_is_not_batched
                    example_engine_with_set_goal example_reach_env 1
                    ltac:(simpl; lia))).
    discriminate.
  - apply (proj2 (X8_reach_sample_goals_is_not_batched
                    example_engine_with_set_goal example_reach_env 4
                    ltac:(simpl; lia))).
    reflexivity.
Defined.

Lemma X9_reset_writes_the_initial_joint_state_witness :
  match reset example_engine
          (example_env SawyerDoorPushOpenEnv "angle_difference" false)
          false with
  | Ok (e', obs) => obs = _get_obs example_engine e' /\ _goal_angle e' = [0.3]
  | Raise _ => False
  end
  /\ reset example_engine
       (set_data example_engine
          (example_env SawyerDoorPushOpenEnv "angle_difference" false)
          (mk_MjData 0 [0; 0] [0; 0] [] [] (mk_vec3 0 0.6 0.06)
             (mk_quat 1 0 1 0) (mk_vec3 0 0.6 0.06) (mk_quat 1 0 1 0) 1
             [1%Z] None tt))
       true
     = Raise (ValueError "could not broadcast input array").
Proof.
  split.
  - destruct (reset example_engine
                (example_env SawyerDoorPushOpenEnv "angle_difference" false)
                false) as [[e' obs] | ex] eqn:H.
    + destruct (proj1 (X9_reset_writes_the_initial_joint_state
                         example_engine
                         (example_env SawyerDoorPushOpenEnv
                            "angle_difference" false) false) e' obs H)
        as [Hobs [_ Hkeep]].
      split; [exact Hobs |]. apply (proj1 (Hkeep eq_refl)).
    + vm_compute in H. discriminate H.
  - apply (proj2 (X9_reset_writes_the_initial_joint_state example_engine _
                    true)).
    discriminate.
Defined.

Lemma X10_reach_reset_never_resamples_witness :
  raises (reset example_engine
            (example_env SawyerDoorPushOpenAndReachEnv "" false) true).
Proof.
  apply (proj2 (X10_reach_reset_never_resamples example_engine
                  (example_env SawyerDoorPushOpenAndReachEnv "" false)
                  eq_refl)).
Defined.

Lemma X11_set_to_goal_moves_the_door_joint_witness :
  match set_to_goal example_engine
          (example_env SawyerDoorEnv "angle_difference" false)
          (ArgDict (mk_Goal [0.1] [0.2])) with
  | Ok e' => SawyerDoorEnv_get_goal example_engine e' = mk_Goal [0.2] [0.2]
  | Raise _ => False
  end
  /\ set_to_goal example_engine
       (example_env SawyerDoorEnv "angle_difference" false)
       (ArgDict (mk_Goal [0.15; 0.6; 0.3] [0.15; 0.6; 0.3]))
     = Raise (ValueError "setting an array element with a sequence.").
Proof.
  destruct (X11_set_to_goal_moves_the_door_joint example_engine
              (example_env SawyerDoorEnv "angle_difference" false)
              (mk_Goal [0.1] [0.2])) as [Hinv [Hret _]];
    try discriminate.
  destruct (X11_set_to_goal_moves_the_door_joint example_engine
              (example_env SawyerDoorEnv "angle_difference" false)
              (mk_Goal [0.15; 0.6; 0.3] [0.15; 0.6; 0.3]))
    as [_ [_ Hbad]]; try discriminate.
  split.
  - destruct (Hret 0.2 eq_refl) as [e' He']; try discriminate.
    rewrite He'. apply (proj1 (Hinv e' He')).
  - apply Hbad; discriminate.
Defined.

Lemma X12_set_to_goal_argument_kinds_witness :
  set_to_goal example_engine
    (example_env SawyerDoorPullOpenEnv "angle_difference" false)
    (ArgArray [0.2])
  = Raise (IndexError "only integers, slices, ellipsis, numpy.newaxis and integer or boolean arrays are valid indices")
  /\ raises (set_to_goal example_engine
               (example_env SawyerDoorPushOpenActionLimitedEnv
                  "angle_difference" false)
               (ArgDict (mk_Goal [0.2] [0.2]))).
Proof.
  split.
  - apply (proj1 (X12_set_to_goal_argument_kinds example_engine
                    (example_env SawyerDoorPullOpenEnv "angle_difference"
                       false))); discriminate.
  - apply (proj2 (X12_set_to_goal_argument_kinds example_engine
                    (example_env SawyerDoorPushOpenActionLimitedEnv
                       "angle_difference" false))).
    left. reflexivity.
Defined.

Lemma X13_set_goal_pos_is_not_clamped_witness :
  exists e',
    set_goal_pos example_engine
      (example_env SawyerDoorPushOpenEnv "angle_difference" false) [1; 3; 1]
    = Ok e'
    /\ mocap_pos (data e') = mk_vec3 1 3 1
    /\ mocap_quat (data e') = mk_quat 1 0 1 0.
Proof.
  destruct (proj1 (X13_set_goal_pos_is_not_clamped example_engine
                     (example_env SawyerDoorPushOpenEnv "angle_difference"
                        false) [1; 3; 1]) 1 3 1 eq_refl)
    as [e' [H [_ [Hpos Hquat]]]].
  exists e'. split; [exact H |]. split.
  - apply Hpos. intros d. reflexivity.
  - apply Hquat. intros d. reflexivity.
Defined.

Lemma X14_reach_get_goal_after_set_goal_witness :
  match SawyerDoorPushOpenAndReachEnv_set_goal example_engine_with_set_goal
          example_reach_env [0.05; 0.55; 0.06; 0.4] with
  | Ok e' =>
      SawyerDoorPushOpenAndReachEnv_get_goal example_engine_with_set_goal e'
      = Ok [0.05; 0.55; 0.06; 0.4]
  | Raise _ => False
  end
  /\ match SawyerDoorPushOpenAndReachEnv_set_goal
             example_engine_with_set_goal example_reach_env
             [0.05; 0.55; 0.06; 7; 8; 0.4] with
     | Ok e' =>
         SawyerDoorPushOpenAndReachEnv_get_goal
           example_engine_with_set_goal e'
         = Ok [0.05; 0.55; 0.06; 0.4]
     | Raise _ => False
     end.
Proof.
  split.
  - destruct (SawyerDoorPushOpenAndReachEnv_set_goal
                example_engine_with_set_goal example_reach_env
                [0.05; 0.55; 0.06; 0.4]) as [e' | ex] eqn:H.
    + apply (proj1 (proj2 (X14_reach_get_goal_after_set_goal _ _ _ _ H))).
      reflexivity.
    + vm_compute in H. discriminate H.
  - destruct (SawyerDoorPushOpenAndReachEnv_set_goal
                example_engine_with_set_goal example_reach_env
                [0.05; 0.55; 0.06; 7; 8; 0.4]) as [e' | ex] eqn:H.
    + apply (proj1 (X14_reach_get_goal_after_set_goal _ _ _ _ H)).
      simpl. lia.
    + vm_compute in H. discriminate H.
Defined.

Lemma X15_her_reward_witness :
  compute_her_reward_np example_engine_with_set_goal example_reach_env
    [0; 0.6; 0.06; 0] [1; 0; 0; 0] [0.01; 0.6; 0.06; 0.1]
    [0; 0.55; 0.06; 0.3] None
  = Ok (-1 * (Qabs (0.1 - 0.3) * 1
              + linalg_norm example_engine_with_set_goal [1; 0; 0; 0] * 0
              + linalg_norm example_engine_with_set_goal
                  [0.01 - 0; 0.6 - 0.55; 0.06 - 0.06] * 0))
  /\ match compute_her_reward_np example_engine_with_set_goal
             example_reach_env [0; 0.6; 0.06; 0] [1; 0; 0; 0]
             [0.01; 0.6; 0.06; 0.1] [0; 0.55; 0.06; 0.3] None with
     | Ok r => r == - Qabs (0.1 - 0.3) /\ r <= 0
     | Raise _ => False
     end.
Proof.
  split.
  - exact (proj1 (X15_her_reward example_engine_with_set_goal
                    example_reach_env [0; 0.6; 0.06; 0] [1; 0; 0; 0]
                    [0.01; 0.6; 0.06; 0.1] [0; 0.55; 0.06; 0.3] None)
             [0.01; 0.6; 0.06] 0.1 [0; 0.55; 0.06] 0.3
             [0.01 - 0; 0.6 - 0.55; 0.06 - 0.06]
             eq_refl eq_refl eq_refl).
  - destruct (compute_her_reward_np example_engine_with_set_goal
                example_reach_env [0; 0.6; 0.06; 0] [1; 0; 0; 0]
                [0.01; 0.6; 0.06; 0.1] [0; 0.55; 0.06; 0.3] None)
      as [r | ex] eqn:H.
    + destruct (proj1 (proj2 (X15_her_reward example_engine_with_set_goal
                                example_reach_env [0; 0.6; 0.06; 0]
                                [1; 0; 0; 0] [0.01; 0.6; 0.06; 0.1]
                                [0; 0.55; 0.06; 0.3] None))
                  r [0.01; 0.6; 0.06] 0.1 [0; 0.55; 0.06] 0.3
                  eq_refl eq_refl H) as [_ [Hdef Hneg]].
      split.
      * apply Hdef; reflexivity.
      * apply Hneg; try discriminate. exact example_norm_nonneg.
    + vm_compute in H. discriminate H.
Defined.

Lemma X16_snapshot_keeps_the_live_mocap_pose_witness :
  match set_env_state example_engine
          (set_data example_engine
             (example_env SawyerDoorPushOpenEnv "angle_difference" false)
             (set_mocap_pos example_engine example_data
                (mk_vec3 0.1 0.7 0.06)))
          (get_env_state example_engine
             (example_env SawyerDoorPushOpenEnv "angle_difference" false))
  with
  | Ok restored =>
      exists d,
        data restored = sim_forward example_engine d
        /\ mocap_pos d = mk_vec3 0.1 0.7 0.06
  | Raise _ => False
  end.
Proof.
  destruct (set_env_state example_engine
              (set_data example_engine
                 (example_env SawyerDoorPushOpenEnv "angle_difference" false)
                 (set_mocap_pos example_engine example_data
                    (mk_vec3 0.1 0.7 0.06)))
              (get_env_state example_engine
                 (example_env SawyerDoorPushOpenEnv "angle_difference"
                    false))) as [restored | ex] eqn:H.
  - destruct (X16_snapshot_keeps_the_live_mocap_pose example_engine _ _ _
                eq_refl eq_refl H)
      as [_ [_ [d [Hd [_ [_ [_ [Hm _]]]]]]]].
    exists d. split; [exact Hd | exact Hm].
  - vm_compute in H. discriminate H.
Defined.

Lemma X17_reset_mocap_welds_touches_welds_only_witness :
  exists rows',
    reset_mocap_welds example_engine example_data
    = sim_forward example_engine
        (set_eq_data example_engine example_data (Some rows'))
    /\ nth_error rows' 0 = Some identity_weld.
Proof.
  destruct (proj2 (X17_reset_mocap_welds_touches_welds_only example_engine
                     example_data) [[0; 0; 0; 0; 0; 0; 0]] eq_refl
              ltac:(simpl; lia)) as [rows' [H [_ Hnth]]].
  exists rows'. split; [exact H |].
  apply (Hnth 0%nat [0; 0; 0; 0; 0; 0; 0] eq_refl).
Defined.

Lemma X18_reach_step_raises_KeyError_witness :
  step example_engine_with_set_goal example_reach_env [2; -3; 0.5; 0]
  = Raise (KeyError (PyInt (-1))).
Proof.
  apply (proj2 (X18_reach_step_raises_KeyError example_engine_with_set_goal
                  example_reach_env [2; -3; 0.5; 0] eq_refl));
    reflexivity.
Defined.

Lemma X19_get_info_never_fails_witness :
  exists diff success,
    _get_info example_engine
      (example_env SawyerDoorPushOpenEnv "hand_success" false)
    = Ok [("angle_difference", diff); ("angle_success", success)]
    /\ List.length diff = 1%nat
    /\ Forall2
         (fun d s =>
            0 <= d /\ (d < 0.02 -> s = 1) /\ (0.02 <= d -> s = 0))
         diff success.
Proof.
  apply (X19_get_info_never_fails example_engine
           (example_env SawyerDoorPushOpenEnv "hand_success" false)).
  discriminate.
Defined.

Lemma X20_action_limited_set_to_goal_witness :
  match set_to_goal example_engine
          (example_env SawyerDoorPushOpenActionLimitedEnv "angle_difference"
             false) (ArgArray [0.2]) with
  | Ok e' =>
      _goal_angle e' = [0.2]
      /\ exists d,
           data e' = sim_forward example_engine d
           /\ - 0.1 <= vx (mocap_pos d) <= 0.1
           /\ 0.5 <= vy (mocap_pos d) <= 0.6
           /\ vz (mocap_pos d) == 0.06
  | Raise _ => False
  end.
Proof.
  destruct (set_to_goal example_engine
              (example_env SawyerDoorPushOpenActionLimitedEnv
                 "angle_difference" false) (ArgArray [0.2]))
    as [e' | ex] eqn:H.
  - apply (X20_action_limited_set_to_goal example_engine
             (example_env SawyerDoorPushOpenActionLimitedEnv
                "angle_difference" false) e' [0.2] eq_refl
             example_uniform_in_bounds (fun d => eq_refl)).
    + discriminate.
    + discriminate.
    + exact H.
  - vm_compute in H. discriminate H.
Defined.

Lemma X21_reach_set_to_goal_keeps_the_old_goal_position_witness :
  match set_to_goal example_engine_with_set_goal example_reach_env
          (ArgArray [0.05; 0.5; 0.06; 0.4]) with
  | Ok e' =>
      SawyerDoorPushOpenAndReachEnv_get_goal example_engine_with_set_goal e'
      = Ok [0; 0.55; 0.06; 0.4]
  | Raise _ => False
  end.
Proof.
  destruct (set_to_goal example_engine_with_set_goal example_reach_env
              (ArgArray [0.05; 0.5; 0.06; 0.4])) as [e' | ex] eqn:H.
  - apply (proj1 (proj2 (proj2
             (X21_reach_set_to_goal_keeps_the_old_goal_position
                example_engine_with_set_goal example_reach_env e'
                [0.05; 0.5; 0.06; 0.4] eq_refl H))) 0 0.55 0.06 eq_refl).
  - vm_compute in H. discriminate H.
Defined.

(** ** reset with a fixed goal: the dimension of the goal *)

(** C3: on the push-open variant with [fix_goal=True] and
    [fixed_goal=(0.15, 0.6, 0.3)], [reset()] called twice returns twice and
    both observations carry the same desired goal; but that goal is the
    whole array (0.15, 0.6, 0.3), not the angle 0.3.  It has three
    components where [goal_dim] is 1 and where every goal drawn without
    [fix_goal] has one; on the goal the environment then reports,
    [set_to_goal] raises [ValueError], and the reward of the next step has
    three entries instead of one. *)
Theorem C3_fixed_goal_is_not_an_angle :
  exists e1 obs1 e2 obs2,
    reset example_engine
      (example_env SawyerDoorPushOpenEnv "angle_difference" true) true
    = Ok (e1, obs1)
    /\ reset example_engine e1 true = Ok (e2, obs2)
    /\ desired_goal obs1 = [0.15; 0.6; 0.3]
    /\ desired_goal obs2 = desired_goal obs1
    /\ desired_goal obs1 <> [0.3]
    /\ List.length (desired_goal obs1) <> goal_dim SawyerDoorPushOpenEnv
    /\ Forall (fun g => List.length g = goal_dim SawyerDoorPushOpenEnv)
         (gb_desired_goal
            (fst (SawyerDoorEnv_sample_goals example_engine
                    (example_env SawyerDoorPushOpenEnv "angle_difference"
                       false) 2)))
    /\ set_to_goal example_engine e2
         (ArgDict (SawyerDoorEnv_get_goal example_engine e2))
       = Raise (ValueError "setting an array element with a sequence.")
    /\ exists e3 obs3 reward info,
         step example_engine e2 [1; 0; 0; 0]
         = Ok (e3, (obs3, reward, false, info))
         /\ List.length reward = 3%nat.
Proof.
  eexists. eexists. eexists. eexists.
  split; [vm_compute; reflexivity |].
  split; [vm_compute; reflexivity |].
  split; [reflexivity |]. split; [reflexivity |].
  split; [discriminate |]. split; [discriminate |].
  split; [repeat constructor |].
  split; [vm_compute; reflexivity |].
  eexists. eexists. eexists. eexists.
  split; [vm_compute; reflexivity | reflexivity].
Qed.

(** ** Snapshots on a state a step has left behind *)

Section RoundTrip.

Context (E : Engine).

Lemma set_env_state_data (e e' : Env E) (state : EnvState) :
  set_env_state E e state = Ok e' -> exists d, data e' = sim_forward E d.
Proof.
  unfold set_env_state. intros H.
  apply bind_Ok_inv in H. destruct H as [d [_ H]].
  injection H as H. subst e'.
  eexists. reflexivity.
Qed.

Lemma round_trip_identity (e : Env E) :
  sim_forward E (data e) = data e ->
  set_env_state E e (get_env_state E e) = Ok e.
Proof.
  intros Hfwd. rewrite set_env_state_get_env_state, Hfwd.
  destruct e. reflexivity.
Qed.

Lemma step_data (e e' : Env E) (a : ndarray)
  (out : Obs * ndarray * bool * Info) :
  step E e a = Ok (e', out) ->
  exists d, data e' = Nat.iter (frame_skip e) (sim_step E) d.
Proof.
  unfold step. intros H.
  assert (Hbase : SawyerDoorEnv_step E e a = Ok (e', out)).
  { destruct (klass e); try exact H.
    exfalso.
    apply (raises_not_Ok _ _ (SawyerDoorPushOpenAndReachEnv_step_raises E e a)
             H). }
  clear H. unfold SawyerDoorEnv_step in Hbase.
  apply bind_Ok_inv in Hbase. destruct Hbase as [e1 [H1 H]].
  apply bind_Ok_inv in H. destruct H as [info [_ H]].
  apply bind_Ok_inv in H. destruct H as [reward [_ H]].
  assert (He' : e' = do_simulation E e1 (repeat 0 7) (frame_skip e1))
    by congruence.
  destruct (mocap_set_action_inv E e e1 _ H1) as [_ [_ He1]].
  assert (Hfs : frame_skip e1 = frame_skip e) by (rewrite He1; reflexivity).
  rewrite He', Hfs. unfold do_simulation. cbn [data set_data].
  eexists. reflexivity.
Qed.

End RoundTrip.

(** C10, as first stated, fails on the code.  On the lagging engine, take
    the state one step after a reset, a reachable state.  Two more steps
    from it end with the end effector at x = 3/400; after
    [set_env_state(get_env_state())] the same two steps end with it at
    x = 1/100: the [sim.forward()] of the restore has brought the end
    effector position up to date, and the next step moves the mocap target
    from there. *)
Lemma C10_round_trip_after_a_step_changes_later_steps :
  exists e0 obs0 e out e1 s out2 s' out2',
    reset lagged_engine lagged_env true = Ok (e0, obs0)
    /\ step lagged_engine e0 [1; 0; 0; 0] = Ok (e, out)
    /\ set_env_state lagged_engine e (get_env_state lagged_engine e) = Ok e1
    /\ two_steps e [1; 0; 0; 0] = Ok (s, out2)
    /\ two_steps e1 [1; 0; 0; 0] = Ok (s', out2')
    /\ nth 0 (observation (fst (fst (fst out2)))) 0 == 3 # 400
    /\ nth 0 (observation (fst (fst (fst out2')))) 0 == 1 # 100
    /\ ~ nth 0 (observation (fst (fst (fst out2)))) 0
         == nth 0 (observation (fst (fst (fst out2')))) 0.
Proof.
  eexists. eexists. eexists. eexists. eexists. eexists. eexists. eexists.
  eexists.
  split; [vm_compute; reflexivity |].
  split; [vm_compute; reflexivity |].
  split; [vm_compute; reflexivity |].
  split; [vm_compute; reflexivity |].
  split; [vm_compute; reflexivity |].
  split; [vm_compute; reflexivity |].
  split; [vm_compute; reflexivity |].
  vm_compute. discriminate.
Qed.

(** C10 as amended: [set_env_state(get_env_state())] writes back the joint
    state, the mocap pose and the goal angle it has just read and calls
    [sim.forward()] once, so it returns, and the environment afterwards is
    the one before with [sim.forward()] applied to its simulator data.  The
    round trip leaves the environment as it was exactly when [sim.forward()]
    leaves the simulator data as they are.  With a [sim.forward()] that is
    idempotent this is so on every state that [reset] or [set_env_state]
    has returned; with a simulator whose sub-step leaves the derived
    quantities up to date, so that [sim.forward()] after [sim.step()]
    changes nothing, it is so on every state that a [step] of at least one
    sub-step has returned.  On those states the round trip restores the
    full state, and every later [step] gives the same observation, reward,
    done flag, info and next state as without it. *)
Theorem C10_round_trip_is_one_forward (E : Engine) (e : Env E) :
  set_env_state E e (get_env_state E e)
  = Ok (set_data E e (sim_forward E (data e)))
  /\ (set_env_state E e (get_env_state E e) = Ok e
      <-> sim_forward E (data e) = data e)
  /\ (forward_idempotent E ->
      forall e0,
        (exists resample obs, reset E e0 resample = Ok (e, obs))
        \/ (exists state, set_env_state E e0 state = Ok e) ->
        set_env_state E e (get_env_state E e) = Ok e
        /\ forall e1 a,
             set_env_state E e (get_env_state E e) = Ok e1 ->
             step E e1 a = step E e a)
  /\ ((forall d, sim_forward E (sim_step E d) = sim_step E d) ->
      forall e0 a0 out0,
        (0 < frame_skip e0)%nat ->
        step E e0 a0 = Ok (e, out0) ->
        set_env_state E e (get_env_state E e) = Ok e
        /\ forall e1 a,
             set_env_state E e (get_env_state E e) = Ok e1 ->
             step E e1 a = step E e a).
Proof.
  split; [| split; [| split]].
  - apply set_env_state_get_env_state.
  - split.
    + intros H. rewrite set_env_state_get_env_state in H.
      assert (H' : set_data E e (sim_forward E (data e)) = e) by congruence.
      apply (f_equal data) in H'. exact H'.
    + apply round_trip_identity.
  - intros Hidem e0 Hreach.
    assert (Hd : exists d, data e = sim_forward E d).
    { destruct Hreach as [[resample [obs H]] | [state H]].
      - destruct (reset_inv E e0 e resample obs H) as [_ [[d [Hd _]] _]].
        exists d. exact Hd.
      - apply (set_env_state_data E e0 e state H). }
    destruct Hd as [d Hd].
    assert (Hid : set_env_state E e (get_env_state E e) = Ok e).
    { apply round_trip_identity. rewrite Hd. apply Hidem. }
    split; [exact Hid |].
    intros e1 a H1. rewrite Hid in H1.
    assert (He1 : e1 = e) by congruence.
    rewrite He1. reflexivity.
  - intros Hfresh e0 a0 out0 Hfs Hstep.
    destruct (step_data E e0 e a0 out0 Hstep) as [d Hd].
    assert (Hid : set_env_state E e (get_env_state E e) = Ok e).
    { apply round_trip_identity. rewrite Hd.
      destruct (frame_skip e0) as [| n]; [inversion Hfs |].
      cbn [Nat.iter]. apply Hfresh. }
    split; [exact Hid |].
    intros e1 a H1. rewrite Hid in H1.
    assert (He1 : e1 = e) by congruence.
    rewrite He1. reflexivity.
Qed.

Lemma C10_round_trip_is_one_forward_witness :
  match reset lagged_engine lagged_env true with
  | Ok (e, _) =>
      set_env_state lagged_engine e (get_env_state lagged_engine e) = Ok e
      /\ forall e1 a,
           set_env_state lagged_engine e (get_env_state lagged_engine e)
           = Ok e1 ->
           step lagged_engine e1 a = step lagged_engine e a
  | Raise _ => False
  end
  /\ match step example_engine
             (example_env SawyerDoorPushOpenEnv "angle_difference" false)
             [1; 0; 0; 0] with
     | Ok (e, _) =>
         set_env_state example_engine e (get_env_state example_engine e)
         = Ok e
         /\ forall e1 a,
              set_env_state example_engine e (get_env_state example_engine e)
              = Ok e1 ->
              step example_engine e1 a = step example_engine e a
     | Raise _ => False
     end.
Proof.
  split.
  - destruct (reset lagged_engine lagged_env true) as [[e obs] | ex] eqn:H.
    + apply (proj1 (proj2 (proj2
               (C10_round_trip_is_one_forward lagged_engine e)))
               (fun d => eq_refl) lagged_env).
      left. exists true, obs. exact H.
    + vm_compute in H. discriminate H.
  - destruct (step example_engine
                (example_env SawyerDoorPushOpenEnv "angle_difference" false)
                [1; 0; 0; 0]) as [[e out] | ex] eqn:H.
    + apply (proj2 (proj2 (proj2
               (C10_round_trip_is_one_forward example_engine e)))
               (fun d => eq_refl)
               (example_env SawyerDoorPushOpenEnv "angle_difference" false)
               [1; 0; 0; 0] out).
      * simpl. lia.
      * exact H.
    + vm_compute in H. discriminate H.
Defined.
